(* ===== verification/_CoqProject ===== *)
-Q . S2P
Prelude.v
PyValue.v
JsonDict.v
Deque.v
Smoothing.v
Host.v
Server.v
Client.v
Concurrency.v
Commute.v
EndToEnd.v
Startup.v
Progress.v
