(* ===== verification/Prelude.v ===== *)
(** * Qr-Mouse-Control: a verification development of [src/mouse_control_server.py]

    The program is a Flask server (Python) and a page of JavaScript that the
    server sends to the phone.  The page turns finger drags on a touch surface
    into relative deltas [(dx, dy)] and posts them to [POST /move]; two
    buttons post [{"button": "left" | "right"}] to [POST /click].  The server
    keeps one process-wide [deque(maxlen=5)] of the last samples
    ([movement_history], line 21), averages it, reads the host cursor with
    [pyautogui.position()] and moves it with
    [pyautogui.moveTo(x + avg_dx, y + avg_dy, duration=0.05)].

    ** Files, in dependency order, and what they model

    - [Prelude] (this file): the notation scope [mc_scope], the hint database
      [mc], the tactics [case_if] and [inv_eq], and generic lemmas on lists
      ([lastn n l], the suffix a bounded FIFO keeps) and on sums and means of
      rationals ([qsum], [qmean]).
    - [PyValue]: the Python values [request.get_json()] hands to the
      handlers ([pyval]: None, bool, int, float, str, list, dict), the
      operators the handlers apply to them ([py_contains] for [k in data],
      [py_getitem] for [data[k]], [py_eq_str] for [== 'left']), the numeric
      tower of [+] and [/] ([num], [num_add], [py_truediv]), the built-in
      [sum] ([py_sum], a left fold from the int 0 that raises [TypeError] on
      the first non-number), the exceptions with their [str(e)] text
      (CPython 3.12), and [PyM], a state and exception monad whose
      [try_except] is Python's [try/except]: effects made before an exception
      are kept.
    - [JsonDict]: the dict [json.loads] builds from a JSON object, members
      set one after the other ([dict_set], [dict_of], [dict_get]), the
      reference for the model's direct reads of the body's pairs.
    - [Deque]: [collections.deque(maxlen=N)]: [deque_append] (append on the
      right, pop the leftmost when over [maxlen], bump CPython's mutation
      counter), [deque_len]; invariant [deque_wf] ([len <= maxlen]).
    - [Smoothing]: the Smoothing Filter, lines 117-121 of [move()]:
      [record_and_average] appends the sample then computes
      [sum(m[i] for m in movement_history) / len(movement_history)] for both
      coordinates ([average_coord]).  Its abstract contract is [window_mean]
      (per-coordinate mean of the last [N] samples) and [smooth_refines] is
      the refinement theorem; [smooth_state] says the append is its only
      effect, [smooth_bad] that a non-number in the window makes it raise.
    - [Host]: [pyautogui] as the type class [HostInput] (three fallible
      operations on an abstract host state), the observable [event]s (host
      calls and print lines), and two instances: [FakeHost] (a cursor, a
      click log and an optional failure) and [IdealHost] (never raises).
    - [Server]: [index], [move] (= guard, [try_except] of [move_body] =
      subscripts, Smoothing step, [move_to_target], with handler
      [move_except]) and [click] (= guard, [click_body], [click_except]),
      written statement by statement from lines 105-149, for any host
      instance; [handle] routes a request, [serve] turns an escaping
      exception into HTTP 500, [serve_all] runs requests one after the other
      on [(history, host, trace)]: the requests that do not overlap in
      time; the threads of [app.run] are modelled in [Concurrency].
    - [Client]: the page's script (lines 51-99) as a step function
      [client_step] on [(lastX, lastY)] producing the requests it posts;
      [json_number] is [JSON.stringify] followed by [json.loads].
    - [Concurrency]: Flask's threaded workers running the handlers at once.
      A thread is a [phase] (its program counter with its locals) and
      [thread_step] one atomic step of lines 107-148: for [move()] the
      guard, the append, creating a deque iterator, one [next] of it inside
      [sum], one [len], [position()], the print, [moveTo()], the except
      handler; for [click()] the guard with [data['button']], [click()], the
      except handler; [index()] in one step.  [req_phase] starts the thread
      of a request.  The steps run on the
      shared history and host; [iter_next] is CPython's deque iterator, which
      checks the mutation counter on every call.  A schedule (a list of
      thread indices) runs an interleaving ([run_sched]); [gstep] and
      [reachable] close over all of them.  [g_log] is ghost state recording
      the appends in order.
    - [Commute]: the footprint of each atomic step on the shared state
      ([reads_hist], [writes_hist] for [movement_history]; [uses_host] for
      [pyautogui] and the output), [independent] steps, and the frame
      lemmas of [thread_step] they rest on.
    - [EndToEnd]: the page and the threaded server together.  The page
      posts each move with a [fetch] it does not await, so the requests of
      one drag may overlap on the server: [page_inv] is an invariant of
      every interleaving of the threads of the page's requests, and
      [serial_run] runs them on the serial schedules, where they do not
      overlap.
    - [Progress]: a bound on the steps every thread still takes
      ([phase_bound], with the window's [maxlen] in place of its length) and
      its sum over all threads ([gmeasure]), which every step lowers.
    - [Startup]: [get_ip()] (lines 8-15) over the socket interface
      [SocketAPI], with its [try/finally] ([PyValue.try_finally]), the
      pairing URL of line 154, [main] ([__main__], lines 151-168: [get_ip],
      then the [qrcode], [print] and [app.run] calls, logged, each of which
      may raise, through the class [StartupLib]), and [FakeNet], a network
      with or without a route.

    ** What the theorems show

    - The motion pipeline ([Server.move_moves_cursor_by_window_mean]): a move
      with numeric fields sends the cursor from [(x, y)] to [(x, y)] plus the
      mean of the last five samples, with the calls in the code's order, on
      the success and on the host-failure branch.
    - The window ([Server.history_is_last_five_samples],
      [Server.history_bound_invariant], [Smoothing.average_before_eviction],
      [Smoothing.average_ignores_evicted], [Smoothing.average_constant]):
      FIFO of the last five accepted samples, bounded by five over every
      run, exact means before eviction, no influence of evicted samples,
      idempotence ([Smoothing.spec_scenario_averages] evaluates the spec's
      scenario), and no amplification ([Smoothing.average_bounded]: each average is at most
      the largest magnitude in the window).
    - Error paths ([Server.bad_sample_fails_next_four],
      [Server.move_missing_key], [Server.non_container_body_uncaught],
      [Server.move_sequence_body], [Server.click_missing_button]): what each
      malformed request (a non-number, a missing key, a body that is not an
      object: null, a number, an array, a string) does to the
      answer, the trace and the state.  Clicks ([Server.click_button_clicks],
      [Server.click_other_value_succeeds]).
    - The page ([Client.page_requests_typed], [Client.drag_deltas_sum],
      [Client.no_move_outside_drag]): every request the page posts is a
      message of the protocol ([dx]/[dy] numbers that cross JSON unchanged,
      or a string [button]), the deltas of a drag add up to twice the
      finger's displacement, and nothing but clicks is posted outside a
      drag.  The floors of [moveTo] cost less than a pixel per move,
      always towards the left and top ([Client.cursor_drift_bounded],
      against [Client.exact_travel]).
    - The page and the threaded server ([EndToEnd.page_requests_succeed_or_race]):
      under every interleaving of the page's requests, on a host that never
      raises, a request fails only with "deque mutated during iteration"
      (the race of two overlapping moves), never otherwise.  On the serial
      schedules, when the page's requests do not overlap
      ([EndToEnd.straight_drag_serial], [EndToEnd.varying_drag_serial]),
      every request succeeds; a drag at constant speed moves an
      [IdealHost] cursor by exactly the sum of its deltas, and at any speed
      by [Client.travel], the sum over the moves of the floored mean of the
      last five deltas.
    - Concurrency ([Concurrency.concurrent_window_invariant],
      [Concurrency.concurrent_sum_is_snapshot]): under every interleaving the
      window is the last five appends in order and each completed [sum] is
      the sum of a window that existed (by rule induction on [reachable]);
      [Concurrency.race_average_of_no_window] and
      [Concurrency.race_mutated_during_iteration]: for every window and every
      two numeric moves, an interleaving averages the sum of one window over
      the length of another, and another makes one move fail with a
      [RuntimeError];
      [Concurrency.solo_request_refines] is the refinement of the handlers
      ([Server.serve]) by the step semantics: one thread alone ends within
      [2 * len + 14] steps
      with the sequential answer and state, through the simulation
      [Concurrency.denote_step] and the measure [Concurrency.solo_measure];
      [Concurrency.serial_requests_refine] extends it to several requests that
      do not overlap in time: run one after the other, the threads give the
      answers and the state of [Server.serve_all].
    - Commutation ([Commute.sched_step_commute],
      [Commute.local_step_moves]): two steps of different threads whose
      footprints are independent give the same state, output and threads
      in either order (the diamond property), and a step that touches
      neither the window nor the host (the guards, the subscripts,
      [index()]) moves past any run of the other threads' steps: which
      interleavings are equivalent, and that only the append, the two
      [sum] loops, [len] and the host calls can race.  Reduction
      ([Commute.reader_steps_first]): when no other thread appends while a
      thread runs steps that neither append nor call the host (a [move()]
      averaging after its own append), the interleaving equals the one in
      which that thread's steps come first: the averaging is as if it held
      the lock the spec asks for, and only appends need excluding.
    - Progress ([Progress.interleavings_bounded],
      [Progress.interleavings_terminate], [Progress.all_threads_can_finish])
      is the bookkeeping of the schedules: no handler loops and the model's
      host calls return, so no interleaving of the threads of [n] requests
      takes more than [(2 * maxlen + 12) * n] steps.
    - Inputs: the model's reads of a JSON object agree with the dict
      [json.loads] builds, a repeated key keeping its last value
      ([JsonDict.dict_lookup_equiv], a check of the model against the
      reference, not a property of the code).
    - Start-up ([Startup.get_ip_closes_socket], [Startup.get_ip_result],
      [Startup.get_ip_fake_net]): the socket is closed exactly once and last
      on every path, the result and errors of [get_ip], and on [FakeNet] no
      socket leaks;
      [Startup.main_starts_after_pairing]: [__main__] makes its library
      calls in the code's order, lets out the first exception raised (by
      [get_ip] or any later call), and reaches [app.run] only when every
      call before it returned.
    The witnesses run these theorems on [FakeHost] / [IdealHost] at concrete
    requests.  No function needs fuel: every one is structural; the only
    bound is the number of scheduler steps of [solo_request_refines], which
    is exact for the worst path of [move()] (two passes over a window of
    [len + 1] items); the other handlers need at most three steps.

    ** What modelling showed

    The sample is appended before [sum] checks it, so one non-numeric sample
    makes that request and the next four moves fail; [/click] answers success
    for a button other than left/right without clicking; a JSON body that is
    null, a boolean or a number raises outside the [try] (HTTP 500); with
    no lock around lines 117-121, concurrent moves can average the sum of
    one window over the length of another, or fail with "deque mutated
    during iteration"; on a LAN without a default route [get_ip] raises and
    the server does not start; on a host that keeps whole pixels by
    flooring, slow drags lose up to a pixel per move to the left and top
    (five one-pixel steps right after a pause move the cursor one pixel,
    the same steps left move it five).

    ** Abstractions and what is not modelled (Not modelled)

    Python floats and JavaScript numbers are exact rationals [Q] (ints are
    [Z]): rounding to doubles, NaN and infinities are not modelled, so
    statements about averages are exact-arithmetic statements, stated up to
    [Qeq].  The JSON parser, Flask's HTTP layer and the HTML markup are not
    modelled: a request is the value [get_json()] returned, and the answer
    is the value [jsonify] is given.  [print] is an event carrying the
    printed values.  What [qrcode] and [app.run] do inside the calls
    [__main__] makes is the libraries' and is not modelled (the calls
    themselves are); the page's [.then(...)] chain only logs the answer on
    the phone's console.  The interpreter's own semantics in [PyValue]
    ([pyval], [exn] and its [str()], [num], [py_add], [py_sum],
    [py_truediv]) is a model of CPython that the handlers' translations
    call; it is not code of the repository and stands for no lines of it,
    so that component is only partly modelled.  Likewise [pyautogui] is
    the interface [HostInput]: the theorems hold for every instance, and
    the two instances ([FakeHost], [IdealHost]) keep whole pixels by
    flooring, which is an assumption about the library, not its code.  The
    HTML template (lines 23-50 and 100-103) is markup and style with no
    behaviour.  Two consequences of the exact rationals: CPython's
    [int / int] raises [OverflowError] when an int is too large for a
    double, and a [sum] of huge ints divided by [len] does too; the model
    divides exactly and never raises there.  Host calls are single steps
    that return: a [moveTo] that blocks (its [duration=0.05] sleep, or a
    lock inside [pyautogui]) is not modelled, so the interleavings are
    those of the steps listed in [Concurrency].

    ** Left open

    1. The reduction of [Commute.reader_steps_first] moves a thread's
       reads before other threads' steps; moving its append as well needs
       the other threads not to read the window meanwhile, which the
       theorems state only for single steps ([Commute.sched_step_commute]).
    2. How the real [pyautogui] turns a fractional target into a pixel
       (the bound of [Client.cursor_drift_bounded] is for a flooring host)
       and the rounding of float sums, which the exact rationals ignore.
*)

From Stdlib Require Import List Arith Lia ZArith QArith Qabs Qround Lqa Morphisms.
Import ListNotations.

Declare Scope mc_scope.
Delimit Scope mc_scope with mc.

Create HintDb mc discriminated.
Create Rewrite HintDb mc.

(** ** The last [n] elements of a list *)

Definition lastn {A} (n : nat) (l : list A) : list A :=
  skipn (length l - n) l.

Section Lastn.
Local Open Scope nat_scope.
Context {A : Type}.
Implicit Types (l : list A) (x : A) (n : nat).

Lemma length_lastn n l : length (lastn n l) = Nat.min n (length l).
Proof. unfold lastn. rewrite length_skipn. lia. Qed.

Lemma lastn_all n l : length l <= n -> lastn n l = l.
Proof. intros H. unfold lastn. replace (length l - n) with 0 by lia. reflexivity. Qed.

Lemma lastn_app_ge n l1 l2 : length l2 <= n -> length l1 + length l2 >= n ->
  lastn n (l1 ++ l2) = lastn (n - length l2) l1 ++ l2.
Proof.
  intros H1 H2. unfold lastn. rewrite length_app, skipn_app.
  replace (length l1 + length l2 - n - length l1) with 0 by lia.
  f_equal. f_equal. lia.
Qed.

(** One more element on the right drops the leftmost one once the list is
    full: the law of a bounded FIFO. *)
Lemma lastn_snoc n l x :
  lastn (S n) (l ++ [x]) = lastn n l ++ [x].
Proof.
  unfold lastn. rewrite length_app, skipn_app. simpl.
  replace (length l + 1 - S n - length l) with 0 by lia.
  f_equal. f_equal. lia.
Qed.

Lemma lastn_lastn n m l : n <= m -> lastn n (lastn m l) = lastn n l.
Proof.
  intros H. unfold lastn. rewrite length_skipn, skipn_skipn. f_equal. lia.
Qed.

Lemma lastn_0 l : lastn 0 l = [].
Proof. unfold lastn. rewrite Nat.sub_0_r. apply skipn_all. Qed.

Lemma lastn_lastn_snoc n l x : lastn n (lastn n l ++ [x]) = lastn n (l ++ [x]).
Proof.
  destruct n as [|m]; [now rewrite !lastn_0|].
  rewrite !lastn_snoc, lastn_lastn by lia. reflexivity.
Qed.

(** What a bounded FIFO keeps of [l ++ r] depends only on what it kept of [l]. *)
Lemma lastn_lastn_app n l r : lastn n (lastn n l ++ r) = lastn n (l ++ r).
Proof.
  revert l. induction r as [|y r IH]; intros l.
  - rewrite !app_nil_r. apply lastn_lastn. lia.
  - replace (lastn n l ++ y :: r) with ((lastn n l ++ [y]) ++ r) by now rewrite <- app_assoc.
    replace (l ++ y :: r) with ((l ++ [y]) ++ r) by now rewrite <- app_assoc.
    rewrite <- IH, lastn_lastn_snoc, IH. reflexivity.
Qed.

(** Elements older than the last [n] are forgotten. *)
Lemma lastn_app_long n l r : n <= length r -> lastn n (l ++ r) = lastn n r.
Proof.
  intros H. unfold lastn. rewrite length_app, skipn_app, skipn_all2 by lia.
  simpl. f_equal. lia.
Qed.

(** An element followed by fewer than [n] others is still in the last [n]. *)
Lemma lastn_keeps n l x r : length r < n -> exists pre, lastn n (l ++ x :: r) = pre ++ x :: r.
Proof.
  intros H. destruct (Nat.le_gt_cases n (length l + S (length r))) as [Hge|Hlt].
  - exists (lastn (n - length (x :: r)) l). apply lastn_app_ge; simpl; lia.
  - exists l. apply lastn_all. rewrite length_app. simpl. lia.
Qed.

Lemma lastn_map {B} (f : A -> B) n l : map f (lastn n l) = lastn n (map f l).
Proof. unfold lastn. now rewrite skipn_map, length_map. Qed.

Lemma firstn_succ_nth_error l i x :
  nth_error l i = Some x -> firstn (S i) l = firstn i l ++ [x].
Proof.
  revert i. induction l as [|y l IH]; intros [|i] H; simpl in *; try discriminate.
  - now injection H as ->.
  - now rewrite (IH i H).
Qed.

Lemma skipn_nth_error l i x :
  nth_error l i = Some x -> skipn i l = x :: skipn (S i) l.
Proof.
  revert i. induction l as [|y l IH]; intros [|i] H; simpl in *; try discriminate.
  - now inversion H.
  - now apply IH.
Qed.

Lemma skipn_repeat i x m : skipn i (repeat x m) = repeat x (m - i).
Proof.
  revert m. induction i as [|i IH]; intros [|m]; simpl; rewrite ?Nat.sub_0_r; auto.
Qed.

Lemma lastn_repeat n x m : lastn n (repeat x m) = repeat x (Nat.min n m).
Proof. unfold lastn. rewrite repeat_length, skipn_repeat. f_equal. lia. Qed.

Lemma lastn_suffix n l : exists pre, l = pre ++ lastn n l.
Proof. exists (firstn (length l - n) l). symmetry. apply firstn_skipn. Qed.
End Lastn.

#[export] Hint Rewrite @length_lastn @lastn_snoc : mc.

(** An element on which a boolean test fails, and its index. *)
Lemma forallb_false_nth {A} (f : A -> bool) l :
  forallb f l = false -> exists i x, nth_error l i = Some x /\ f x = false.
Proof.
  induction l as [|x l IH]; simpl; [discriminate|]. intros E.
  destruct (f x) eqn:Ex; simpl in E.
  - destruct (IH E) as [i [y Hy]]. now exists (S i), y.
  - now exists 0%nat, x.
Qed.

(** ** Sums and means of rationals *)

Local Open Scope Q_scope.

Definition qsum (l : list Q) : Q := fold_right Qplus 0 l.

Definition qmean (l : list Q) : Q := qsum l / inject_Z (Z.of_nat (length l)).

Lemma qsum_app l1 l2 : qsum (l1 ++ l2) == qsum l1 + qsum l2.
Proof. induction l1 as [|a l IH]; simpl; [ring | rewrite IH; ring]. Qed.

Lemma qsum_repeat q n : qsum (repeat q n) == inject_Z (Z.of_nat n) * q.
Proof.
  induction n as [|n IH]; [simpl; ring|].
  rewrite Nat2Z.inj_succ, <- Z.add_1_r, inject_Z_plus. simpl qsum. rewrite IH. ring.
Qed.

Lemma inject_Z_of_nat_pos n : (0 < n)%nat -> ~ inject_Z (Z.of_nat n) == 0.
Proof.
  intros H E. unfold Qeq in E. simpl in E. lia.
Qed.

(** An integer is its own reduced fraction. *)
Lemma Qred_inject_Z k : Qred (inject_Z k) = inject_Z k.
Proof.
  unfold Qred, inject_Z. pose proof (Z.ggcd_correct_divisors k 1) as Hd.
  pose proof (Z.ggcd_gcd k 1) as Hg. destruct (Z.ggcd k 1) as [g [ka kb]].
  simpl in Hg, Hd |- *. rewrite Z.gcd_1_r in Hg. subst g.
  destruct Hd as [Ha Hb]. rewrite Z.mul_1_l in Ha, Hb. now subst.
Qed.

Lemma qmean_repeat q n : (0 < n)%nat -> qmean (repeat q n) == q.
Proof.
  intros H. unfold qmean. rewrite repeat_length, qsum_repeat.
  field. now apply inject_Z_of_nat_pos.
Qed.

(** A sum of [n] numbers of magnitude at most [M] has magnitude at most
    [n * M]; so has a mean, at most [M]. *)
Lemma qsum_abs_le l M :
  Forall (fun x => Qabs x <= M) l -> Qabs (qsum l) <= inject_Z (Z.of_nat (length l)) * M.
Proof.
  induction 1 as [|x l Hx Hl IH]; simpl qsum.
  - simpl. setoid_replace (0 * M) with 0 by ring. apply Qle_refl.
  - apply Qle_trans with (Qabs x + Qabs (qsum l)); [apply Qabs_triangle|].
    simpl length. rewrite Nat2Z.inj_succ, <- Z.add_1_r, inject_Z_plus.
    setoid_replace ((inject_Z (Z.of_nat (length l)) + inject_Z 1) * M)
      with (M + inject_Z (Z.of_nat (length l)) * M) by (simpl; ring).
    now apply Qplus_le_compat.
Qed.

Lemma qmean_abs_le l M : l <> [] -> Forall (fun x => Qabs x <= M) l -> Qabs (qmean l) <= M.
Proof.
  intros Hne Hl. unfold qmean.
  assert (Hn : 0 < inject_Z (Z.of_nat (length l))).
  { unfold Qlt. simpl. destruct l; [congruence | simpl; lia]. }
  unfold Qdiv. rewrite Qabs_Qmult, Qabs_Qinv, (Qabs_pos (inject_Z _)) by (apply Qlt_le_weak, Hn).
  apply Qle_shift_div_r; [exact Hn|]. rewrite Qmult_comm. now apply qsum_abs_le.
Qed.

#[export] Instance qsum_Proper : Proper (Forall2 Qeq ==> Qeq) qsum.
Proof. intros l1 l2 H. induction H; simpl; [reflexivity | now rewrite H, IHForall2]. Qed.

#[export] Hint Resolve inject_Z_of_nat_pos : mc.

(** [int] plus a float, floored: the integer part comes out. *)
Lemma Qfloor_plus_Z (z : Z) q : Qfloor (inject_Z z + q) = (z + Qfloor q)%Z.
Proof.
  destruct q as [n d]. unfold Qfloor, Qplus, inject_Z. simpl Qnum; simpl Qden.
  rewrite Z.mul_1_r, Pos.mul_1_l, Z.add_comm, Z.div_add by lia. lia.
Qed.

(** ** Tactics shared by the development *)

(** Case on every [if]/[match] scrutinee of the goal that is a variable-free
    boolean test, keeping the equation. *)
Ltac case_if :=
  match goal with
  | |- context [if ?b then _ else _] => let E := fresh "E" in destruct b eqn:E
  end.

(** Close a goal in which a hypothesis is an equation between distinct
    constructors, or unfold an injection. *)
Ltac inv_eq :=
  repeat match goal with
  | H : Some _ = Some _ |- _ => injection H as H
  | H : inl _ = inl _ |- _ => injection H as H
  | H : inr _ = inr _ |- _ => injection H as H
  | H : (_, _) = (_, _) |- _ => injection H as H
  end; subst; try discriminate.

(** Case on every [match] the goal is stuck on, innermost scrutinee first. *)
Ltac destruct_matches :=
  repeat match goal with
  | |- context [match ?x with _ => _ end] => destruct x
  end.
