(* ===== verification/PyValue.v ===== *)
(** * PyValue: the Python values and operations the handlers use

    [request.get_json()] turns the JSON body into a Python value; this file
    models those values ([pyval]), the operators [move()] and [click()] apply
    to them ([k in data], [data[k]], [v == 'left']), Python's numeric addition
    and true division as the built-in [sum] and [/] use them, the exceptions
    they raise with the text [str(e)] gives (CPython 3.12), and [PyM], a
    state and exception monad in which [try_except] is a Python [try/except]
    block: state changes made before an exception are kept. *)

From Stdlib Require Import List Bool ZArith QArith String Lia.
From S2P Require Import Prelude.
Import ListNotations.
Local Open Scope string_scope.

(** ** Values *)

(** A JSON object is kept as its key/value pairs in the order of the body;
    [json.loads] keeps the last value of a repeated key ([dict_lookup]). *)
Inductive pyval : Type :=
| PNone
| PBool (b : bool)
| PInt (z : Z)
| PFloat (q : Q)
| PStr (s : string)
| PList (l : list pyval)
| PDict (kvs : list (string * pyval)).

Definition type_name (v : pyval) : string :=
  match v with
  | PNone => "NoneType"
  | PBool _ => "bool"
  | PInt _ => "int"
  | PFloat _ => "float"
  | PStr _ => "str"
  | PList _ => "list"
  | PDict _ => "dict"
  end.

(** ** Exceptions *)

Inductive exn : Type :=
| TypeError (msg : string)
| KeyError (key : string)
| ZeroDivisionError (msg : string)
| RuntimeError (msg : string)
| HostError (msg : string)    (** raised by [pyautogui] *)
| OSError (msg : string).     (** raised by [socket] *)

(** [str(e)]: a [KeyError] prints the repr of its key. *)
Definition exn_str (e : exn) : string :=
  match e with
  | TypeError m | ZeroDivisionError m | RuntimeError m | HostError m | OSError m => m
  | KeyError k => "'" ++ k ++ "'"
  end.

(** ** Numbers: [bool] and [int] add as ints, anything with a [float] is a float *)

Inductive num : Type := NInt (z : Z) | NFloat (q : Q).

Definition num_val (n : num) : Q :=
  match n with NInt z => inject_Z z | NFloat q => q end.

Definition num_type_name (n : num) : string :=
  match n with NInt _ => "int" | NFloat _ => "float" end.

Definition as_num (v : pyval) : option num :=
  match v with
  | PBool b => Some (NInt (if b then 1 else 0)%Z)
  | PInt z => Some (NInt z)
  | PFloat q => Some (NFloat q)
  | _ => None
  end.

Definition num_add (a b : num) : num :=
  match a, b with
  | NInt x, NInt y => NInt (x + y)
  | _, _ => NFloat (num_val a + num_val b)
  end.

(** [acc + v] as [sum] performs it, with the accumulator on the left. *)
Definition py_add (acc : num) (v : pyval) : exn + num :=
  match as_num v with
  | Some n => inr (num_add acc n)
  | None => inl (TypeError ("unsupported operand type(s) for +: '"
                            ++ num_type_name acc ++ "' and '" ++ type_name v ++ "'"))
  end.

(** The built-in [sum(it)]: a left fold from the int [0]. *)
Fixpoint py_sum_from (acc : num) (l : list pyval) : exn + num :=
  match l with
  | [] => inr acc
  | v :: l' =>
      match py_add acc v with
      | inl e => inl e
      | inr acc' => py_sum_from acc' l'
      end
  end.

Definition py_sum (l : list pyval) : exn + num := py_sum_from (NInt 0) l.

(** [a / n] with [n] an int ([len(...)]): true division gives a float. *)
Definition py_truediv (a : num) (n : Z) : exn + num :=
  if (n =? 0)%Z then
    inl (ZeroDivisionError (match a with
                            | NInt _ => "division by zero"
                            | NFloat _ => "float division by zero" end))
  else inr (NFloat (num_val a / inject_Z n)).

(** The value of a number as a rational; [None] for anything else. *)
Definition py_num_val (v : pyval) : option Q := option_map num_val (as_num v).

(** ** Operators on the request object *)

Definition str_contains (needle hay : string) : bool :=
  match index 0 needle hay with Some _ => true | None => false end.

Definition py_eq_str (v : pyval) (s : string) : bool :=
  match v with PStr s' => String.eqb s' s | _ => false end.

Fixpoint dict_lookup (k : string) (kvs : list (string * pyval)) : option pyval :=
  match kvs with
  | [] => None
  | (k', v) :: rest =>
      match dict_lookup k rest with
      | Some w => Some w
      | None => if String.eqb k' k then Some v else None
      end
  end.

(** [k in v] for a string [k]. *)
Definition py_contains (k : string) (v : pyval) : exn + bool :=
  match v with
  | PDict kvs => inr (existsb (fun kv => String.eqb (fst kv) k) kvs)
  | PList l => inr (existsb (fun x => py_eq_str x k) l)
  | PStr s => inr (str_contains k s)
  | _ => inl (TypeError ("argument of type '" ++ type_name v ++ "' is not iterable"))
  end.

(** [v[k]] for a string [k]. *)
Definition py_getitem (v : pyval) (k : string) : exn + pyval :=
  match v with
  | PDict kvs =>
      match dict_lookup k kvs with Some w => inr w | None => inl (KeyError k) end
  | PList _ => inl (TypeError "list indices must be integers or slices, not str")
  | PStr _ => inl (TypeError "string indices must be integers, not 'str'")
  | _ => inl (TypeError ("'" ++ type_name v ++ "' object is not subscriptable"))
  end.

(** ** The state and exception monad *)

Definition PyM (S A : Type) : Type := S -> (exn + A) * S.

Definition ret {S A} (a : A) : PyM S A := fun s => (inr a, s).

Definition bind {S A B} (m : PyM S A) (k : A -> PyM S B) : PyM S B :=
  fun s => match m s with
           | (inl e, s') => (inl e, s')
           | (inr a, s') => k a s'
           end.

Definition raise {S A} (e : exn) : PyM S A := fun s => (inl e, s).

Definition lift {S A} (r : exn + A) : PyM S A := fun s => (r, s).

Definition gets {S A} (f : S -> A) : PyM S A := fun s => (inr (f s), s).

Definition modify {S} (f : S -> S) : PyM S unit := fun s => (inr tt, f s).

(** [try: m  except Exception as e: h e] *)
Definition try_except {S A} (m : PyM S A) (h : exn -> PyM S A) : PyM S A :=
  fun s => match m s with
           | (inl e, s') => h e s'
           | (inr a, s') => (inr a, s')
           end.

(** [try: m  finally: f]: [f] runs on every path; an exception it raises
    replaces the outcome of [m], otherwise that outcome stands. *)
Definition try_finally {S A} (m : PyM S A) (f : PyM S unit) : PyM S A :=
  fun s => match m s with
           | (r, s') => match f s' with
                        | (inl e, s'') => (inl e, s'')
                        | (inr _, s'') => (r, s'')
                        end
           end.

Notation "x <- m ;; k" := (bind m (fun x => k))
  (at level 61, m at next level, right associativity) : mc_scope.
Notation "m ;; k" := (bind m (fun _ => k))
  (at level 61, right associativity) : mc_scope.

Section MonadLaws.
Context {S : Type}.

Lemma bind_ret_l {A B} (a : A) (k : A -> PyM S B) s : bind (ret a) k s = k a s.
Proof. reflexivity. Qed.

Lemma bind_inr {A B} (m : PyM S A) (k : A -> PyM S B) s a s' :
  m s = (inr a, s') -> bind m k s = k a s'.
Proof. unfold bind. now intros ->. Qed.

Lemma bind_inl {A B} (m : PyM S A) (k : A -> PyM S B) s e s' :
  m s = (inl e, s') -> bind m k s = (inl e, s').
Proof. unfold bind. now intros ->. Qed.

Lemma try_except_inr {A} (m : PyM S A) h s a s' :
  m s = (inr a, s') -> try_except m h s = (inr a, s').
Proof. unfold try_except. now intros ->. Qed.

Lemma try_except_inl {A} (m : PyM S A) h s e s' :
  m s = (inl e, s') -> try_except m h s = h e s'.
Proof. unfold try_except. now intros ->. Qed.

Lemma try_except_bind_inr {A B} (m : PyM S A) (k : A -> PyM S B) h s a s' :
  m s = (inr a, s') -> try_except (bind m k) h s = try_except (k a) h s'.
Proof. unfold try_except, bind. now intros ->. Qed.

Lemma try_except_bind_inl {A B} (m : PyM S A) (k : A -> PyM S B) h s e s' :
  m s = (inl e, s') -> try_except (bind m k) h s = h e s'.
Proof. unfold try_except, bind. now intros ->. Qed.
End MonadLaws.

#[export] Hint Rewrite @bind_ret_l : mc.

(** ** Facts on the numeric operations *)

Section NumFacts.
Local Open Scope Q_scope.

Lemma num_val_add a b : num_val (num_add a b) == num_val a + num_val b.
Proof.
  destruct a, b; simpl; try reflexivity. now rewrite inject_Z_plus.
Qed.

(** On a list of numbers [sum] succeeds with the rational sum. *)
Lemma py_sum_from_nums acc (l : list pyval) qs :
  map py_num_val l = map Some qs ->
  exists n, py_sum_from acc l = inr n /\ num_val n == num_val acc + qsum qs.
Proof.
  revert acc qs. induction l as [|v l IH]; intros acc [|q qs] H; simpl in H; inv_eq.
  - exists acc. split; [reflexivity | simpl; ring].
  - injection H as Hv Hl. simpl. unfold py_add, py_num_val in *.
    destruct (as_num v) as [n|]; simpl in Hv; inv_eq.
    destruct (IH (num_add acc n) qs Hl) as [m [Hm Heq]].
    exists m. split; [exact Hm|]. rewrite Heq, num_val_add. simpl. ring.
Qed.

Lemma py_sum_nums (l : list pyval) qs :
  map py_num_val l = map Some qs -> exists n, py_sum l = inr n /\ num_val n == qsum qs.
Proof.
  intros H. destruct (py_sum_from_nums (NInt 0) l qs H) as [n [Hn Heq]].
  exists n. split; [exact Hn|]. rewrite Heq. simpl. ring.
Qed.

(** [sum] raises a [TypeError] as soon as one element is not a number. *)
Lemma py_sum_from_bad acc (l : list pyval) :
  existsb (fun v => match py_num_val v with Some _ => false | None => true end) l = true ->
  exists e, py_sum_from acc l = inl (TypeError e).
Proof.
  revert acc. induction l as [|v l IH]; intros acc H; simpl in H; [discriminate|].
  simpl. unfold py_add, py_num_val in *.
  destruct (as_num v) as [n|]; simpl in H; eauto.
Qed.

Lemma py_truediv_pos a (n : Z) : (n <> 0)%Z ->
  py_truediv a n = inr (NFloat (num_val a / inject_Z n)).
Proof. intros H. unfold py_truediv. now rewrite <- Z.eqb_neq in H; rewrite H. Qed.
End NumFacts.

(** [k in d] for a dict agrees with the lookup [d[k]]. *)
Lemma dict_lookup_None_iff k kvs :
  dict_lookup k kvs = None <-> existsb (fun kv => String.eqb (fst kv) k) kvs = false.
Proof.
  induction kvs as [|[k' v] kvs IH]; simpl; [tauto|].
  destruct (dict_lookup k kvs) eqn:E.
  - split; [discriminate|]. intros Hf. apply orb_false_iff in Hf. destruct Hf as [_ Hf]. apply IH in Hf. discriminate.
  - destruct (String.eqb k' k); simpl; [split; discriminate|]. tauto.
Qed.

Lemma dict_contains_lookup k kvs :
  existsb (fun kv => String.eqb (fst kv) k) kvs = true -> exists v, dict_lookup k kvs = Some v.
Proof.
  intros H. destruct (dict_lookup k kvs) as [v|] eqn:E; [eauto|].
  apply dict_lookup_None_iff in E. congruence.
Qed.

Lemma py_sum_from_snoc acc (l : list pyval) v :
  py_sum_from acc (l ++ [v]) =
  match py_sum_from acc l with inl e => inl e | inr a => py_add a v end.
Proof.
  revert acc. induction l as [|w l IH]; intros acc; simpl.
  - destruct (py_add acc v); reflexivity.
  - destruct (py_add acc w); [reflexivity | apply IH].
Qed.
