(* ===== verification/JsonDict.v ===== *)
(** * JsonDict: the dict [json.loads] builds, as a reference for [dict_lookup]

    [request.get_json()] parses a JSON object into a Python [dict] by
    setting its members one after the other: a key seen again keeps its
    place and takes the later value.  [dict_set], [dict_of] and [dict_get]
    are that reference: an association list without duplicate keys, updated
    in place.  The handlers' model reads the members directly from the list
    of pairs in the body ([PyValue.dict_lookup], [PyValue.py_contains]); the
    theorem [dict_lookup_equiv] shows the two agree on every key and every
    membership test, and that the reference never holds a key twice. *)

From Stdlib Require Import String List Bool ZArith Lia.
From S2P Require Import Prelude PyValue.
Import ListNotations.
Local Open Scope string_scope.

Definition dict := list (string * pyval).

(** [d[k] = v] *)
Fixpoint dict_set (k : string) (v : pyval) (m : dict) : dict :=
  match m with
  | [] => [(k, v)]
  | (k', v') :: m' => if String.eqb k' k then (k, v) :: m' else (k', v') :: dict_set k v m'
  end.

(** [d.get(k)] *)
Fixpoint dict_get (k : string) (m : dict) : option pyval :=
  match m with
  | [] => None
  | (k', v) :: m' => if String.eqb k' k then Some v else dict_get k m'
  end.

(** The members of the JSON object set one after the other. *)
Definition dict_of (kvs : list (string * pyval)) : dict :=
  fold_left (fun m kv => dict_set (fst kv) (snd kv) m) kvs [].

Definition has_key (k : string) (m : list (string * pyval)) : bool :=
  existsb (fun kv => String.eqb (fst kv) k) m.

(** ** The laws of the reference *)

Lemma dict_get_set_eq k v m : dict_get k (dict_set k v m) = Some v.
Proof.
  induction m as [|[k' v'] m IH]; simpl; [now rewrite String.eqb_refl|].
  destruct (String.eqb_spec k' k) as [->|Hne]; simpl; [now rewrite String.eqb_refl|].
  apply String.eqb_neq in Hne. now rewrite Hne.
Qed.

Lemma dict_get_set_neq k k' v m : k' <> k -> dict_get k (dict_set k' v m) = dict_get k m.
Proof.
  intros Hkk. apply String.eqb_neq in Hkk.
  induction m as [|[k'' v'] m IH]; simpl; [now rewrite Hkk|].
  destruct (String.eqb k'' k') eqn:E; simpl.
  - apply String.eqb_eq in E. subst k''. now rewrite Hkk.
  - now rewrite IH.
Qed.

Lemma dict_get_set k k' v m :
  dict_get k (dict_set k' v m) = if String.eqb k' k then Some v else dict_get k m.
Proof.
  destruct (String.eqb_spec k' k) as [->|Hne];
    [apply dict_get_set_eq | now apply dict_get_set_neq].
Qed.

Lemma dict_get_None_iff k m : dict_get k m = None <-> has_key k m = false.
Proof.
  unfold has_key. induction m as [|[k' v] m IH]; simpl; [tauto|].
  destruct (String.eqb k' k); simpl; [split; discriminate | exact IH].
Qed.

Lemma dict_set_keys x k v m :
  In x (map fst (dict_set k v m)) -> x = k \/ In x (map fst m).
Proof.
  induction m as [|[k' v'] m IH]; simpl; [intros [<-|[]]; auto|].
  destruct (String.eqb_spec k' k) as [->|_]; simpl; [intros [<-|Hin]; auto|].
  intros [<-|Hin]; [auto|]. destruct (IH Hin); auto.
Qed.

Lemma dict_set_nodup k v m : NoDup (map fst m) -> NoDup (map fst (dict_set k v m)).
Proof.
  induction m as [|[k' v'] m IH]; simpl; intros Hnd; [repeat constructor; simpl; tauto|].
  inversion Hnd as [|? ? Hnin Hnd']; subst.
  destruct (String.eqb_spec k' k) as [->|Hne]; simpl; constructor; auto.
  intros Hin. destruct (dict_set_keys _ _ _ _ Hin); [congruence | contradiction].
Qed.

Lemma dict_of_get k kvs : forall m,
  dict_get k (fold_left (fun m kv => dict_set (fst kv) (snd kv) m) kvs m) =
  match dict_lookup k kvs with Some w => Some w | None => dict_get k m end.
Proof.
  induction kvs as [|[k' v] kvs IH]; intros m; [reflexivity|].
  simpl. rewrite IH, dict_get_set.
  destruct (dict_lookup k kvs); [reflexivity | now destruct (String.eqb k' k)].
Qed.

Lemma dict_of_nodup kvs : forall m,
  NoDup (map fst m) -> NoDup (map fst (fold_left (fun m kv => dict_set (fst kv) (snd kv) m) kvs m)).
Proof.
  induction kvs as [|kv kvs IH]; intros m Hnd; [exact Hnd|]. apply IH, dict_set_nodup, Hnd.
Qed.

(** Equivalence with the reference: reading [data[k]] and testing
    [k in data] on the pairs of the body, as the model of the handlers
    does, gives what they give on the dict [json.loads] builds; and that
    dict holds each key once. *)
Theorem dict_lookup_equiv (kvs : list (string * pyval)) (k : string) :
  dict_lookup k kvs = dict_get k (dict_of kvs) /\
  py_contains k (PDict kvs) = inr (has_key k (dict_of kvs)) /\
  NoDup (map fst (dict_of kvs)).
Proof.
  assert (Hget : dict_lookup k kvs = dict_get k (dict_of kvs)).
  { unfold dict_of. rewrite dict_of_get. now destruct (dict_lookup k kvs). }
  split; [exact Hget|]. split; [|apply dict_of_nodup; constructor].
  simpl. f_equal. fold (has_key k kvs).
  destruct (has_key k kvs) eqn:E1, (has_key k (dict_of kvs)) eqn:E2; try reflexivity.
  - apply dict_get_None_iff in E2. rewrite <- Hget in E2.
    apply dict_lookup_None_iff in E2. unfold has_key in E1. congruence.
  - apply dict_lookup_None_iff in E1. rewrite Hget, dict_get_None_iff in E1. congruence.
Qed.

(** A body with a repeated key: the later value wins, in both. *)
Example dict_repeated_key :
  dict_lookup "dx" [("dx", PInt 1%Z); ("dy", PInt 2%Z); ("dx", PInt 3%Z)] = Some (PInt 3%Z) /\
  dict_of [("dx", PInt 1%Z); ("dy", PInt 2%Z); ("dx", PInt 3%Z)] = [("dx", PInt 3%Z); ("dy", PInt 2%Z)].
Proof. split; reflexivity. Qed.
