(* ===== verification/Deque.v ===== *)
(** * Deque: [collections.deque(maxlen=N)] as [movement_history] uses it

    Line 21 creates [movement_history = deque(maxlen=5)] and line 117 appends
    to it.  CPython's [deque_append] puts the item on the right and, when the
    size then exceeds [maxlen], pops the leftmost item; either way the
    deque's mutation counter [state] goes up by one (the deque iterator
    compares it with the value it saw when it was created).  [len] and
    iteration read the items left to right.

    The theorems: the bound [len <= maxlen] is an invariant of [append], the
    items after an append are the last [maxlen] of the old items and the new
    one, and (refinement) after any sequence of appends to a fresh deque the
    items are exactly the last [maxlen] elements of the sequence, in order. *)

From Stdlib Require Import List Arith Lia.
From S2P Require Import Prelude.
Import ListNotations.
Local Open Scope nat_scope.

Record deque (A : Type) : Type := mk_deque {
  dq_items : list A;
  dq_maxlen : nat;
  dq_state : nat
}.
Arguments mk_deque {A}.
Arguments dq_items {A}.
Arguments dq_maxlen {A}.
Arguments dq_state {A}.

Section Deque.
Context {A : Type}.
Implicit Types (d : deque A) (x : A) (xs : list A).

(** [deque(maxlen=n)] *)
Definition deque_new (n : nat) : deque A := mk_deque [] n 0.

(** [d.append(x)] *)
Definition deque_append x d : deque A :=
  let l := dq_items d ++ [x] in
  mk_deque (if dq_maxlen d <? length l then tl l else l) (dq_maxlen d) (S (dq_state d)).

(** [len(d)] *)
Definition deque_len d : nat := length (dq_items d).

(** Appending the elements of [xs] one after the other. *)
Definition deque_extend xs d : deque A := fold_left (fun d x => deque_append x d) xs d.

(** The deque's invariant: never more than [maxlen] items. *)
Definition deque_wf d : Prop := deque_len d <= dq_maxlen d.

Lemma deque_append_maxlen x d : dq_maxlen (deque_append x d) = dq_maxlen d.
Proof. reflexivity. Qed.

(** An append adds at most one item, well-formed or not. *)
Lemma deque_append_len_le x d : deque_len (deque_append x d) <= S (deque_len d).
Proof.
  unfold deque_len, deque_append. simpl.
  destruct (dq_maxlen d <? length (dq_items d ++ [x])); simpl;
    [destruct (dq_items d ++ [x]) eqn:E; simpl|]; rewrite ?length_app in *; simpl in *;
    try (apply (f_equal (@length _)) in E; rewrite length_app in E; simpl in E); lia.
Qed.

Lemma deque_new_wf n : deque_wf (deque_new n).
Proof. unfold deque_wf, deque_len. simpl. lia. Qed.

(** The items after an append, for a well-formed deque. *)
Lemma deque_append_items x d : deque_wf d ->
  dq_items (deque_append x d) = lastn (dq_maxlen d) (dq_items d ++ [x]).
Proof.
  unfold deque_wf, deque_len, deque_append. simpl. intros H.
  rewrite length_app. simpl.
  destruct (Nat.ltb_spec (dq_maxlen d) (length (dq_items d) + 1)) as [Hlt|Hge].
  - assert (length (dq_items d) = dq_maxlen d) as Heq by lia.
    unfold lastn. rewrite length_app. simpl. rewrite Heq.
    replace (dq_maxlen d + 1 - dq_maxlen d) with 1 by lia.
    destruct (dq_items d ++ [x]) eqn:E; reflexivity.
  - rewrite lastn_all; [reflexivity|]. rewrite length_app. simpl. lia.
Qed.

Lemma deque_append_wf x d : deque_wf d -> deque_wf (deque_append x d).
Proof.
  intros H. unfold deque_wf, deque_len. rewrite deque_append_items by exact H.
  rewrite length_lastn. simpl. lia.
Qed.

Lemma deque_extend_wf xs d : deque_wf d -> deque_wf (deque_extend xs d).
Proof.
  revert d. induction xs as [|x xs IH]; intros d H; simpl; [exact H|].
  apply IH, deque_append_wf, H.
Qed.

Lemma deque_extend_app xs ys d :
  deque_extend (xs ++ ys) d = deque_extend ys (deque_extend xs d).
Proof. apply fold_left_app. Qed.

Lemma deque_extend_snoc xs x d :
  deque_extend (xs ++ [x]) d = deque_append x (deque_extend xs d).
Proof. apply fold_left_app. Qed.

Lemma deque_extend_maxlen xs d : dq_maxlen (deque_extend xs d) = dq_maxlen d.
Proof. revert d. induction xs as [|x xs IH]; intros d; simpl; [reflexivity|]. now rewrite IH. Qed.

Lemma deque_extend_state xs d : dq_state (deque_extend xs d) = dq_state d + length xs.
Proof. revert d. induction xs as [|x xs IH]; intros d; simpl; [lia|]. rewrite IH. simpl. lia. Qed.

Lemma deque_extend_items xs d : deque_wf d ->
  dq_items (deque_extend xs d) = lastn (dq_maxlen d) (dq_items d ++ xs).
Proof.
  revert d. induction xs as [|x xs IH]; intros d H; simpl.
  - rewrite app_nil_r. symmetry. apply lastn_all, H.
  - rewrite IH by (apply deque_append_wf, H).
    rewrite deque_append_items, deque_append_maxlen by exact H.
    rewrite lastn_lastn_app, <- app_assoc. reflexivity.
Qed.
End Deque.

#[export] Hint Resolve deque_new_wf deque_append_wf deque_extend_wf : mc.
