(* ===== verification/Smoothing.v ===== *)
(** * Smoothing: the moving average of lines 117-121 of [move()]

    [movement_history.append((data['dx'], data['dy']))] followed by
    [avg_dx = sum(m[0] for m in movement_history) / len(movement_history)]
    and the same for [m[1]]: a computation in [PyM] on the history deque.
    The append happens before the sums, so when a sum raises (a sample that
    is not a number) the sample stays in the deque.

    The abstract contract of the spec's Smoothing Filter is [window_mean]:
    the mean of the last [N] samples, per coordinate.  [smooth_refines]
    proves that the code computes it whenever the samples are numbers, and
    [smooth_state] that its only effect on the state is the append. *)

From Stdlib Require Import String List Arith Lia ZArith QArith Qabs.
From S2P Require Import Prelude PyValue Deque.
Import ListNotations.
Local Open Scope mc_scope.

(** A sample as [move()] stores it: the tuple [(data['dx'], data['dy'])]. *)
Abbreviation sample := (pyval * pyval)%type.

Definition history : Type := deque sample.

(** [movement_history = deque(maxlen=5)] *)
Definition HISTORY_MAXLEN : nat := 5.

Definition movement_history_init : history := deque_new HISTORY_MAXLEN.

(** [sum(m[i] for m in movement_history) / len(movement_history)]: the sum is
    evaluated first, then [len]. *)
Definition average_coord (proj : sample -> pyval) : PyM history num :=
  h <- gets (fun h => h) ;;
  s <- lift (py_sum (map proj (dq_items h))) ;;
  n <- gets deque_len ;;
  lift (py_truediv s (Z.of_nat n)).

(** Lines 117-121. *)
Definition record_and_average (smp : sample) : PyM history (num * num) :=
  modify (deque_append smp) ;;
  avg_dx <- average_coord fst ;;
  avg_dy <- average_coord snd ;;
  ret (avg_dx, avg_dy).

(** ** The abstract contract *)

(** A sample whose two coordinates are numbers, as a pair of rationals. *)
Definition sample_val (smp : sample) : option (Q * Q) :=
  match py_num_val (fst smp), py_num_val (snd smp) with
  | Some a, Some b => Some (a, b)
  | _, _ => None
  end.

(** The Smoothing Filter's promise: the mean of the last [n] samples. *)
Definition window_mean (n : nat) (qs : list (Q * Q)) : Q * Q :=
  (qmean (map fst (lastn n qs)), qmean (map snd (lastn n qs))).

Section Refinement.
Local Open Scope Q_scope.

(** A window of numeric samples gives numeric coordinate lists. *)
Lemma sample_val_proj (l : list sample) qs :
  map sample_val l = map Some qs ->
  map py_num_val (map fst l) = map Some (map fst qs) /\
  map py_num_val (map snd l) = map Some (map snd qs).
Proof.
  revert qs. induction l as [|[a b] l IH]; intros [|[x y] qs] H; try discriminate H.
  - split; reflexivity.
  - simpl in H. injection H as Hab Hl. unfold sample_val in Hab. simpl in Hab.
    destruct (py_num_val a) eqn:Ea, (py_num_val b) eqn:Eb; try discriminate Hab.
    injection Hab as <- <-. destruct (IH qs Hl) as [H1 H2].
    simpl. rewrite Ea, Eb, H1, H2. split; reflexivity.
Qed.

(** One coordinate of a numeric, non-empty window is averaged exactly. *)
Lemma average_coord_nums proj (h : history) qs :
  map py_num_val (map proj (dq_items h)) = map Some qs -> (0 < deque_len h)%nat ->
  exists a, average_coord proj h = (inr (NFloat a), h) /\ a == qmean qs.
Proof.
  intros Hq Hlen. destruct (py_sum_nums _ _ Hq) as [n [Hn Heq]].
  unfold average_coord, bind, gets, lift. simpl. rewrite Hn.
  rewrite py_truediv_pos by lia.
  eexists. split; [reflexivity|]. unfold qmean.
  assert (length qs = deque_len h) as ->.
  { unfold deque_len. rewrite <- (length_map Some qs), <- Hq, !length_map. reflexivity. }
  now rewrite Heq.
Qed.

Lemma deque_append_nonempty {A} (x : A) (d : deque A) :
  deque_wf d -> (0 < dq_maxlen d)%nat -> (0 < deque_len (deque_append x d))%nat.
Proof.
  intros Hwf Hpos. unfold deque_len. rewrite deque_append_items, length_lastn by exact Hwf.
  rewrite length_app. simpl. lia.
Qed.

(** Refinement: on numbers, lines 117-121 compute [window_mean] of the
    samples so far, and change the state only by the append. *)
Lemma smooth_refines (d : history) (smp : sample) qs :
  deque_wf d -> (0 < dq_maxlen d)%nat ->
  map sample_val (dq_items d ++ [smp]) = map Some qs ->
  exists ax ay,
    record_and_average smp d = (inr (NFloat ax, NFloat ay), deque_append smp d)
    /\ ax == fst (window_mean (dq_maxlen d) qs)
    /\ ay == snd (window_mean (dq_maxlen d) qs).
Proof.
  intros Hwf Hpos Hq.
  set (d' := deque_append smp d).
  assert (Hitems : map sample_val (dq_items d') = map Some (lastn (dq_maxlen d) qs)).
  { unfold d'. rewrite deque_append_items by exact Hwf. now rewrite lastn_map, Hq, lastn_map. }
  pose proof (deque_append_nonempty smp d Hwf Hpos) as Hlen. fold d' in Hlen.
  destruct (sample_val_proj _ _ Hitems) as [Hfst Hsnd].
  destruct (average_coord_nums fst d' _ Hfst Hlen) as [ax [Hx Hax]].
  destruct (average_coord_nums snd d' _ Hsnd Hlen) as [ay [Hy Hay]].
  exists ax, ay. unfold record_and_average, bind, modify. fold d'.
  rewrite Hx, Hy. split; [reflexivity|]. simpl.
  split; assumption.
Qed.
End Refinement.

(** The only state change of lines 117-121, whatever the samples. *)
Lemma smooth_state (d : history) (smp : sample) :
  snd (record_and_average smp d) = deque_append smp d.
Proof.
  unfold record_and_average, average_coord, bind, modify, gets, lift. simpl.
  destruct (py_sum _) as [e|s]; [reflexivity|].
  destruct (py_truediv _ _) as [e|a]; [reflexivity|].
  destruct (py_sum _) as [e|s']; [reflexivity|].
  destruct (py_truediv _ _); reflexivity.
Qed.

(** ** Helper lemmas on the window *)

(** A sample is bad when one of its coordinates is not a number. *)
Definition sample_bad (smp : sample) : bool :=
  match sample_val smp with Some _ => false | None => true end.

Lemma sample_vals_ok (l : list sample) :
  existsb sample_bad l = false -> exists qs, map sample_val l = map Some qs.
Proof.
  induction l as [|smp l IH]; simpl; [exists []; reflexivity|].
  intros Hb. apply orb_false_iff in Hb as [Hs Hl]. destruct (IH Hl) as [qs Hqs].
  unfold sample_bad in Hs. destruct (sample_val smp) as [q|]; [|discriminate].
  exists (q :: qs). simpl. now rewrite Hqs.
Qed.

Lemma sample_bad_proj (l : list sample) :
  existsb sample_bad l = true ->
  existsb (fun v => match py_num_val v with Some _ => false | None => true end) (map fst l) = true \/
  existsb (fun v => match py_num_val v with Some _ => false | None => true end) (map snd l) = true.
Proof.
  induction l as [|[a b] l IH]; simpl; [discriminate|].
  unfold sample_bad, sample_val. simpl.
  destruct (py_num_val a), (py_num_val b); simpl; auto.
Qed.

(** The result of lines 117-121 is a function of the window after the
    append (not of the mutation counter nor of evicted samples). *)
Lemma record_and_average_items smp (d1 d2 : history) :
  dq_items (deque_append smp d1) = dq_items (deque_append smp d2) ->
  fst (record_and_average smp d1) = fst (record_and_average smp d2).
Proof.
  intros E. cbv [record_and_average average_coord bind modify gets lift deque_len].
  rewrite E. destruct (py_sum (map fst _)); [reflexivity|].
  destruct (py_truediv _ _); [reflexivity|]. cbn beta iota zeta. rewrite E.
  destruct (py_sum (map snd _)); [reflexivity|]. destruct (py_truediv _ _); reflexivity.
Qed.

Lemma deque_new_extend_items (xs : list sample) :
  dq_items (deque_extend xs movement_history_init) = lastn HISTORY_MAXLEN xs.
Proof. rewrite deque_extend_items by apply deque_new_wf. reflexivity. Qed.

(** A window holding a bad sample makes lines 117-121 raise; the sample is
    appended all the same. *)
Lemma smooth_bad (d : history) (smp : sample) :
  existsb sample_bad (dq_items (deque_append smp d)) = true ->
  exists e, record_and_average smp d = (inl e, deque_append smp d).
Proof.
  intros Hb. pose proof (smooth_state d smp) as Hst.
  destruct (record_and_average smp d) as [[e|[ax ay]] d'] eqn:E; simpl in Hst; subst d'; [eauto|].
  exfalso. cbv [record_and_average average_coord bind modify gets lift] in E.
  destruct (sample_bad_proj _ Hb) as [Hf|Hs].
  - destruct (py_sum_from_bad (NInt 0) _ Hf) as [m Hm]. unfold py_sum in E. rewrite Hm in E. discriminate.
  - destruct (py_sum_from_bad (NInt 0) _ Hs) as [m Hm]. unfold py_sum in E.
    destruct (py_sum_from _ (map fst _)); [discriminate|].
    destruct (py_truediv _ _); [discriminate|]. cbn beta iota zeta in E.
    rewrite Hm in E. discriminate.
Qed.

(** ** Properties of the Smoothing Filter *)

Section SmoothingProps.
Local Open Scope Q_scope.

(** C6: Before the window is full, the average [move()] computes is the
    arithmetic mean of exactly the samples received so far (the first
    testable property of the spec). *)
Theorem average_before_eviction (xs : list sample) smp qs :
  (length xs < HISTORY_MAXLEN)%nat -> map sample_val (xs ++ [smp]) = map Some qs ->
  exists ax ay,
    record_and_average smp (deque_extend xs movement_history_init)
      = (inr (NFloat ax, NFloat ay), deque_extend (xs ++ [smp]) movement_history_init)
    /\ ax == qmean (map fst qs) /\ ay == qmean (map snd qs).
Proof.
  intros Hlen Hq.
  assert (Hwf : deque_wf (deque_extend xs movement_history_init))
    by apply deque_extend_wf, deque_new_wf.
  assert (Hitems : dq_items (deque_extend xs movement_history_init) = xs).
  { rewrite deque_new_extend_items. apply lastn_all. unfold HISTORY_MAXLEN in *. lia. }
  rewrite <- Hitems in Hq.
  destruct (smooth_refines _ smp qs Hwf ltac:(rewrite deque_extend_maxlen; cbv; lia) Hq)
    as [ax [ay [Hr [Hx Hy]]]].
  exists ax, ay. rewrite Hr, deque_extend_snoc. split; [reflexivity|].
  rewrite deque_extend_maxlen in Hx, Hy. unfold window_mean in *. simpl in Hx, Hy.
  rewrite lastn_all in Hx, Hy; [split; assumption | |];
    rewrite <- (length_map Some qs), <- Hq, length_map, length_app, Hitems; simpl;
    unfold HISTORY_MAXLEN in *; lia.
Qed.

(** C7: FIFO eviction: once four newer samples have been appended, older
    samples (numbers or not) have no influence on the average: two
    histories that differ only before the last four samples give the same
    result. *)
Theorem average_ignores_evicted (old1 old2 recent : list sample) smp :
  (4 <= length recent)%nat ->
  fst (record_and_average smp (deque_extend (old1 ++ recent) movement_history_init)) =
  fst (record_and_average smp (deque_extend (old2 ++ recent) movement_history_init)).
Proof.
  intros Hlen.
  assert (Hw : forall old, dq_items (deque_extend (old ++ recent ++ [smp]) movement_history_init)
                           = lastn HISTORY_MAXLEN (recent ++ [smp])).
  { intros old. rewrite deque_new_extend_items. apply lastn_app_long.
    rewrite length_app. simpl. unfold HISTORY_MAXLEN. lia. }
  apply record_and_average_items. rewrite <- !deque_extend_snoc, <- !app_assoc, !Hw.
  reflexivity.
Qed.

(** C8: Idempotence: once the window is full of one sample [(x, y)], the
    average is [(x, y)], whatever the history held before (even samples
    that are not numbers). *)
Theorem average_constant (d : history) smp x y :
  deque_wf d -> dq_maxlen d = HISTORY_MAXLEN -> sample_val smp = Some (x, y) ->
  exists ax ay,
    fst (record_and_average smp (deque_extend (repeat smp 4) d)) = inr (NFloat ax, NFloat ay)
    /\ ax == x /\ ay == y.
Proof.
  intros Hwf Hmax Hs.
  set (d0 := deque_extend (repeat smp 4) movement_history_init).
  assert (Hwf0 : deque_wf d0) by apply deque_extend_wf, deque_new_wf.
  assert (Hi0 : dq_items d0 = repeat smp 4) by (unfold d0; now rewrite deque_new_extend_items).
  assert (Hq : map sample_val (dq_items d0 ++ [smp]) = map Some (repeat (x, y) 5)).
  { rewrite Hi0. change (repeat smp 4 ++ [smp]) with (repeat smp 5).
    now rewrite !map_repeat, Hs. }
  rewrite (record_and_average_items smp _ d0).
  2:{ rewrite !deque_append_items, deque_extend_items, deque_extend_maxlen, Hi0, Hmax
        by auto using deque_extend_wf.
      rewrite lastn_lastn_app, <- app_assoc, lastn_app_long
        by (rewrite length_app, repeat_length; simpl; unfold HISTORY_MAXLEN; lia).
      unfold d0. rewrite deque_extend_maxlen. reflexivity. }
  destruct (smooth_refines d0 smp _ Hwf0 ltac:(unfold d0; rewrite deque_extend_maxlen; cbv; lia) Hq)
    as [ax [ay [Hr [Hx Hy]]]].
  exists ax, ay. rewrite Hr. split; [reflexivity|].
  unfold d0 in Hx, Hy. rewrite deque_extend_maxlen in Hx, Hy.
  unfold window_mean in Hx, Hy. cbn [fst snd dq_maxlen movement_history_init deque_new] in Hx, Hy.
  rewrite lastn_all, map_repeat in Hx, Hy by (rewrite repeat_length; reflexivity).
  rewrite Hx, Hy. split; apply qmean_repeat; lia.
Qed.

(** C9: Smoothing never amplifies: when every sample in the window after
    the append has [|dx| <= M] and [|dy| <= M], the averages [move()] adds
    to the cursor have magnitude at most [M]. *)
Theorem average_bounded (d : history) smp qs M :
  deque_wf d -> (0 < dq_maxlen d)%nat -> map sample_val (dq_items d ++ [smp]) = map Some qs ->
  Forall (fun q => Qabs (fst q) <= M /\ Qabs (snd q) <= M) (lastn (dq_maxlen d) qs) ->
  exists ax ay,
    record_and_average smp d = (inr (NFloat ax, NFloat ay), deque_append smp d)
    /\ Qabs ax <= M /\ Qabs ay <= M.
Proof.
  intros Hwf Hpos Hq HM.
  destruct (smooth_refines d smp qs Hwf Hpos Hq) as [ax [ay [Hr [Hx Hy]]]].
  assert (Hne : lastn (dq_maxlen d) qs <> []).
  { apply (f_equal (@length _)) in Hq. rewrite !length_map, length_app in Hq. simpl in Hq.
    intros E. apply (f_equal (@length _)) in E. rewrite length_lastn in E. simpl in E. lia. }
  exists ax, ay. split; [exact Hr|]. unfold window_mean in Hx, Hy. simpl in Hx, Hy.
  rewrite Hx, Hy. split; apply qmean_abs_le;
    first [ intros E; apply map_eq_nil in E; contradiction
          | apply Forall_map; eapply Forall_impl; [| exact HM]; simpl; tauto ].
Qed.
End SmoothingProps.

(** ** The spec's scenario and witnesses *)

Section Witnesses.
Local Open Scope Q_scope.

Definition s10_0 : sample := (PInt 10, PInt 0).
Definition s0_20 : sample := (PInt 0, PInt 20).

(** The averages one step of the filter reports, as rationals. *)
Definition reported (r : exn + (num * num)) : option (Q * Q) :=
  match r with inr (a, b) => Some (num_val a, num_val b) | inl _ => None end.

(** The spec's concrete scenario: [(10, 0)] three times into an empty
    window gives [(10, 0)] each time; then [(0, 20)] gives [(7.5, 5.0)]. *)
Example spec_scenario_averages :
  reported (fst (record_and_average s10_0 movement_history_init)) = Some (10, 0) /\
  reported (fst (record_and_average s10_0 (deque_extend [s10_0] movement_history_init)))
    = Some (20 # 2, 0 # 2) /\
  reported (fst (record_and_average s10_0 (deque_extend [s10_0; s10_0] movement_history_init)))
    = Some (30 # 3, 0 # 3) /\
  reported (fst (record_and_average s0_20
                   (deque_extend [s10_0; s10_0; s10_0] movement_history_init)))
    = Some (30 # 4, 20 # 4).
Proof. vm_compute. repeat split. Qed.

Lemma average_before_eviction_witness :
  exists ax ay,
    record_and_average s0_20 (deque_extend [s10_0; s10_0; s10_0] movement_history_init)
      = (inr (NFloat ax, NFloat ay),
         deque_extend [s10_0; s10_0; s10_0; s0_20] movement_history_init)
    /\ ax == 15 # 2 /\ ay == 5.
Proof.
  destruct (average_before_eviction [s10_0; s10_0; s10_0] s0_20
              [(10, 0); (10, 0); (10, 0); (0, 20)] ltac:(cbv; lia) eq_refl)
    as [ax [ay [E [Hx Hy]]]].
  exists ax, ay. split; [exact E|]. rewrite Hx, Hy. split; reflexivity.
Defined.

Lemma average_ignores_evicted_witness :
  fst (record_and_average s0_20
         (deque_extend [(PStr "a"%string, PNone); s10_0; s10_0; s10_0; s10_0] movement_history_init)) =
  fst (record_and_average s0_20 (deque_extend [s10_0; s10_0; s10_0; s10_0] movement_history_init)).
Proof.
  exact (average_ignores_evicted [(PStr "a"%string, PNone)] [] [s10_0; s10_0; s10_0; s10_0] s0_20
           ltac:(simpl; lia)).
Defined.

Lemma average_constant_witness :
  exists ax ay,
    fst (record_and_average s10_0
           (deque_extend (repeat s10_0 4) (deque_extend [s0_20; (PStr "a"%string, PNone)] movement_history_init)))
      = inr (NFloat ax, NFloat ay) /\ ax == 10 /\ ay == 0.
Proof.
  exact (average_constant (deque_extend [s0_20; (PStr "a"%string, PNone)] movement_history_init) s10_0 10 0
           (deque_extend_wf _ _ (deque_new_wf _)) eq_refl eq_refl).
Defined.
Lemma average_bounded_witness :
  deque_wf (deque_extend [s10_0; s10_0; s10_0] movement_history_init) /\
  (0 < dq_maxlen (deque_extend [s10_0; s10_0; s10_0] movement_history_init))%nat /\
  map sample_val (dq_items (deque_extend [s10_0; s10_0; s10_0] movement_history_init) ++ [s0_20])
    = map Some [(10, 0); (10, 0); (10, 0); (0, 20)] /\
  Forall (fun q => Qabs (fst q) <= 20 /\ Qabs (snd q) <= 20)
    (lastn (dq_maxlen (deque_extend [s10_0; s10_0; s10_0] movement_history_init))
           [(10, 0); (10, 0); (10, 0); (0, 20)]) /\
  exists ax ay,
    record_and_average s0_20 (deque_extend [s10_0; s10_0; s10_0] movement_history_init)
      = (inr (NFloat ax, NFloat ay), deque_append s0_20 (deque_extend [s10_0; s10_0; s10_0] movement_history_init))
    /\ Qabs ax <= 20 /\ Qabs ay <= 20.
Proof.
  assert (Hw : deque_wf (deque_extend [s10_0; s10_0; s10_0] movement_history_init))
    by (vm_compute; lia).
  assert (Hp : (0 < dq_maxlen (deque_extend [s10_0; s10_0; s10_0] movement_history_init))%nat)
    by (vm_compute; lia).
  assert (HM : Forall (fun q => Qabs (fst q) <= 20 /\ Qabs (snd q) <= 20)
    (lastn (dq_maxlen (deque_extend [s10_0; s10_0; s10_0] movement_history_init))
           [(10, 0); (10, 0); (10, 0); (0, 20)]))
    by (vm_compute; repeat constructor; discriminate).
  split; [exact Hw|]. split; [exact Hp|]. split; [reflexivity|]. split; [exact HM|].
  exact (average_bounded _ s0_20 [(10, 0); (10, 0); (10, 0); (0, 20)] 20 Hw Hp eq_refl HM).
Defined.

End Witnesses.
