(* ===== verification/Host.v ===== *)
(** * Host: the host input subsystem ([pyautogui]) as an interface

    [move()] calls [pyautogui.position()] and [pyautogui.moveTo(x, y,
    duration=0.05)], [click()] calls [pyautogui.click(button=...)].  Each of
    them can raise (no display, [FailSafeException], ...).  The class
    [HostInput] states what the handlers may assume of the host: three
    operations on an abstract host state, each returning the new state or an
    exception; nothing else.  [Server] proves its theorems for every instance.

    [event] is the observable trace of a request: the host calls the handler
    issued (recorded when issued, whether or not the host then raised) and the
    lines it printed.

    [FakeHost] is a test double in the sense of the spec's design notes: a
    cursor on a screen, a list of clicks, and an optional failure that makes
    every call raise; the witnesses run the handlers against it. *)

From Stdlib Require Import List ZArith QArith Qround String.
From S2P Require Import Prelude PyValue.
Import ListNotations.


(** The two buttons [pyautogui.click] is called with. *)
Inductive button : Type := BLeft | BRight.

Definition button_name (b : button) : string :=
  match b with BLeft => "left"%string | BRight => "right"%string end.

Definition button_eq_dec : forall a b : button, {a = b} + {a <> b}.
Proof. decide equality. Defined.

Class HostInput (H : Type) : Type := {
  host_position : H -> exn + (Z * Z);
  host_moveTo : Q -> Q -> Q -> H -> exn + H;
  host_click : button -> H -> exn + H
}.

(** ** Observable events *)

Inductive event : Type :=
| EvPosition                          (** [pyautogui.position()] *)
| EvMoveTo (x y duration : Q)         (** [pyautogui.moveTo(x, y, duration=...)] *)
| EvClick (b : button)                (** [pyautogui.click(button=...)] *)
| EvPrintMove (x y : Q)               (** line 127 *)
| EvPrintMoveError (msg : string)     (** line 131 *)
| EvPrintClickError (msg : string).   (** line 147 *)

Definition is_host_call (ev : event) : bool :=
  match ev with EvPosition | EvMoveTo _ _ _ | EvClick _ => true | _ => false end.

Definition host_calls (tr : list event) : list event := filter is_host_call tr.

Lemma host_calls_app tr1 tr2 : host_calls (tr1 ++ tr2) = host_calls tr1 ++ host_calls tr2.
Proof. apply filter_app. Qed.

#[export] Hint Rewrite host_calls_app : mc.

(** ** A fake host *)

Record fake_host : Type := mk_fake {
  fh_x : Z;
  fh_y : Z;
  fh_clicks : list button;
  fh_fail : option string     (** [Some msg]: every call raises [msg] *)
}.

Definition fake_guard {A} (h : fake_host) (k : A) : exn + A :=
  match fh_fail h with Some m => inl (HostError m) | None => inr k end.

#[export] Instance FakeHost : HostInput fake_host := {
  host_position h := fake_guard h (fh_x h, fh_y h);
  host_moveTo x y _ h := fake_guard h (mk_fake (Qfloor x) (Qfloor y) (fh_clicks h) (fh_fail h));
  host_click b h := fake_guard h (mk_fake (fh_x h) (fh_y h) (fh_clicks h ++ [b]) (fh_fail h))
}.

(** ** Hosts that never raise *)

Definition host_total (H : Type) `{HostInput H} : Prop :=
  (forall h, exists xy, host_position h = inr xy) /\
  (forall x y d h, exists h', host_moveTo x y d h = inr h') /\
  (forall b h, exists h', host_click b h = inr h').

(** A second instance: a cursor and a click log on a display that is always
    there. *)
Record ideal_host : Type := mk_ideal { ih_pos : Z * Z; ih_clicks : list button }.

#[export] Instance IdealHost : HostInput ideal_host := {
  host_position h := inr (ih_pos h);
  host_moveTo x y _ h := inr (mk_ideal (Qfloor x, Qfloor y) (ih_clicks h));
  host_click b h := inr (mk_ideal (ih_pos h) (ih_clicks h ++ [b]))
}.

Lemma ideal_host_total : host_total ideal_host.
Proof. repeat split; intros; eexists; reflexivity. Qed.
