(* ===== verification/Server.v ===== *)
(** * Server: the Flask handlers [index()], [move()] and [click()]

    The server state is the process-wide [movement_history], the host (any
    instance of [HostInput]) and the trace of observable events.  Each
    handler is a [PyM] computation on it, written statement by statement
    from lines 106-149:
    - [move data]: the guard ['dx' in data and 'dy' in data] (outside the
      [try], so a [TypeError] there escapes the handler), then inside the
      [try] the tuple [(data['dx'], data['dy'])], the Smoothing step, the
      cursor read, the [print], the [moveTo], and [except] turning any
      exception into [{"status": "error", "message": str(e)}];
    - [click data]: the guard ['button' in data], then inside the [try] the
      comparison with ['left'], then with ['right'] (each reading
      [data['button']] again), and success whatever the value was;
    - [index]: the page.
    A request is routed to its handler by [handle]; an exception that leaves
    the handler is Flask's HTTP 500 ([RServerError]).  [serve_all] runs a
    sequence of requests one after the other, the way a single worker thread
    does. *)

From Stdlib Require Import String List Arith Lia ZArith QArith Qround.
From S2P Require Import Prelude PyValue Deque Smoothing Host.
Import ListNotations.
Local Open Scope mc_scope.

(** The JSON answers of the handlers and the page of [index()]. *)
Inductive response : Type :=
| RSuccess                   (** [jsonify({"status": "success"})] *)
| RError (msg : string)      (** [jsonify({"status": "error", "message": msg})] *)
| RPage                      (** [render_template_string(html_template)] *)
| RServerError (e : exn).    (** an uncaught exception: HTTP 500 *)

Inductive request : Type :=
| ReqIndex                   (** [GET /] *)
| ReqMove (data : pyval)     (** [POST /move] with [request.get_json() = data] *)
| ReqClick (data : pyval).   (** [POST /click] *)

Record server (H : Type) : Type := mk_server {
  srv_history : history;
  srv_host : H;
  srv_trace : list event
}.
Arguments mk_server {H}.
Arguments srv_history {H}.
Arguments srv_host {H}.
Arguments srv_trace {H}.

Definition INVALID_DATA : string := "Invalid data".

(** [duration=0.05] *)
Definition MOVE_DURATION : Q := 5 # 100.

Section Handlers.
Context {H : Type} `{HostInput H}.

Definition set_history (h : history) (s : server H) : server H :=
  mk_server h (srv_host s) (srv_trace s).

Definition set_host (h : H) (s : server H) : server H :=
  mk_server (srv_history s) h (srv_trace s).

(** Run a computation on [movement_history] inside the server state. *)
Definition on_history {A} (m : PyM history A) : PyM (server H) A :=
  fun s => let '(r, h') := m (srv_history s) in (r, set_history h' s).

Definition emit (ev : event) : PyM (server H) unit :=
  modify (fun s => mk_server (srv_history s) (srv_host s) (srv_trace s ++ [ev])).

(** [pyautogui.position()] *)
Definition call_position : PyM (server H) (Z * Z) :=
  emit EvPosition ;;
  h <- gets srv_host ;;
  lift (host_position h).

(** [pyautogui.moveTo(x, y, duration=d)] *)
Definition call_moveTo (x y d : Q) : PyM (server H) unit :=
  emit (EvMoveTo x y d) ;;
  h <- gets srv_host ;;
  h' <- lift (host_moveTo x y d h) ;;
  modify (set_host h').

(** [pyautogui.click(button=b)] *)
Definition call_click (b : button) : PyM (server H) unit :=
  emit (EvClick b) ;;
  h <- gets srv_host ;;
  h' <- lift (host_click b h) ;;
  modify (set_host h').

(** Lines 106-108. *)
Definition index : PyM (server H) response := ret RPage.

(** Lines 124-129: read the cursor, print, move. *)
Definition move_to_target (avg : num * num) : PyM (server H) response :=
  xy <- call_position ;;
  let new_x := num_add (NInt (fst xy)) (fst avg) in
  let new_y := num_add (NInt (snd xy)) (snd avg) in
  emit (EvPrintMove (num_val new_x) (num_val new_y)) ;;
  call_moveTo (num_val new_x) (num_val new_y) MOVE_DURATION ;;
  ret RSuccess.

(** Lines 116-129: the body of the [try] in [move()]. *)
Definition move_body (data : pyval) : PyM (server H) response :=
  vdx <- lift (py_getitem data "dx") ;;
  vdy <- lift (py_getitem data "dy") ;;
  avg <- on_history (record_and_average (vdx, vdy)) ;;
  move_to_target avg.

(** Lines 130-132. *)
Definition move_except (e : exn) : PyM (server H) response :=
  emit (EvPrintMoveError (exn_str e)) ;; ret (RError (exn_str e)).

(** Lines 111-133. *)
Definition move (data : pyval) : PyM (server H) response :=
  has_dx <- lift (py_contains "dx" data) ;;
  ok <- (if has_dx then lift (py_contains "dy" data) else ret false) ;;
  if ok then try_except (move_body data) move_except
  else ret (RError INVALID_DATA).

(** Lines 140-145: the body of the [try] in [click()]. *)
Definition click_body (data : pyval) : PyM (server H) response :=
  b <- lift (py_getitem data "button") ;;
  (if py_eq_str b "left" then call_click BLeft
   else b' <- lift (py_getitem data "button") ;;
        if py_eq_str b' "right" then call_click BRight else ret tt) ;;
  ret RSuccess.

(** Lines 146-148. *)
Definition click_except (e : exn) : PyM (server H) response :=
  emit (EvPrintClickError (exn_str e)) ;; ret (RError (exn_str e)).

(** Lines 136-149. *)
Definition click (data : pyval) : PyM (server H) response :=
  has_button <- lift (py_contains "button" data) ;;
  if has_button then try_except (click_body data) click_except
  else ret (RError INVALID_DATA).

(** Flask's routing ([@app.route]). *)
Definition handle (r : request) : PyM (server H) response :=
  match r with
  | ReqIndex => index
  | ReqMove data => move data
  | ReqClick data => click data
  end.

(** One request: an exception that escapes the handler becomes HTTP 500. *)
Definition serve (r : request) (s : server H) : response * server H :=
  match handle r s with
  | (inr resp, s') => (resp, s')
  | (inl e, s') => (RServerError e, s')
  end.

Fixpoint serve_all (rs : list request) (s : server H) : list response * server H :=
  match rs with
  | [] => ([], s)
  | r :: rs' =>
      let '(resp, s1) := serve r s in
      let '(resps, s2) := serve_all rs' s1 in
      (resp :: resps, s2)
  end.

(** The state the server starts in. *)
Definition server_init (h : H) : server H := mk_server movement_history_init h [].
End Handlers.

(** ** Which requests touch [movement_history] *)

(** The sample [move()] appends: only a dict with both keys gets past
    [data['dx'], data['dy']]; a list or a string that passes the [in] guard
    raises at the subscript, before the append. *)
Definition move_sample (data : pyval) : option sample :=
  match data with
  | PDict kvs =>
      match dict_lookup "dx" kvs, dict_lookup "dy" kvs with
      | Some a, Some b => Some (a, b)
      | _, _ => None
      end
  | _ => None
  end.

Definition request_sample (r : request) : option sample :=
  match r with ReqMove data => move_sample data | _ => None end.

(** The samples a sequence of requests appends, in order. *)
Definition requests_samples (rs : list request) : list sample :=
  flat_map (fun r => match request_sample r with Some smp => [smp] | None => [] end) rs.

Section HistoryEffects.
Context {H : Type} `{HostInput H}.

Definition hist_stable {A} (m : PyM (server H) A) : Prop :=
  forall s, srv_history (snd (m s)) = srv_history s.

Lemma hist_stable_ret {A} (a : A) : hist_stable (ret a).
Proof. intros s. reflexivity. Qed.

Lemma hist_stable_lift {A} (r : exn + A) : hist_stable (lift r).
Proof. intros s. reflexivity. Qed.

Lemma hist_stable_gets {A} (f : server H -> A) : hist_stable (gets f).
Proof. intros s. reflexivity. Qed.

Lemma hist_stable_emit ev : hist_stable (emit ev).
Proof. intros s. reflexivity. Qed.

Lemma hist_stable_set_host h : hist_stable (modify (set_host h)).
Proof. intros s. reflexivity. Qed.

Lemma hist_stable_bind {A B} (m : PyM (server H) A) (k : A -> PyM (server H) B) :
  hist_stable m -> (forall a, hist_stable (k a)) -> hist_stable (bind m k).
Proof.
  intros Hm Hk s. unfold bind. specialize (Hm s).
  destruct (m s) as [[e|a] s']; simpl in *; [exact Hm|]. now rewrite Hk.
Qed.

Lemma hist_stable_try {A} (m : PyM (server H) A) h :
  hist_stable m -> (forall e, hist_stable (h e)) -> hist_stable (try_except m h).
Proof.
  intros Hm Hh s. unfold try_except. specialize (Hm s).
  destruct (m s) as [[e|a] s']; simpl in *; [now rewrite Hh | exact Hm].
Qed.

Lemma hist_stable_if {A} (b : bool) (m1 m2 : PyM (server H) A) :
  hist_stable m1 -> hist_stable m2 -> hist_stable (if b then m1 else m2).
Proof. now destruct b. Qed.
End HistoryEffects.

#[export] Hint Resolve hist_stable_ret hist_stable_lift hist_stable_gets hist_stable_emit
  hist_stable_set_host hist_stable_bind hist_stable_try hist_stable_if : mc.

Ltac hist_stable := repeat progress (intros; unfold call_position, call_moveTo, call_click);
  auto 20 with mc.

Section HistoryFacts.
Context {H : Type} `{HostInput H}.

Lemma click_hist_stable data : hist_stable (click (H := H) data).
Proof. unfold click, click_body, click_except. hist_stable. Qed.

Lemma move_except_stable e : hist_stable (H := H) (move_except e).
Proof. unfold move_except. hist_stable. Qed.

Lemma move_to_target_stable (avg : num * num) : hist_stable (H := H) (move_to_target avg).
Proof. unfold move_to_target. hist_stable. Qed.
End HistoryFacts.

Section MoveHistory.
Context {H : Type} `{HostInput H}.

Lemma try_except_history {A} (m : PyM (server H) A) h s :
  (forall e, hist_stable (h e)) ->
  srv_history (snd (try_except m h s)) = srv_history (snd (m s)).
Proof. intros Hh. unfold try_except. destruct (m s) as [[e|a] s']; [apply Hh | reflexivity]. Qed.

Lemma dict_lookup_contains k kvs v :
  dict_lookup k kvs = Some v -> existsb (fun kv => String.eqb (fst kv) k) kvs = true.
Proof.
  intros Hv. destruct (existsb _ kvs) eqn:E; [reflexivity|].
  apply dict_lookup_None_iff in E. congruence.
Qed.

(** When both keys are there, the [try] body appends the sample whatever
    happens after (a bad sample, a host failure). *)
Lemma move_body_history kvs a b s :
  dict_lookup "dx" kvs = Some a -> dict_lookup "dy" kvs = Some b ->
  srv_history (snd (move_body (H := H) (PDict kvs) s)) = deque_append (a, b) (srv_history s).
Proof.
  intros Ea Eb. unfold move_body, bind at 1 2, lift. simpl py_getitem. rewrite Ea, Eb.
  unfold bind at 1, on_history.
  pose proof (smooth_state (srv_history s) (a, b)) as Hst.
  destruct (record_and_average (a, b) (srv_history s)) as [[e|avg] h'] eqn:E;
    simpl in Hst; subst h'; [reflexivity|].
  apply move_to_target_stable.
Qed.

(** The history effect of [move()]: exactly the append of [move_sample]. *)
Lemma move_history data s :
  srv_history (snd (move (H := H) data s)) =
  match move_sample data with
  | Some smp => deque_append smp (srv_history s)
  | None => srv_history s
  end.
Proof.
  destruct data as [| | | | str | l | kvs]; try reflexivity.
  - unfold move, bind at 1, lift. simpl py_contains.
    destruct (str_contains "dx" str); [|reflexivity]. unfold bind, lift. simpl.
    destruct (str_contains "dy" str); reflexivity.
  - unfold move, bind at 1, lift. simpl py_contains.
    destruct (existsb _ l); [|reflexivity]. unfold bind, lift. simpl.
    destruct (existsb _ l); reflexivity.
  - simpl move_sample. unfold move, bind at 1, lift. simpl py_contains.
    destruct (dict_lookup "dx" kvs) as [a|] eqn:Ea.
    + rewrite (dict_lookup_contains _ _ _ Ea). unfold bind, lift. simpl.
      destruct (dict_lookup "dy" kvs) as [b|] eqn:Eb.
      * rewrite (dict_lookup_contains _ _ _ Eb).
        rewrite try_except_history by exact move_except_stable. now apply move_body_history.
      * apply dict_lookup_None_iff in Eb. now rewrite Eb.
    + apply dict_lookup_None_iff in Ea. now rewrite Ea.
Qed.

Lemma serve_history r s :
  srv_history (snd (serve (H := H) r s)) =
  match request_sample r with
  | Some smp => deque_append smp (srv_history s)
  | None => srv_history s
  end.
Proof.
  transitivity (srv_history (snd (handle r s))).
  { unfold serve. destruct (handle r s) as [[e|resp] s']; reflexivity. }
  destruct r as [|data|data]; simpl.
  - reflexivity.
  - apply move_history.
  - apply click_hist_stable.
Qed.
End MoveHistory.

(** ** The history over a sequence of requests *)

Section ServeAll.
Context {H : Type} `{HostInput H}.

Lemma serve_all_cons r rs (s : server H) :
  serve_all (r :: rs) s =
  (fst (serve r s) :: fst (serve_all rs (snd (serve r s))), snd (serve_all rs (snd (serve r s)))).
Proof.
  simpl. destruct (serve r s) as [resp s1]. simpl.
  destruct (serve_all rs s1); reflexivity.
Qed.

(** [movement_history] after a run is the initial one extended by the
    samples of the run, in order. *)
Lemma serve_all_history rs (s : server H) :
  srv_history (snd (serve_all rs s)) = deque_extend (requests_samples rs) (srv_history s).
Proof.
  revert s. induction rs as [|r rs IH]; intros s; [reflexivity|].
  rewrite serve_all_cons. simpl. rewrite IH, serve_history.
  destruct (request_sample r); reflexivity.
Qed.
End ServeAll.

(** ** [move()] on a dict that has both keys *)

Section MoveFacts.
Context {H : Type} `{HostInput H}.

(** Past the guard and the subscripts, [move()] is the Smoothing step
    followed by the cursor update, both under the [try]. *)
Lemma move_dict_run kvs a b (s : server H) :
  dict_lookup "dx" kvs = Some a -> dict_lookup "dy" kvs = Some b ->
  move (PDict kvs) s =
  match record_and_average (a, b) (srv_history s) with
  | (inl e, h') => move_except e (set_history h' s)
  | (inr avg, h') => try_except (move_to_target avg) move_except (set_history h' s)
  end.
Proof.
  intros Ea Eb. cbv [move bind lift ret]. simpl py_contains.
  rewrite (dict_lookup_contains _ _ _ Ea). simpl py_contains.
  rewrite (dict_lookup_contains _ _ _ Eb).
  unfold move_body, try_except, bind at 1 2, lift. simpl py_getitem. rewrite Ea, Eb.
  unfold bind, on_history.
  destruct (record_and_average (a, b) (srv_history s)) as [[e|avg] h']; reflexivity.
Qed.

Local Open Scope Q_scope.

(** C1: The motion pipeline.  A [POST /move] whose body has numeric [dx]
    and [dy] moves the cursor, read at [(x, y)], to [(x + ax, y + ay)],
    where [(ax, ay)] is the mean of the last five samples received: the
    trace shows [position()], the print and [moveTo(..., 0.05)] in that
    order, the history gets the sample, and the answer is success, or the
    host's error message when [moveTo] raises. *)
Theorem move_moves_cursor_by_window_mean (s : server H) kvs a b qs x y :
  deque_wf (srv_history s) -> dq_maxlen (srv_history s) = HISTORY_MAXLEN ->
  dict_lookup "dx" kvs = Some a -> dict_lookup "dy" kvs = Some b ->
  map sample_val (dq_items (srv_history s) ++ [(a, b)]) = map Some qs ->
  host_position (srv_host s) = inr (x, y) ->
  exists ax ay,
    ax == fst (window_mean HISTORY_MAXLEN qs) /\ ay == snd (window_mean HISTORY_MAXLEN qs) /\
    let tx := inject_Z x + ax in
    let ty := inject_Z y + ay in
    let hist := deque_append (a, b) (srv_history s) in
    let tr := srv_trace s ++ [EvPosition; EvPrintMove tx ty; EvMoveTo tx ty MOVE_DURATION] in
    move (PDict kvs) s =
      match host_moveTo tx ty MOVE_DURATION (srv_host s) with
      | inr h' => (inr RSuccess, mk_server hist h' tr)
      | inl e => (inr (RError (exn_str e)),
                  mk_server hist (srv_host s) (tr ++ [EvPrintMoveError (exn_str e)]))
      end.
Proof.
  intros Hwf Hmax Ea Eb Hq Hpos.
  destruct (smooth_refines _ (a, b) qs Hwf ltac:(rewrite Hmax; cbv; lia) Hq)
    as [ax [ay [Hr [Hx Hy]]]].
  rewrite Hmax in Hx, Hy. exists ax, ay. split; [exact Hx|]. split; [exact Hy|].
  rewrite (move_dict_run _ _ _ _ Ea Eb), Hr.
  unfold move_to_target, call_position, call_moveTo, move_except, try_except, bind, emit,
    gets, lift, modify, set_host.
  simpl. rewrite Hpos. simpl.
  destruct (host_moveTo _ _ _ _); simpl; now rewrite <- !app_assoc.
Qed.
End MoveFacts.

(** ** A sample that is not a number poisons the window *)

Lemma move_sample_dict data smp :
  move_sample data = Some smp ->
  exists kvs, data = PDict kvs /\ dict_lookup "dx" kvs = Some (fst smp)
              /\ dict_lookup "dy" kvs = Some (snd smp).
Proof.
  destruct data as [| | | | | |kvs]; simpl; try discriminate.
  destruct (dict_lookup "dx" kvs) eqn:Ea, (dict_lookup "dy" kvs) eqn:Eb; intros E; inv_eq.
  now exists kvs.
Qed.

Section Poison.
Context {H : Type} `{HostInput H}.

(** While the window holds a bad sample, [move()] answers with the
    [TypeError] of [sum], prints it, calls the host not at all, and keeps
    the new sample. *)
Lemma serve_move_bad_window (s : server H) data smp :
  move_sample data = Some smp ->
  existsb sample_bad (dq_items (deque_append smp (srv_history s))) = true ->
  exists msg, serve (ReqMove data) s =
    (RError msg, mk_server (deque_append smp (srv_history s)) (srv_host s)
                           (srv_trace s ++ [EvPrintMoveError msg])).
Proof.
  intros Hd Hb. destruct (move_sample_dict _ _ Hd) as [kvs [-> [Ea Eb]]].
  destruct smp as [a b]. simpl in Ea, Eb. destruct (smooth_bad _ _ Hb) as [e He].
  exists (exn_str e). unfold serve. simpl handle. rewrite (move_dict_run _ _ _ _ Ea Eb), He.
  reflexivity.
Qed.

Lemma existsb_sample_bad_mid pre bad post :
  sample_bad bad = true -> existsb sample_bad (pre ++ bad :: post) = true.
Proof. intros Hb. rewrite existsb_app. simpl. rewrite Hb. apply orb_true_r. Qed.

(** The window keeps the bad sample while fewer than five samples follow it. *)
Lemma moves_fail_while_bad_in_window (goods : list pyval) (s : server H) pre bad post :
  deque_wf (srv_history s) -> dq_items (srv_history s) = pre ++ bad :: post ->
  sample_bad bad = true -> (length post + length goods < dq_maxlen (srv_history s))%nat ->
  Forall (fun d => exists smp, move_sample d = Some smp) goods ->
  Forall (fun r => exists msg, r = RError msg) (fst (serve_all (map ReqMove goods) s)) /\
  host_calls (srv_trace (snd (serve_all (map ReqMove goods) s))) = host_calls (srv_trace s).
Proof.
  revert s pre post. induction goods as [|g goods IH]; intros s pre post Hwf Hi Hb Hlen Hg;
    [split; [constructor | reflexivity]|].
  inversion Hg as [|? ? [smp Hs] Hg']; subst.
  assert (Hw : exists pre', dq_items (deque_append smp (srv_history s)) = pre' ++ bad :: post ++ [smp]).
  { rewrite deque_append_items, Hi, <- app_assoc by exact Hwf. simpl.
    apply lastn_keeps. rewrite length_app. simpl in *. lia. }
  destruct Hw as [pre' Hw].
  destruct (serve_move_bad_window s g smp Hs) as [msg Hserve].
  { rewrite Hw. now apply existsb_sample_bad_mid. }
  simpl map. rewrite serve_all_cons, Hserve. simpl.
  destruct (IH (mk_server (deque_append smp (srv_history s)) (srv_host s)
               (srv_trace s ++ [EvPrintMoveError msg])) pre' (post ++ [smp])
               (deque_append_wf _ _ Hwf) Hw Hb) as [Hr Hc];
    [simpl in *; rewrite length_app; simpl; lia | exact Hg' |].
  split; [constructor; eauto|].
  rewrite Hc. cbn [srv_trace]. rewrite host_calls_app. apply app_nil_r.
Qed.
End Poison.

(** ** Properties of the handlers *)

Section HandlerProps.
Context {H : Type} `{HostInput H}.

(** C2: FIFO window over a whole run: whatever the requests (moves,
    clicks, malformed bodies, host failures), [movement_history] holds the
    last five samples that [move()] appended, oldest first. *)
Theorem history_is_last_five_samples (h : H) (rs : list request) :
  dq_items (srv_history (snd (serve_all rs (server_init h)))) =
  lastn HISTORY_MAXLEN (requests_samples rs).
Proof. rewrite serve_all_history. apply deque_new_extend_items. Qed.

(** C5: The window invariant: from any state whose history is within its
    bound, every run keeps it within the bound and keeps [maxlen = 5]. *)
Theorem history_bound_invariant (rs : list request) (s : server H) :
  deque_wf (srv_history s) -> dq_maxlen (srv_history s) = HISTORY_MAXLEN ->
  (deque_len (srv_history (snd (serve_all rs s))) <= HISTORY_MAXLEN)%nat /\
  dq_maxlen (srv_history (snd (serve_all rs s))) = HISTORY_MAXLEN.
Proof.
  intros Hwf Hmax. rewrite serve_all_history, deque_extend_maxlen, Hmax.
  split; [|reflexivity]. rewrite <- Hmax, <- (deque_extend_maxlen (requests_samples rs)).
  now apply deque_extend_wf.
Qed.

(** C3: A single sample that is not a number (say [{"dx": "a", "dy": 0}])
    is appended before [sum] rejects it, so it makes that request and the
    next four [move] requests fail with the [TypeError] of [sum], whatever
    they carry, and none of them reaches the host. *)
Theorem bad_sample_fails_next_four (s : server H) (bad : pyval) (goods : list pyval) :
  deque_wf (srv_history s) -> dq_maxlen (srv_history s) = HISTORY_MAXLEN ->
  (exists smp, move_sample bad = Some smp /\ sample_bad smp = true) ->
  (length goods <= 4)%nat -> Forall (fun d => exists smp, move_sample d = Some smp) goods ->
  Forall (fun r => exists msg, r = RError msg) (fst (serve_all (map ReqMove (bad :: goods)) s)) /\
  host_calls (srv_trace (snd (serve_all (map ReqMove (bad :: goods)) s))) = host_calls (srv_trace s).
Proof.
  intros Hwf Hmax [smp [Hs Hb]] Hlen Hg.
  destruct (lastn_keeps HISTORY_MAXLEN (dq_items (srv_history s)) smp [] ltac:(cbv; lia))
    as [pre Hw].
  rewrite <- Hmax, <- deque_append_items in Hw by exact Hwf.
  destruct (serve_move_bad_window s bad smp Hs) as [msg Hserve].
  { rewrite Hw. now apply existsb_sample_bad_mid. }
  simpl map. rewrite serve_all_cons, Hserve. simpl.
  destruct (moves_fail_while_bad_in_window goods (mk_server (deque_append smp (srv_history s))
              (srv_host s) (srv_trace s ++ [EvPrintMoveError msg])) pre smp []
              (deque_append_wf _ _ Hwf) Hw Hb) as [Hr Hc];
    [simpl; rewrite Hmax; unfold HISTORY_MAXLEN; lia | exact Hg |].
  split; [constructor; eauto|].
  rewrite Hc. cbn [srv_trace]. rewrite host_calls_app. apply app_nil_r.
Qed.

(** C10: A [POST /move] whose dict lacks [dx] or [dy] answers
    "Invalid data" and changes nothing: no host call, no print, and the
    history is left as it was. *)
Theorem move_missing_key (s : server H) kvs :
  dict_lookup "dx" kvs = None \/ dict_lookup "dy" kvs = None ->
  move (PDict kvs) s = (inr (RError INVALID_DATA), s).
Proof.
  intros Hk. cbv [move bind lift ret]. simpl py_contains.
  destruct Hk as [Hk|Hk]; apply dict_lookup_None_iff in Hk.
  - now rewrite Hk.
  - destruct (existsb (fun kv => String.eqb (fst kv) "dx") kvs); [|reflexivity].
    simpl py_contains. now rewrite Hk.
Qed.

(** C11: A JSON body that is not a container ([null], a boolean or a
    number) makes the membership test [in] raise outside the [try]: the
    request ends in an uncaught [TypeError] (Flask's HTTP 500), for
    [/move] and for [/click] alike, and the state is unchanged. *)
Theorem non_container_body_uncaught (s : server H) (data : pyval) (r : request) :
  (r = ReqMove data \/ r = ReqClick data) ->
  match data with PNone | PBool _ | PInt _ | PFloat _ => True | _ => False end ->
  serve r s = (RServerError (TypeError ("argument of type '" ++ type_name data
                                        ++ "' is not iterable")%string), s).
Proof.
  intros Hr Hd. destruct Hr as [-> | ->]; destruct data; try contradiction; reflexivity.
Qed.

(** C12: A body that is a JSON array or string passes the guard when it
    holds ["dx"] and ["dy"] (as elements, or as substrings of the string),
    and then [data['dx']] raises a [TypeError] inside the [try]: the answer
    is that error, printed, with no host call and nothing appended. *)
Theorem move_sequence_body (s : server H) (data : pyval) (msg : string) :
  (exists l, data = PList l /\ msg = "list indices must be integers or slices, not str"%string) \/
  (exists str, data = PStr str /\ msg = "string indices must be integers, not 'str'"%string) ->
  py_contains "dx" data = inr true -> py_contains "dy" data = inr true ->
  move data s = (inr (RError msg), mk_server (srv_history s) (srv_host s) (srv_trace s ++ [EvPrintMoveError msg])).
Proof.
  intros Hd Ex Ey. cbv [move bind lift ret]. rewrite Ex, Ey.
  destruct Hd as [[l [-> ->]] | [str [-> ->]]]; destruct s; reflexivity.
Qed.
End HandlerProps.

Section ClickProps.
Context {H : Type} `{HostInput H}.

(** [click()] on a dict whose [button] is [v]. *)
Lemma click_dict_run kvs v (s : server H) :
  dict_lookup "button" kvs = Some v ->
  click (PDict kvs) s =
  try_except ((if py_eq_str v "left" then call_click BLeft
               else if py_eq_str v "right" then call_click BRight else ret tt) ;;
              ret RSuccess) click_except s.
Proof.
  intros Ev. cbv [click bind lift ret]. simpl py_contains.
  rewrite (dict_lookup_contains _ _ _ Ev).
  unfold click_body, try_except, bind, lift, py_getitem. rewrite Ev.
  destruct (py_eq_str v "left"); reflexivity.
Qed.

(** C4: [{"button": "left"}] and [{"button": "right"}] issue exactly one
    host call, the click of that button; the answer is success when the
    host accepts it and the host's message (printed) when it raises. *)
Theorem click_button_clicks (s : server H) kvs (b : button) :
  dict_lookup "button" kvs = Some (PStr (button_name b)) ->
  click (PDict kvs) s =
    match host_click b (srv_host s) with
    | inr h' => (inr RSuccess, mk_server (srv_history s) h' (srv_trace s ++ [EvClick b]))
    | inl e => (inr (RError (exn_str e)),
                mk_server (srv_history s) (srv_host s)
                          (srv_trace s ++ [EvClick b; EvPrintClickError (exn_str e)]))
    end.
Proof.
  intros Ev. rewrite (click_dict_run _ _ _ Ev).
  destruct b; cbv [py_eq_str button_name String.eqb Ascii.eqb Bool.eqb];
    unfold call_click, click_except, try_except, bind, emit, gets, lift, modify, set_host, ret;
    simpl; destruct (host_click _ _); simpl; now rewrite <- ?app_assoc.
Qed.

(** C13: Any other value of [button] (["middle"], a number, ...) is
    answered with success although nothing is clicked: no host call, no
    state change. *)
Theorem click_other_value_succeeds (s : server H) kvs v :
  dict_lookup "button" kvs = Some v -> py_eq_str v "left" = false -> py_eq_str v "right" = false ->
  click (PDict kvs) s = (inr RSuccess, s).
Proof. intros Ev Hl Hr. rewrite (click_dict_run _ _ _ Ev), Hl, Hr. reflexivity. Qed.

(** C14: A [POST /click] dict without [button] answers "Invalid data" and
    changes nothing. *)
Theorem click_missing_button (s : server H) kvs :
  dict_lookup "button" kvs = None -> click (PDict kvs) s = (inr (RError INVALID_DATA), s).
Proof.
  intros Hk. apply dict_lookup_None_iff in Hk. cbv [click bind lift ret]. simpl py_contains.
  now rewrite Hk.
Qed.
End ClickProps.

(** ** On a host that never raises *)

Section TotalHost.
Local Open Scope string_scope.
Context {H : Type} `{HostInput H}.
Hypothesis Htotal : host_total H.

Lemma move_to_target_total avg (s : server H) :
  exists s', move_to_target avg s = (inr RSuccess, s') /\ srv_history s' = srv_history s.
Proof.
  destruct Htotal as [Hpos [Hmove _]]. destruct (Hpos (srv_host s)) as [xy Exy].
  unfold move_to_target, call_position, call_moveTo, bind, emit, gets, lift, modify, ret.
  simpl. rewrite Exy. simpl.
  match goal with |- context [host_moveTo ?x ?y ?d ?h] => destruct (Hmove x y d h) as [h' E] end.
  rewrite E. eexists. split; reflexivity.
Qed.

(** A [move] whose window stays numeric succeeds. *)
Lemma serve_move_good (s : server H) data smp :
  deque_wf (srv_history s) -> (0 < dq_maxlen (srv_history s))%nat ->
  move_sample data = Some smp ->
  existsb sample_bad (dq_items (srv_history s) ++ [smp]) = false ->
  exists s', serve (ReqMove data) s = (RSuccess, s')
             /\ srv_history s' = deque_append smp (srv_history s).
Proof.
  intros Hwf Hpos Hd Hgood. destruct (move_sample_dict _ _ Hd) as [kvs [-> [Ea Eb]]].
  destruct (sample_vals_ok _ Hgood) as [qs Hqs].
  destruct (smooth_refines _ smp qs Hwf Hpos Hqs) as [ax [ay [Hr _]]].
  destruct smp as [a b]. simpl in Ea, Eb.
  unfold serve. simpl handle. rewrite (move_dict_run _ _ _ _ Ea Eb), Hr.
  destruct (move_to_target_total (NFloat ax, NFloat ay)
              (set_history (deque_append (a, b) (srv_history s)) s)) as [s' [E Hs']].
  unfold try_except. rewrite E. eexists. split; [reflexivity | exact Hs'].
Qed.

(** Any [{"button": name}] is answered with success. *)
Lemma serve_click_name (s : server H) (name : string) :
  exists s', serve (ReqClick (PDict [("button", PStr name)])) s = (RSuccess, s')
             /\ srv_history s' = srv_history s.
Proof.
  destruct Htotal as [_ [_ Hclick]].
  unfold serve. simpl handle. rewrite (click_dict_run [("button", PStr name)] (PStr name) s eq_refl).
  assert (Hc : forall b, exists s', try_except (call_click b ;; ret RSuccess) click_except s
                                    = (inr RSuccess, s') /\ srv_history s' = srv_history s).
  { intros b. destruct (Hclick b (srv_host s)) as [h' E].
    unfold try_except, call_click, bind, emit, gets, lift, modify, ret. simpl. rewrite E.
    eexists. split; reflexivity. }
  destruct (py_eq_str (PStr name) "left"); [destruct (Hc BLeft) as [s' [-> ?]]; eauto|].
  destruct (py_eq_str (PStr name) "right"); [destruct (Hc BRight) as [s' [-> ?]]; eauto|].
  eexists. split; reflexivity.
Qed.
End TotalHost.

(** ** Witnesses on the fake host *)

Section Witnesses.
Local Open Scope Q_scope.
Local Open Scope string_scope.

Definition fake0 : fake_host := mk_fake 100 100 [] None.
Definition fake_down : fake_host := mk_fake 100 100 [] (Some "display unavailable"%string).
Definition srv0 : server fake_host := server_init fake0.
Definition body_10_0 : list (string * pyval) := [("dx", PInt 10); ("dy", PInt 0)].
Definition body_bad : pyval := PDict [("dx", PStr "a"); ("dy", PInt 0)].
Definition body_1_1 : pyval := PDict [("dx", PInt 1); ("dy", PFloat (1 # 2))].

Lemma move_moves_cursor_by_window_mean_witness :
  exists ax ay, ax == 10 /\ ay == 0 /\
    move (PDict body_10_0) srv0 =
      (inr RSuccess, mk_server (deque_append (PInt 10, PInt 0) movement_history_init)
                               (mk_fake (Qfloor (inject_Z 100 + ax)) (Qfloor (inject_Z 100 + ay)) [] None)
                               [EvPosition; EvPrintMove (inject_Z 100 + ax) (inject_Z 100 + ay);
                                EvMoveTo (inject_Z 100 + ax) (inject_Z 100 + ay) MOVE_DURATION]).
Proof.
  destruct (move_moves_cursor_by_window_mean (H0 := FakeHost) srv0 body_10_0 (PInt 10) (PInt 0) [(10, 0)] 100 100
              (deque_new_wf _) eq_refl eq_refl eq_refl eq_refl ltac:(reflexivity))
    as [ax [ay [Hx [Hy E]]]].
  exists ax, ay. split; [exact (Qeq_trans _ _ _ Hx eq_refl)|].
  split; [exact (Qeq_trans _ _ _ Hy eq_refl)|]. exact E.
Defined.

Lemma history_bound_invariant_witness :
  (deque_len (srv_history (snd (serve_all [ReqMove body_bad; ReqClick PNone; ReqIndex] srv0)))
     <= HISTORY_MAXLEN)%nat /\
  dq_maxlen (srv_history (snd (serve_all [ReqMove body_bad; ReqClick PNone; ReqIndex] srv0)))
    = HISTORY_MAXLEN.
Proof. apply (history_bound_invariant _ srv0 (deque_new_wf _) eq_refl). Defined.

Lemma bad_sample_fails_next_four_witness :
  Forall (fun r => exists msg, r = RError msg)
    (fst (serve_all (map ReqMove [body_bad; body_1_1; body_1_1; body_1_1; body_1_1]) srv0)).
Proof.
  apply (bad_sample_fails_next_four srv0 body_bad [body_1_1; body_1_1; body_1_1; body_1_1]
           (deque_new_wf _) eq_refl).
  - exists (PStr "a", PInt 0). split; reflexivity.
  - simpl. lia.
  - repeat constructor; eexists; reflexivity.
Defined.

(** The bound four is tight: the fifth good request after the bad one is
    served again. *)
Example fifth_after_bad_succeeds :
  nth 5 (fst (serve_all (map ReqMove [body_bad; body_1_1; body_1_1; body_1_1; body_1_1; body_1_1])
                        srv0)) RPage = RSuccess.
Proof. vm_compute. reflexivity. Qed.

Lemma move_missing_key_witness :
  move (PDict [("dx", PInt 1)]) srv0 = (inr (RError INVALID_DATA), srv0).
Proof. apply move_missing_key. right. reflexivity. Defined.

Lemma non_container_body_uncaught_witness :
  serve (ReqClick (PInt 3)) srv0 =
    (RServerError (TypeError "argument of type 'int' is not iterable"), srv0).
Proof. exact (non_container_body_uncaught srv0 (PInt 3) _ (or_intror eq_refl) I). Defined.

Lemma click_button_clicks_witness :
  click (PDict [("button", PStr "right")]) (server_init fake_down) =
    (inr (RError "display unavailable"),
     mk_server movement_history_init fake_down
               [EvClick BRight; EvPrintClickError "display unavailable"]).
Proof. exact (click_button_clicks (server_init fake_down) [("button", PStr "right")] BRight eq_refl). Defined.

Lemma click_other_value_succeeds_witness :
  click (PDict [("button", PStr "middle")]) srv0 = (inr RSuccess, srv0).
Proof.
  exact (click_other_value_succeeds srv0 [("button", PStr "middle")] (PStr "middle") eq_refl eq_refl eq_refl).
Defined.

Lemma click_missing_button_witness :
  click (PDict [("btn", PStr "left")]) srv0 = (inr (RError INVALID_DATA), srv0).
Proof. exact (click_missing_button srv0 [("btn", PStr "left")] eq_refl). Defined.
Definition body_list : pyval := PList [PStr "dx"; PStr "dy"].

Lemma move_sequence_body_witness :
  ((exists l, body_list = PList l /\ "list indices must be integers or slices, not str" =
                                     "list indices must be integers or slices, not str") \/
   (exists str, body_list = PStr str /\ "list indices must be integers or slices, not str" =
                                        "string indices must be integers, not 'str'")) /\
  py_contains "dx" body_list = inr true /\ py_contains "dy" body_list = inr true /\
  move body_list srv0 =
    (inr (RError "list indices must be integers or slices, not str"),
     mk_server (srv_history srv0) (srv_host srv0)
       (srv_trace srv0 ++ [EvPrintMoveError "list indices must be integers or slices, not str"])).
Proof.
  assert (Hd : (exists l, body_list = PList l /\ "list indices must be integers or slices, not str" =
                                     "list indices must be integers or slices, not str") \/
   (exists str, body_list = PStr str /\ "list indices must be integers or slices, not str" =
                                        "string indices must be integers, not 'str'"))
    by (left; eexists; split; reflexivity).
  split; [exact Hd|]. split; [reflexivity|]. split; [reflexivity|].
  apply (move_sequence_body srv0 body_list _ Hd); reflexivity.
Defined.

End Witnesses.
