(* ===== verification/Client.v ===== *)
(** * Client: the page's script (lines 51-99 of the template)

    The touch surface keeps [lastX]/[lastY] ([null] outside a drag).
    [touchstart] records the first touch; [touchmove], when a drag is under
    way, posts [{dx: (clientX - lastX) * 2, dy: (clientY - lastY) * 2}] to
    [/move] and records the new position; [touchend] resets both to [null].
    [sendClick(button)] posts [{button: button}] to [/click].

    A handler is a function from the script's state and the event to the new
    state and the requests it posts, in order.  [JSON.stringify] writes a
    number with an integral value without a fraction, which [json.loads]
    reads back as an [int]; any other number arrives as a [float]
    ([json_number]).

    The theorems: outside a drag nothing is posted; the deltas posted during
    one drag add up to twice the finger's displacement; and, composing the
    page with the server, every [/move] the page posts passes the handler's
    guards with a numeric sample, so on a host that does not raise every
    request the page sends is answered with success.  End to end on an
    ideal host, a drag at constant speed moves the cursor by the sum of its
    deltas, and a drag at any speed by [travel]: the sum, move by move, of
    the floored mean of the last five deltas, which is less than one pixel
    per move short of the exact target ([exact_travel]). *)

From Stdlib Require Import String List Arith Lia ZArith QArith Qround Lqa.
From S2P Require Import Prelude PyValue Deque Smoothing Host Server.
Import ListNotations.
Local Open Scope string_scope.
Local Open Scope list_scope.

(** [let lastX = null; let lastY = null;] *)
Record client : Type := mk_client {
  lastX : option Q;
  lastY : option Q
}.

Definition client_init : client := mk_client None None.

(** The page's events: touches carry [touches[0].clientX/clientY]. *)
Inductive page_event : Type :=
| TouchStart (x y : Q)
| TouchMove (x y : Q)
| TouchEnd
| ButtonClick (name : string).   (** [onclick="sendClick('...')"] *)

(** A JavaScript number after [JSON.stringify] and [json.loads]. *)
Definition json_number (q : Q) : pyval :=
  let r := Qred q in
  if (Qden r =? 1)%positive then PInt (Qnum r) else PFloat q.

(** [fetch('/move', {body: JSON.stringify({dx: deltaX, dy: deltaY})})] *)
Definition post_move (dx dy : Q) : request :=
  ReqMove (PDict [("dx", json_number dx); ("dy", json_number dy)]).

(** Lines 89-99. *)
Definition sendClick (name : string) : request :=
  ReqClick (PDict [("button", PStr name)]).

(** Lines 55-59. *)
Definition on_touchstart (x y : Q) (c : client) : client * list request :=
  (mk_client (Some x) (Some y), []).

(** Lines 61-82. *)
Definition on_touchmove (x y : Q) (c : client) : client * list request :=
  match lastX c, lastY c with
  | Some lx, Some ly =>
      let deltaX := ((x - lx) * 2)%Q in
      let deltaY := ((y - ly) * 2)%Q in
      (mk_client (Some x) (Some y), [post_move deltaX deltaY])
  | _, _ => (c, [])
  end.

(** Lines 84-87. *)
Definition on_touchend (c : client) : client * list request := (mk_client None None, []).

Definition client_step (c : client) (ev : page_event) : client * list request :=
  match ev with
  | TouchStart x y => on_touchstart x y c
  | TouchMove x y => on_touchmove x y c
  | TouchEnd => on_touchend c
  | ButtonClick name => (c, [sendClick name])
  end.

Fixpoint run_client (c : client) (evs : list page_event) : client * list request :=
  match evs with
  | [] => (c, [])
  | ev :: evs' =>
      let '(c1, rs1) := client_step c ev in
      let '(c2, rs2) := run_client c1 evs' in
      (c2, rs1 ++ rs2)
  end.

(** A drag: the finger goes down at [(x0, y0)] and moves through [ps]. *)
Definition drag (x0 y0 : Q) (ps : list (Q * Q)) : list page_event :=
  TouchStart x0 y0 :: map (fun p => TouchMove (fst p) (snd p)) ps.

(** A straight drag: the finger goes down at [(x0, y0)] and then moves by
    [(a, b)] at each [touchmove] event, [n] times. *)
Definition line_points (x0 y0 a b : Q) (i n : nat) : list (Q * Q) :=
  map (fun j => (x0 + inject_Z (Z.of_nat j) * a, y0 + inject_Z (Z.of_nat j) * b)%Q) (seq i n).

(** The request a [touchmove] of a straight drag posts when [2 * a] and
    [2 * b] are whole numbers [k] and [k']. *)
Definition const_move (k k' : Z) : request := ReqMove (PDict [("dx", PInt k); ("dy", PInt k')]).

(** ** Lemmas *)

Lemma json_number_val q : exists v, py_num_val (json_number q) = Some v /\ (v == q)%Q.
Proof.
  unfold json_number, py_num_val. destruct (Qden (Qred q) =? 1)%positive eqn:E; simpl.
  - apply Pos.eqb_eq in E. eexists. split; [reflexivity|].
    rewrite <- (Qred_correct q) at 2. unfold Qeq. simpl. rewrite E. lia.
  - eexists. split; reflexivity.
Qed.

Lemma post_move_sample dx dy :
  exists a b, request_sample (post_move dx dy) = Some (json_number dx, json_number dy)
    /\ sample_val (json_number dx, json_number dy) = Some (a, b) /\ (a == dx)%Q /\ (b == dy)%Q.
Proof.
  destruct (json_number_val dx) as [a [Ha Ea]], (json_number_val dy) as [b [Hb Eb]].
  exists a, b. unfold sample_val. simpl. rewrite Ha, Hb. auto.
Qed.

Lemma run_client_app c evs1 evs2 :
  run_client c (evs1 ++ evs2) =
  (fst (run_client (fst (run_client c evs1)) evs2),
   snd (run_client c evs1) ++ snd (run_client (fst (run_client c evs1)) evs2)).
Proof.
  revert c. induction evs1 as [|ev evs1 IH]; intros c; simpl.
  - destruct (run_client c evs2); reflexivity.
  - destruct (client_step c ev) as [c1 rs1]. rewrite IH.
    destruct (run_client c1 evs1) as [c2 rs2]. simpl. now rewrite app_assoc.
Qed.

Lemma requests_samples_app rs1 rs2 :
  requests_samples (rs1 ++ rs2) = requests_samples rs1 ++ requests_samples rs2.
Proof. apply flat_map_app. Qed.

Lemma last_cons_default {A} (p : A) ps d : last (p :: ps) d = last ps p.
Proof.
  revert p d. induction ps as [|p' ps IH]; intros p d; [reflexivity|].
  transitivity (last (p' :: ps) d); [reflexivity|]. rewrite IH. symmetry. apply IH.
Qed.

(** Every request the page posts is a [post_move] or a [sendClick]. *)
Lemma client_requests_shape c evs :
  Forall (fun r => (exists dx dy, r = post_move dx dy) \/ (exists n, r = sendClick n))
         (snd (run_client c evs)).
Proof.
  revert c. induction evs as [|ev evs IH]; intros c; simpl; [constructor|].
  destruct (client_step c ev) as [c1 rs1] eqn:E. specialize (IH c1).
  destruct (run_client c1 evs) as [c2 rs2]. simpl in *. apply Forall_app. split; [|exact IH].
  destruct ev; simpl in E; unfold on_touchstart, on_touchmove, on_touchend in E; inv_eq;
    try constructor.
  - destruct (lastX c), (lastY c); inv_eq; repeat constructor; eauto.
  - right. eauto.
  - constructor.
Qed.

(** The deltas of the moves that follow a touch at [(lx, ly)]. *)
Lemma moves_telescope lx ly (ps : list (Q * Q)) :
  exists qs,
    map sample_val (requests_samples
      (snd (run_client (mk_client (Some lx) (Some ly)) (map (fun p => TouchMove (fst p) (snd p)) ps))))
      = map Some qs
    /\ length qs = length ps
    /\ (qsum (map fst qs) == 2 * (fst (last ps (lx, ly)) - lx))%Q
    /\ (qsum (map snd qs) == 2 * (snd (last ps (lx, ly)) - ly))%Q.
Proof.
  revert lx ly. induction ps as [|[px py] ps IH]; intros lx ly.
  - exists []. simpl. repeat split; ring.
  - destruct (IH px py) as [qs [Hqs [Hlen [Hx Hy]]]].
    destruct (post_move_sample ((px - lx) * 2) ((py - ly) * 2)) as [a [b [Hr [Hs [Ha Hb]]]]].
    exists ((a, b) :: qs). rewrite last_cons_default. simpl run_client.
    destruct (run_client (mk_client (Some px) (Some py)) _) as [c2 rs2] eqn:E.
    simpl snd in Hqs |- *.
    split; [simpl; now rewrite Hs, Hqs|]. split; [simpl; lia|].
    simpl. rewrite Hx, Hy, Ha, Hb. split; ring.
Qed.

(** ** The protocol between the page and the server *)

(** A JSON number as [json.loads] returns it. *)
Definition json_num_typed (v : pyval) : bool :=
  match v with PInt _ | PFloat _ => true | _ => false end.

(** The two messages of the protocol: [{"dx": number, "dy": number}] to
    [/move] and [{"button": string}] to [/click]. *)
Definition request_typed (r : request) : bool :=
  match r with
  | ReqMove (PDict [(kx, a); (ky, b)]) =>
      String.eqb kx "dx" && String.eqb ky "dy" && json_num_typed a && json_num_typed b
  | ReqClick (PDict [(kb, PStr _)]) => String.eqb kb "button"
  | _ => false
  end.

Lemma json_number_typed q : json_num_typed (json_number q) = true.
Proof. unfold json_number. now destruct (Qden (Qred q) =? 1)%positive. Qed.

(** C22: Every request the page posts, whatever the user does, is a message
    of the protocol: a [/move] with exactly the members [dx] and [dy],
    both JSON numbers, or a [/click] with a string member [button]. *)
Theorem page_requests_typed (c : client) (evs : list page_event) :
  forallb request_typed (snd (run_client c evs)) = true.
Proof.
  apply forallb_forall. intros r Hin.
  pose proof (proj1 (Forall_forall _ _) (client_requests_shape c evs) r Hin) as [[dx [dy ->]]|[n ->]];
    simpl; [now rewrite !json_number_typed | reflexivity].
Qed.

(** ** Properties of the page *)

(** C25: One drag: the finger goes down at [(x0, y0)] and moves through
    [ps]; the page posts one [/move] per movement, each a numeric sample,
    and their [dx] (resp. [dy]) add up to twice the displacement from the
    first touch to the last position. *)
Theorem drag_deltas_sum (c : client) x0 y0 (ps : list (Q * Q)) :
  exists qs,
    map sample_val (requests_samples (snd (run_client c (drag x0 y0 ps)))) = map Some qs
    /\ length qs = length ps
    /\ (qsum (map fst qs) == 2 * (fst (last ps (x0, y0)) - x0))%Q
    /\ (qsum (map snd qs) == 2 * (snd (last ps (x0, y0)) - y0))%Q.
Proof.
  unfold drag. simpl run_client.
  destruct (moves_telescope x0 y0 ps) as [qs H]. exists qs.
  destruct (run_client (mk_client (Some x0) (Some y0)) _) as [c2 rs2]. exact H.
Qed.

(** C26: Outside a drag ([lastX] is [null]: before the first touch or after
    [touchend]) a [touchmove] posts nothing; only the buttons post, and only
    to [/click]. *)
Theorem no_move_outside_drag (c : client) (evs : list page_event) :
  lastX c = None ->
  Forall (fun ev => match ev with TouchStart _ _ => False | _ => True end) evs ->
  Forall (fun r => exists n, r = sendClick n) (snd (run_client c evs)).
Proof.
  intros Hc Hevs. revert c Hc. induction Hevs as [|ev evs Hev Hevs IH]; intros c Hc;
    simpl; [constructor|].
  destruct ev; try contradiction; simpl; unfold on_touchmove, on_touchend; try rewrite Hc.
  - specialize (IH c Hc). destruct (run_client c evs). exact IH.
  - specialize (IH (mk_client None None) eq_refl). destruct (run_client _ evs). exact IH.
  - specialize (IH c Hc). destruct (run_client c evs). constructor; eauto.
Qed.

(** ** The page and the server together *)

Lemma existsb_lastn {A} (f : A -> bool) n l :
  existsb f l = false -> existsb f (lastn n l) = false.
Proof.
  intros Hl. destruct (lastn_suffix n l) as [pre Hpre]. rewrite Hpre, existsb_app in Hl.
  now apply orb_false_iff in Hl as [_ Hl].
Qed.

Section PageAndServer.
Context {H : Type} `{HostInput H}.

Lemma post_move_good dx dy :
  exists smp, request_sample (post_move dx dy) = Some smp /\ sample_bad smp = false.
Proof.
  destruct (post_move_sample dx dy) as [a [b [Hr [Hs _]]]].
  exists (json_number dx, json_number dy). unfold sample_bad. now rewrite Hs.
Qed.

(** From a server whose window is numeric, the requests the page can post
    are all answered with success, and the window stays numeric. *)
Lemma serve_page_requests (rs : list request) (s : server H) :
  host_total H -> deque_wf (srv_history s) -> dq_maxlen (srv_history s) = HISTORY_MAXLEN ->
  existsb sample_bad (dq_items (srv_history s)) = false ->
  Forall (fun r => (exists dx dy, r = post_move dx dy) \/ (exists n, r = sendClick n)) rs ->
  Forall (fun resp => resp = RSuccess) (fst (serve_all rs s)).
Proof.
  intros Htot. revert s. induction rs as [|r rs IH]; intros s Hwf Hmax Hgood Hrs;
    [constructor|].
  inversion Hrs as [|? ? Hr Hrs']; subst. rewrite serve_all_cons.
  destruct Hr as [[dx [dy ->]] | [n ->]].
  - destruct (post_move_good dx dy) as [smp [Hsmp Hb]].
    assert (Hg : existsb sample_bad (dq_items (srv_history s) ++ [smp]) = false).
    { rewrite existsb_app, Hgood. simpl. now rewrite Hb. }
    destruct (serve_move_good Htot s _ smp Hwf ltac:(rewrite Hmax; cbv; lia) Hsmp Hg)
      as [s' [E Hs']].
    unfold post_move at 1 2. rewrite E. simpl. constructor; [reflexivity|].
    apply IH; [rewrite Hs'; auto with mc | now rewrite Hs' | | exact Hrs'].
    rewrite Hs', deque_append_items by exact Hwf. now apply existsb_lastn.
  - destruct (serve_click_name Htot s n) as [s' [E Hs']].
    unfold sendClick at 1 2. rewrite E. simpl. constructor; [reflexivity|].
    apply IH; try rewrite Hs'; assumption.
Qed.

(** The page and the server together, when the requests do not overlap
    (each served to the end before the next, [serve_all]): on a host that
    never raises, every request the page posts, whatever the user does
    (drags, taps, stray moves, either button), is answered with success.
    [EndToEnd] lifts this to the threaded server and the serial
    schedules, and shows what overlapping requests do instead. *)
Theorem page_requests_all_succeed (hst : H) (evs : list page_event) :
  host_total H ->
  Forall (fun resp => resp = RSuccess)
         (fst (serve_all (snd (run_client client_init evs)) (server_init hst))).
Proof.
  intros Htot. apply serve_page_requests;
    [exact Htot | apply deque_new_wf | reflexivity | reflexivity | apply client_requests_shape].
Qed.
End PageAndServer.

(** ** A straight drag, end to end *)

Lemma json_number_int q k : (q == inject_Z k)%Q -> json_number q = PInt k.
Proof.
  intros E. unfold json_number. rewrite (Qred_complete _ _ E).
  now rewrite Qred_inject_Z.
Qed.

(** The round trip of a number through [JSON.stringify] and
    [json.loads]: the server reads back the number the page computed, and
    reads an [int] exactly when that number is a whole number, a [float]
    otherwise. *)
Theorem json_number_roundtrip (q : Q) :
  (exists v, py_num_val (json_number q) = Some v /\ (v == q)%Q) /\
  ((exists k, json_number q = PInt k) <-> exists k, (q == inject_Z k)%Q).
Proof.
  split; [apply json_number_val|]. split.
  - intros [k Hk]. exists k. destruct (json_number_val q) as [v [Hv Eq]].
    rewrite Hk in Hv. simpl in Hv. injection Hv as <-. now symmetry.
  - intros [k Hk]. exists k. now apply json_number_int.
Qed.

Section StraightDrag.
Local Open Scope Q_scope.
Variables (x0 y0 a b : Q) (k k' : Z).
Hypothesis (Hk : 2 * a == inject_Z k) (Hk' : 2 * b == inject_Z k').

Lemma line_requests n : forall i lx ly,
  lx == x0 + inject_Z (Z.of_nat i) * a -> ly == y0 + inject_Z (Z.of_nat i) * b ->
  snd (run_client (mk_client (Some lx) (Some ly))
         (map (fun p => TouchMove (fst p) (snd p)) (line_points x0 y0 a b (S i) n)))
  = repeat (const_move k k') n.
Proof.
  induction n as [|n IH]; intros i lx ly Hx Hy; [reflexivity|].
  unfold line_points. cbn [seq map run_client client_step on_touchmove lastX lastY fst snd].
  fold (line_points x0 y0 a b (S (S i)) n).
  specialize (IH (S i) _ _ (Qeq_refl _) (Qeq_refl _)).
  destruct (run_client _ _) as [c2 rs2]. cbn [snd app] in IH |- *. rewrite IH.
  unfold post_move, const_move. rewrite (json_number_int _ k), (json_number_int _ k'); [reflexivity| |];
    rewrite ?Hx, ?Hy, Nat2Z.inj_succ, <- Z.add_1_r, inject_Z_plus;
    [rewrite <- Hk' | rewrite <- Hk]; ring.
Qed.
End StraightDrag.

Section ConstantWindow.
Variables (k k' : Z).

(** One [const_move] on the ideal host, from a window that holds only the
    same sample: the mean is [(k, k')] and the cursor moves by exactly that. *)
Lemma serve_const_move (X Y : Z) cl d tr m :
  deque_wf d -> dq_maxlen d = HISTORY_MAXLEN -> dq_items d = repeat (PInt k, PInt k') m ->
  exists tr', serve (const_move k k') (mk_server d (mk_ideal (X, Y) cl) tr) =
    (RSuccess, mk_server (deque_append (PInt k, PInt k') d) (mk_ideal (X + k, Y + k')%Z cl) tr').
Proof.
  intros Hwf Hmax Hd.
  destruct (smooth_refines d (PInt k, PInt k') (repeat (inject_Z k, inject_Z k') (S m)) Hwf
              ltac:(rewrite Hmax; cbv; lia)) as [ax [ay [Hr [Hx Hy]]]].
  { rewrite Hd, <- repeat_cons. simpl. now rewrite !map_repeat. }
  unfold window_mean in Hx, Hy. cbn [fst snd] in Hx, Hy.
  rewrite lastn_repeat, !map_repeat, qmean_repeat in Hx, Hy
    by (rewrite Hmax; cbv; lia).
  unfold serve. simpl handle. rewrite (move_dict_run _ (PInt k) (PInt k')) by reflexivity.
  change (srv_history (mk_server d (mk_ideal (X, Y) cl) tr)) with d. rewrite Hr.
  cbv [try_except move_to_target call_position call_moveTo bind emit gets lift
       modify set_host set_history ret]. cbn -[Qfloor Qplus inject_Z].
  assert (Ex : Qfloor (inject_Z X + ax) = (X + k)%Z).
  { rewrite (Qfloor_comp _ (inject_Z (X + k))); [apply Qfloor_Z|].
    rewrite inject_Z_plus, Hx. reflexivity. }
  assert (Ey : Qfloor (inject_Z Y + ay) = (Y + k')%Z).
  { rewrite (Qfloor_comp _ (inject_Z (Y + k'))); [apply Qfloor_Z|].
    rewrite inject_Z_plus, Hy. reflexivity. }
  rewrite Ex, Ey.
  eexists. reflexivity.
Qed.

Lemma serve_const_moves n : forall d X Y cl tr m,
  deque_wf d -> dq_maxlen d = HISTORY_MAXLEN -> dq_items d = repeat (PInt k, PInt k') m ->
  fst (serve_all (repeat (const_move k k') n) (mk_server d (mk_ideal (X, Y) cl) tr)) = repeat RSuccess n
  /\ ih_pos (srv_host (snd (serve_all (repeat (const_move k k') n) (mk_server d (mk_ideal (X, Y) cl) tr))))
     = (X + Z.of_nat n * k, Y + Z.of_nat n * k')%Z.
Proof.
  induction n as [|n IH]; intros d X Y cl tr m Hwf Hmax Hd.
  { simpl. split; [reflexivity|]. f_equal; lia. }
  simpl repeat. rewrite serve_all_cons.
  destruct (serve_const_move X Y cl d tr m Hwf Hmax Hd) as [tr' E]. rewrite E. simpl fst; simpl snd.
  destruct (IH (deque_append (PInt k, PInt k') d) (X + k)%Z (Y + k')%Z cl tr' (Nat.min HISTORY_MAXLEN (S m)))
    as [IH1 IH2]; [auto with mc | exact Hmax | |].
  { rewrite deque_append_items, Hmax, Hd, <- repeat_cons by exact Hwf. apply (lastn_repeat _ _ (S m)). }
  split; [now rewrite IH1|]. rewrite IH2. f_equal; lia.
Qed.
End ConstantWindow.

(** ** Travel at varying speed *)

Section VaryingSpeed.

(** A move whose fields are ints, as the page posts them when the finger
    moves by half-pixels ([json_number_int]). *)
Definition int_sample (z : Z * Z) : sample := (PInt (fst z), PInt (snd z)).

Definition zq (z : Z * Z) : Q * Q := (inject_Z (fst z), inject_Z (snd z)).

(** How far one move carries the cursor of an ideal host once the samples
    [past] have been accepted, this move's last: the floors of the window
    means ([moveTo] of an int plus a float, floored). *)
Definition cursor_step (past : list (Z * Z)) : Z * Z :=
  (Qfloor (fst (window_mean HISTORY_MAXLEN (map zq past))),
   Qfloor (snd (window_mean HISTORY_MAXLEN (map zq past)))).

(** The travel of the moves [ds] after the samples [past], in closed form:
    the [k]-th move adds the floored means of the last five of
    [past ++ firstn k ds]. *)
Definition travel (past ds : list (Z * Z)) : Z * Z :=
  let steps := map (fun k => cursor_step (past ++ firstn k ds)) (seq 1 (length ds)) in
  (fold_right Z.add 0 (map fst steps), fold_right Z.add 0 (map snd steps))%Z.

Lemma sample_val_int z : sample_val (int_sample z) = Some (zq z).
Proof. reflexivity. Qed.

Lemma window_mean_lastn n (l : list (Z * Z)) x :
  window_mean n (map zq (lastn n l ++ [x])) = window_mean n (map zq (l ++ [x])).
Proof. unfold window_mean. rewrite <- !lastn_map, lastn_lastn_snoc. reflexivity. Qed.

Lemma travel_steps past d ds :
  map (fun k => cursor_step (past ++ firstn k (d :: ds))) (seq 1 (S (length ds))) =
  cursor_step (past ++ [d]) :: map (fun k => cursor_step ((past ++ [d]) ++ firstn k ds)) (seq 1 (length ds)).
Proof.
  cbn [seq map]. f_equal. rewrite <- seq_shift, map_map. apply map_ext.
  intros k. simpl. now rewrite <- app_assoc.
Qed.

Lemma travel_cons past d ds :
  travel past (d :: ds) =
  (fst (cursor_step (past ++ [d])) + fst (travel (past ++ [d]) ds),
   snd (cursor_step (past ++ [d])) + snd (travel (past ++ [d]) ds))%Z.
Proof. unfold travel. cbv zeta. cbn [length]. rewrite travel_steps. reflexivity. Qed.

(** The travel in exact arithmetic: the sum, move by move, of the window
    means themselves, with nothing floored. *)
Fixpoint exact_travel (past ds : list (Z * Z)) : Q * Q :=
  match ds with
  | [] => (0, 0)%Q
  | z :: ds' =>
      let w := window_mean HISTORY_MAXLEN (map zq (past ++ [z])) in
      (fst w + fst (exact_travel (past ++ [z]) ds'), snd w + snd (exact_travel (past ++ [z]) ds'))%Q
  end.

(** A floor is at most its argument and more than it minus one. *)
Lemma Qfloor_bounds q : (inject_Z (Qfloor q) <= q /\ q < inject_Z (Qfloor q) + 1)%Q.
Proof.
  split; [apply Qfloor_le|]. pose proof (Qlt_floor q) as Hlt.
  rewrite inject_Z_plus in Hlt. exact Hlt.
Qed.

(** Both coordinates at once: the floored sum against the exact sum. *)
Lemma travel_exact_le ds : forall past,
  (inject_Z (fst (travel past ds)) <= fst (exact_travel past ds)
     <= inject_Z (fst (travel past ds)) + inject_Z (Z.of_nat (length ds)))%Q /\
  (inject_Z (snd (travel past ds)) <= snd (exact_travel past ds)
     <= inject_Z (snd (travel past ds)) + inject_Z (Z.of_nat (length ds)))%Q.
Proof.
  induction ds as [|z ds IH]; intros past.
  { cbn. repeat split; unfold Qle; simpl; lia. }
  rewrite travel_cons. cbn [exact_travel length fst snd]. unfold cursor_step. cbn [fst snd].
  destruct (IH (past ++ [z])) as [[Hx1 Hx2] [Hy1 Hy2]].
  destruct (Qfloor_bounds (fst (window_mean HISTORY_MAXLEN (map zq (past ++ [z]))))) as [Fx1 Fx2].
  destruct (Qfloor_bounds (snd (window_mean HISTORY_MAXLEN (map zq (past ++ [z]))))) as [Fy1 Fy2].
  rewrite Nat2Z.inj_succ, <- Z.add_1_r, !inject_Z_plus.
  change (inject_Z 1) with 1%Q. repeat split; lra.
Qed.

(** With at least one move the upper bound is strict. *)
Lemma travel_exact_lt z ds past :
  (inject_Z (fst (travel past (z :: ds))) <= fst (exact_travel past (z :: ds))
     < inject_Z (fst (travel past (z :: ds))) + inject_Z (Z.of_nat (length (z :: ds))))%Q /\
  (inject_Z (snd (travel past (z :: ds))) <= snd (exact_travel past (z :: ds))
     < inject_Z (snd (travel past (z :: ds))) + inject_Z (Z.of_nat (length (z :: ds))))%Q.
Proof.
  rewrite travel_cons. cbn [exact_travel length fst snd]. unfold cursor_step. cbn [fst snd].
  destruct (travel_exact_le ds (past ++ [z])) as [[Hx1 Hx2] [Hy1 Hy2]].
  destruct (Qfloor_bounds (fst (window_mean HISTORY_MAXLEN (map zq (past ++ [z]))))) as [Fx1 Fx2].
  destruct (Qfloor_bounds (snd (window_mean HISTORY_MAXLEN (map zq (past ++ [z]))))) as [Fy1 Fy2].
  rewrite Nat2Z.inj_succ, <- Z.add_1_r, !inject_Z_plus.
  change (inject_Z 1) with 1%Q. repeat split; lra.
Qed.

(** One int move on the ideal host, from a window of int samples: the
    cursor moves by [cursor_step] of the samples with this one last. *)
Lemma serve_int_move (X Y : Z) cl d tr (past : list (Z * Z)) (z : Z * Z) :
  deque_wf d -> dq_maxlen d = HISTORY_MAXLEN -> dq_items d = map int_sample (lastn HISTORY_MAXLEN past) ->
  exists tr', serve (const_move (fst z) (snd z)) (mk_server d (mk_ideal (X, Y) cl) tr) =
    (RSuccess, mk_server (deque_append (int_sample z) d)
                 (mk_ideal (X + fst (cursor_step (past ++ [z])), Y + snd (cursor_step (past ++ [z])))%Z cl) tr').
Proof.
  intros Hwf Hmax Hd.
  destruct (smooth_refines d (int_sample z) (map zq (lastn HISTORY_MAXLEN past ++ [z])) Hwf
              ltac:(rewrite Hmax; cbv; lia)) as [ax [ay [Hr [Hx Hy]]]].
  { rewrite Hd. change [int_sample z] with (map int_sample [z]).
    rewrite <- map_app, !map_map. apply map_ext. apply sample_val_int. }
  rewrite Hmax, window_mean_lastn in Hx, Hy.
  unfold serve. simpl handle. rewrite (move_dict_run _ (PInt (fst z)) (PInt (snd z))) by reflexivity.
  change (srv_history (mk_server d (mk_ideal (X, Y) cl) tr)) with d.
  change (PInt (fst z), PInt (snd z)) with (int_sample z). rewrite Hr.
  cbv [try_except move_to_target call_position call_moveTo bind emit gets lift
       modify set_host set_history ret]. cbn -[Qfloor Qplus inject_Z cursor_step].
  unfold cursor_step. cbn [fst snd]. rewrite <- (Qfloor_comp _ _ Hx), <- (Qfloor_comp _ _ Hy), <- !Qfloor_plus_Z.
  eexists. reflexivity.
Qed.

Lemma serve_int_moves ds : forall past d X Y cl tr,
  deque_wf d -> dq_maxlen d = HISTORY_MAXLEN -> dq_items d = map int_sample (lastn HISTORY_MAXLEN past) ->
  fst (serve_all (map (fun z => const_move (fst z) (snd z)) ds) (mk_server d (mk_ideal (X, Y) cl) tr))
    = repeat RSuccess (length ds) /\
  ih_pos (srv_host (snd (serve_all (map (fun z => const_move (fst z) (snd z)) ds)
                                   (mk_server d (mk_ideal (X, Y) cl) tr))))
    = (X + fst (travel past ds), Y + snd (travel past ds))%Z.
Proof.
  induction ds as [|z ds IH]; intros past d X Y cl tr Hwf Hmax Hd.
  { simpl. split; [reflexivity|]. f_equal; lia. }
  cbn [map]. rewrite serve_all_cons.
  destruct (serve_int_move X Y cl d tr past z Hwf Hmax Hd) as [tr' E]. rewrite E. cbn [fst snd].
  destruct (IH (past ++ [z]) (deque_append (int_sample z) d) (X + fst (cursor_step (past ++ [z])))%Z
               (Y + snd (cursor_step (past ++ [z])))%Z cl tr') as [IH1 IH2]; [auto with mc | exact Hmax | |].
  { rewrite deque_append_items, Hmax, Hd by exact Hwf.
    now rewrite !lastn_map, lastn_lastn_snoc, map_app. }
  split; [now rewrite IH1|]. rewrite IH2, travel_cons. cbn [fst snd]. f_equal; lia.
Qed.

(** The finger moves from [(lx, ly)] through [ps] by half-pixels: the
    page's deltas [(clientX - lastX) * 2] are the ints [zs]. *)
Fixpoint half_pixel_steps (lx ly : Q) (ps : list (Q * Q)) (zs : list (Z * Z)) : Prop :=
  match ps, zs with
  | [], [] => True
  | p :: ps', z :: zs' =>
      ((fst p - lx) * 2 == inject_Z (fst z))%Q /\ ((snd p - ly) * 2 == inject_Z (snd z))%Q /\
      half_pixel_steps (fst p) (snd p) ps' zs'
  | _, _ => False
  end.

Lemma half_pixel_length lx ly ps zs : half_pixel_steps lx ly ps zs -> length ps = length zs.
Proof.
  revert lx ly zs. induction ps as [|p ps IH]; intros lx ly [|z zs] Hs; simpl in *; try easy.
  f_equal. exact (IH _ _ _ (proj2 (proj2 Hs))).
Qed.

Lemma half_pixel_requests ps : forall lx ly zs,
  half_pixel_steps lx ly ps zs ->
  snd (run_client (mk_client (Some lx) (Some ly)) (map (fun p => TouchMove (fst p) (snd p)) ps))
  = map (fun z => const_move (fst z) (snd z)) zs.
Proof.
  induction ps as [|p ps IH]; intros lx ly [|z zs] Hs; simpl in Hs; try easy.
  destruct Hs as [Hx [Hy Hs]].
  cbn [map run_client client_step on_touchmove lastX lastY].
  specialize (IH _ _ _ Hs). destruct (run_client _ _) as [c2 rs2]. cbn [snd app] in IH |- *.
  rewrite IH. unfold post_move, const_move. now rewrite (json_number_int _ _ Hx), (json_number_int _ _ Hy).
Qed.
End VaryingSpeed.

(** A straight drag, its requests served one after the other: the
    finger goes down at [(x0, y0)] and moves [n] times by [(a, b)] with [2 * a] and [2 * b] whole numbers
    [k] and [k'].  The page posts [n] moves, the server answers each with
    success, and the cursor of an ideal host, started at [(X, Y)], ends at
    [(X + n * k, Y + n * k')]: at constant speed, smoothing loses nothing
    and the floors of [moveTo] add up to nothing. *)
Theorem straight_drag_moves_cursor (X Y : Z) (x0 y0 a b : Q) (k k' : Z) (n : nat) :
  (2 * a == inject_Z k)%Q -> (2 * b == inject_Z k')%Q ->
  fst (serve_all (snd (run_client client_init (drag x0 y0 (line_points x0 y0 a b 1 n))))
                 (server_init (mk_ideal (X, Y) []))) = repeat RSuccess n /\
  ih_pos (srv_host (snd (serve_all (snd (run_client client_init (drag x0 y0 (line_points x0 y0 a b 1 n))))
                                   (server_init (mk_ideal (X, Y) []))))) =
    (X + Z.of_nat n * k, Y + Z.of_nat n * k')%Z.
Proof.
  intros Hk Hk'. unfold drag. cbn [run_client client_step on_touchstart].
  pose proof (line_requests x0 y0 a b k k' Hk Hk' n 0 x0 y0 ltac:(simpl; ring) ltac:(simpl; ring)) as E.
  destruct (run_client _ _) as [c2 rs2]. cbn [snd app] in E |- *. rewrite E.
  apply (serve_const_moves k k' n _ X Y [] [] 0); [apply deque_new_wf | reflexivity | reflexivity].
Qed.

(** Averaging the increments changes the total travel: the finger
    goes down at [(0, 0)], moves to [(5, 0)] and reports a [touchmove] in
    place.  The page posts [dx] 10 then 0 (10 in all), and the cursor of an
    ideal host travels [10 + 5 = 15]: the second move adds the mean of
    [[10; 0]].  Only at constant speed is the travel the sum of the deltas
    ([straight_drag_moves_cursor]). *)
Example drag_overshoot :
  snd (run_client client_init (drag 0 0 [(5, 0); (5, 0)])) = [const_move 10 0; const_move 0 0] /\
  fst (serve_all [const_move 10 0; const_move 0 0] (server_init (mk_ideal (100, 100)%Z [])))
    = [RSuccess; RSuccess] /\
  ih_pos (srv_host (snd (serve_all [const_move 10 0; const_move 0 0]
                                   (server_init (mk_ideal (100, 100)%Z []))))) = (115, 100)%Z.
Proof. split; [|split]; vm_compute; reflexivity. Qed.

(** A drag at any speed, its requests served one after the other: the
    finger goes down at [(x0, y0)] and moves through [ps] by half-pixels, so that the page's
    deltas are the ints [zs].  The page posts one move per point, the
    server answers each with success, and the cursor of an ideal host,
    started at [(X, Y)], ends at [(X, Y) + travel [] zs]: the [k]-th move
    carries it by the floor of the mean of the last five deltas of the
    first [k], per coordinate.  Not the sum of the deltas: the last four
    are under-weighted and the earlier ones counted more than once. *)
Theorem varying_drag_travel (X Y : Z) (x0 y0 : Q) (ps : list (Q * Q)) (zs : list (Z * Z)) :
  half_pixel_steps x0 y0 ps zs ->
  fst (serve_all (snd (run_client client_init (drag x0 y0 ps))) (server_init (mk_ideal (X, Y) [])))
    = repeat RSuccess (length ps) /\
  ih_pos (srv_host (snd (serve_all (snd (run_client client_init (drag x0 y0 ps)))
                                   (server_init (mk_ideal (X, Y) [])))))
    = (X + fst (travel [] zs), Y + snd (travel [] zs))%Z.
Proof.
  intros Hs. rewrite (half_pixel_length _ _ _ _ Hs). unfold drag.
  cbn [run_client client_step on_touchstart].
  pose proof (half_pixel_requests ps x0 y0 zs Hs) as E.
  destruct (run_client _ _) as [c2 rs2]. cbn [snd app] in E |- *. rewrite E.
  apply (serve_int_moves zs [] _ X Y [] []); [apply deque_new_wf | reflexivity | reflexivity].
Qed.

(** C29: The floors of [moveTo] cost less than one pixel per move: after
    the int moves [zs] (at least one) from a window of int samples [past],
    the cursor of an ideal host is at most the exact target (start plus
    the sum of the window means) and more than that target minus the
    number of moves, per coordinate.  The error only grows with the number
    of moves and never reverses its sign. *)
Theorem cursor_drift_bounded (X Y : Z) cl (past zs : list (Z * Z)) d tr :
  zs <> [] -> deque_wf d -> dq_maxlen d = HISTORY_MAXLEN ->
  dq_items d = map int_sample (lastn HISTORY_MAXLEN past) ->
  let pos := ih_pos (srv_host (snd (serve_all (map (fun z => const_move (fst z) (snd z)) zs)
                                              (mk_server d (mk_ideal (X, Y) cl) tr)))) in
  (inject_Z (fst pos) <= inject_Z X + fst (exact_travel past zs)
     < inject_Z (fst pos) + inject_Z (Z.of_nat (length zs)))%Q /\
  (inject_Z (snd pos) <= inject_Z Y + snd (exact_travel past zs)
     < inject_Z (snd pos) + inject_Z (Z.of_nat (length zs)))%Q.
Proof.
  intros Hne Hwf Hmax Hd pos. subst pos.
  rewrite (proj2 (serve_int_moves zs past d X Y cl tr Hwf Hmax Hd)). cbn [fst snd].
  destruct zs as [|z zs]; [congruence|].
  destruct (travel_exact_lt z zs past) as [[Hx1 Hx2] [Hy1 Hy2]].
  rewrite !inject_Z_plus. repeat split; lra.
Qed.

(** ** Witnesses *)

Lemma no_move_outside_drag_witness :
  Forall (fun r => exists n, r = sendClick n)
         (snd (run_client client_init [TouchMove 3 4; ButtonClick "left"; TouchEnd; TouchMove 1 1])).
Proof. apply no_move_outside_drag; [reflexivity | repeat constructor]. Defined.

(** A slow drag to the right: deltas of one pixel after a window of
    zeros.  The means are 1/5, 2/5, 3/5, 4/5 and 1: the exact target is
    [3] pixels away, the cursor moves by [1]. *)
Lemma cursor_drift_bounded_witness :
  [(1, 0); (1, 0); (1, 0); (1, 0); (1, 0)]%Z <> [] /\
  deque_wf (deque_append (int_sample (0, 0)%Z) (deque_append (int_sample (0, 0)%Z)
    (deque_append (int_sample (0, 0)%Z) (deque_append (int_sample (0, 0)%Z) (deque_append (int_sample (0, 0)%Z)
      movement_history_init))))) /\
  fst (exact_travel (repeat (0, 0)%Z 5) [(1, 0); (1, 0); (1, 0); (1, 0); (1, 0)]%Z) == 3 /\
  ih_pos (srv_host (snd (serve_all (map (fun z => const_move (fst z) (snd z)) [(1, 0); (1, 0); (1, 0); (1, 0); (1, 0)]%Z)
     (mk_server (deque_append (int_sample (0, 0)%Z) (deque_append (int_sample (0, 0)%Z)
       (deque_append (int_sample (0, 0)%Z) (deque_append (int_sample (0, 0)%Z) (deque_append (int_sample (0, 0)%Z)
         movement_history_init))))) (mk_ideal (100, 100)%Z []) [])))) = (101, 100)%Z /\
  let pos := ih_pos (srv_host (snd (serve_all (map (fun z => const_move (fst z) (snd z)) [(1, 0); (1, 0); (1, 0); (1, 0); (1, 0)]%Z)
     (mk_server (deque_append (int_sample (0, 0)%Z) (deque_append (int_sample (0, 0)%Z)
       (deque_append (int_sample (0, 0)%Z) (deque_append (int_sample (0, 0)%Z) (deque_append (int_sample (0, 0)%Z)
         movement_history_init))))) (mk_ideal (100, 100)%Z []) [])))) in
  (inject_Z (fst pos) <= inject_Z 100 + fst (exact_travel (repeat (0, 0)%Z 5) [(1, 0); (1, 0); (1, 0); (1, 0); (1, 0)]%Z)
     < inject_Z (fst pos) + inject_Z (Z.of_nat 5))%Q /\
  (inject_Z (snd pos) <= inject_Z 100 + snd (exact_travel (repeat (0, 0)%Z 5) [(1, 0); (1, 0); (1, 0); (1, 0); (1, 0)]%Z)
     < inject_Z (snd pos) + inject_Z (Z.of_nat 5))%Q.
Proof.
  split; [discriminate|]. split; [vm_compute; lia|]. split; [reflexivity|]. split; [vm_compute; reflexivity|].
  apply (cursor_drift_bounded 100 100 [] (repeat (0, 0)%Z 5)); [discriminate | vm_compute; lia | reflexivity | reflexivity].
Defined.
