(* ===== verification/Concurrency.v ===== *)
(** * Concurrency: [move()] requests served by several threads

    [app.run] serves each request on a thread of its own, and lines 117-121
    touch the shared [movement_history] without a lock.  Under CPython's
    global interpreter lock each of the following is atomic, and a thread
    switch can happen between any two of them:
    - the guard and the subscripts of lines 114-117 (thread-local);
    - [movement_history.append(...)];
    - [iter(movement_history)], which the generator expression of line
      120/121 evaluates when it is created: the iterator saves the deque's
      mutation counter and its length;
    - each [next] of that iterator: it raises [RuntimeError("deque mutated
      during iteration")] when the counter moved, returns [StopIteration]
      when the saved length is used up, and otherwise the next item (which
      [sum] then adds);
    - [len(movement_history)], then the division;
    - [pyautogui.position()], the [print], [pyautogui.moveTo(...)];
    - the [print] of the [except] block.
    A thread is a [phase] (its program counter and locals), [thread_step]
    runs one atomic step of it on the shared state, and a [schedule] (a list
    of thread indices) runs an interleaving.  [g_log] is ghost state: the
    samples in the order they were appended. *)

From Stdlib Require Import String List Arith Lia ZArith QArith.
From S2P Require Import Prelude PyValue Deque Smoothing Host Server.
Import ListNotations.
Local Open Scope nat_scope.

(** CPython's deque iterator: saved mutation counter, next index, items left. *)
Record dq_iter : Type := mk_iter { it_state : nat; it_index : nat; it_counter : nat }.

Definition iter_new (d : history) : dq_iter := mk_iter (dq_state d) O (deque_len d).

Definition MUTATED : string := "deque mutated during iteration".

(** [dequeiter_next]: the check of the counter comes first, also on the
    call that ends the iteration. *)
Definition iter_next (d : history) (it : dq_iter) : exn + option (sample * dq_iter) :=
  if negb (Nat.eqb (dq_state d) (it_state it)) then inl (RuntimeError MUTATED)
  else match it_counter it with
       | O => inr None
       | S c =>
           match nth_error (dq_items d) (it_index it) with
           | Some m => inr (Some (m, mk_iter (it_state it) (S (it_index it)) c))
           | None => inr None
           end
       end.

(** The coordinate a generator reads: [m[0]] or [m[1]]. *)
Definition coord (y : bool) : sample -> pyval := if y then snd else fst.

(** The program counter of a [move()] thread, with its locals. *)
Inductive phase : Type :=
| PStart (data : pyval)                         (** line 113: [data] received *)
| PAppend (smp : sample)                        (** line 117 *)
| PIter (y : bool) (avg_dx : option num)        (** line 120/121: [iter(...)] *)
| PSum (y : bool) (it : dq_iter) (acc : num) (avg_dx : option num)  (** [sum]'s loop *)
| PLen (y : bool) (s : num) (avg_dx : option num)   (** [/ len(...)] *)
| PPosition (ax ay : num)                       (** line 124 *)
| PPrint (tx ty : Q)                            (** line 127 *)
| PMoveTo (tx ty : Q)                           (** line 128 *)
| PExcept (e : exn)                             (** lines 130-132 *)
| PDone (r : response)
| PIndex                                        (** line 108 *)
| PClickStart (data : pyval)                    (** lines 138-143: the guard and [data['button']] *)
| PClick (b : button)                           (** line 142 or 144: [pyautogui.click] *)
| PClickExcept (e : exn).                       (** lines 146-148 *)

Record gstate (H : Type) : Type := mk_gstate {
  g_hist : history;
  g_host : H;
  g_trace : list event;
  g_threads : list phase;
  g_log : list sample            (** ghost: the samples appended, in order *)
}.
Arguments mk_gstate {H}.
Arguments g_hist {H}.
Arguments g_host {H}.
Arguments g_trace {H}.
Arguments g_threads {H}.
Arguments g_log {H}.

Fixpoint set_nth {A} (i : nat) (x : A) (l : list A) : list A :=
  match l, i with
  | [], _ => []
  | _ :: l', O => x :: l'
  | y :: l', S i' => y :: set_nth i' x l'
  end.

Lemma nth_error_set_nth_eq {A} i (x : A) l y :
  nth_error l i = Some y -> nth_error (set_nth i x l) i = Some x.
Proof. revert i. induction l as [|z l IH]; intros [|i] E; simpl in *; try discriminate; auto. Qed.

Lemma nth_error_set_nth_ne {A} i j (x : A) l :
  i <> j -> nth_error (set_nth i x l) j = nth_error l j.
Proof.
  revert i j. induction l as [|z l IH]; intros [|i] [|j] Hij; simpl; auto;
    try congruence.
Qed.

Section Threads.
Context {H : Type} `{HostInput H}.

(** What one atomic step of a thread does to the shared history, the host
    and the output, and the thread's next phase. *)
Record effect : Type := mk_effect {
  ef_hist : history; ef_host : H; ef_out : list event; ef_log : list sample; ef_next : phase
}.

Definition local (d : history) (h : H) (ph : phase) : effect := mk_effect d h [] [] ph.

Definition thread_step (d : history) (h : H) (ph : phase) : effect :=
  match ph with
  | PStart data =>
      match py_contains "dx" data with
      | inl e => local d h (PDone (RServerError e))
      | inr false => local d h (PDone (RError INVALID_DATA))
      | inr true =>
          match py_contains "dy" data with
          | inl e => local d h (PDone (RServerError e))
          | inr false => local d h (PDone (RError INVALID_DATA))
          | inr true =>
              match py_getitem data "dx" with
              | inl e => local d h (PExcept e)
              | inr a =>
                  match py_getitem data "dy" with
                  | inl e => local d h (PExcept e)
                  | inr b => local d h (PAppend (a, b))
                  end
              end
          end
      end
  | PAppend smp => mk_effect (deque_append smp d) h [] [smp] (PIter false None)
  | PIter y prev => local d h (PSum y (iter_new d) (NInt 0) prev)
  | PSum y it acc prev =>
      match iter_next d it with
      | inl e => local d h (PExcept e)
      | inr None => local d h (PLen y acc prev)
      | inr (Some (m, it')) =>
          match py_add acc (coord y m) with
          | inl e => local d h (PExcept e)
          | inr acc' => local d h (PSum y it' acc' prev)
          end
      end
  | PLen y s prev =>
      match py_truediv s (Z.of_nat (deque_len d)) with
      | inl e => local d h (PExcept e)
      | inr avg =>
          match prev with
          | None => local d h (PIter true (Some avg))
          | Some ax => local d h (PPosition ax avg)
          end
      end
  | PPosition ax ay =>
      match host_position h with
      | inl e => mk_effect d h [EvPosition] [] (PExcept e)
      | inr (x, y) =>
          mk_effect d h [EvPosition] []
            (PPrint (num_val (num_add (NInt x) ax)) (num_val (num_add (NInt y) ay)))
      end
  | PPrint tx ty => mk_effect d h [EvPrintMove tx ty] [] (PMoveTo tx ty)
  | PMoveTo tx ty =>
      match host_moveTo tx ty MOVE_DURATION h with
      | inl e => mk_effect d h [EvMoveTo tx ty MOVE_DURATION] [] (PExcept e)
      | inr h' => mk_effect d h' [EvMoveTo tx ty MOVE_DURATION] [] (PDone RSuccess)
      end
  | PExcept e =>
      mk_effect d h [EvPrintMoveError (exn_str e)] [] (PDone (RError (exn_str e)))
  | PDone r => local d h (PDone r)
  | PIndex => local d h (PDone RPage)
  | PClickStart data =>
      match py_contains "button" data with
      | inl e => local d h (PDone (RServerError e))
      | inr false => local d h (PDone (RError INVALID_DATA))
      | inr true =>
          match py_getitem data "button" with
          | inl e => local d h (PClickExcept e)
          | inr b =>
              if py_eq_str b "left" then local d h (PClick BLeft)
              else match py_getitem data "button" with
                   | inl e => local d h (PClickExcept e)
                   | inr b' =>
                       if py_eq_str b' "right" then local d h (PClick BRight)
                       else local d h (PDone RSuccess)
                   end
          end
      end
  | PClick b =>
      match host_click b h with
      | inl e => mk_effect d h [EvClick b] [] (PClickExcept e)
      | inr h' => mk_effect d h' [EvClick b] [] (PDone RSuccess)
      end
  | PClickExcept e =>
      mk_effect d h [EvPrintClickError (exn_str e)] [] (PDone (RError (exn_str e)))
  end.

Definition is_done (ph : phase) : bool := match ph with PDone _ => true | _ => false end.

(** Thread [i] takes one step (nothing happens if it is finished or absent). *)
Definition sched_step (i : nat) (g : gstate H) : gstate H :=
  match nth_error (g_threads g) i with
  | Some ph =>
      if is_done ph then g
      else let ef := thread_step (g_hist g) (g_host g) ph in
           mk_gstate (ef_hist ef) (ef_host ef) (g_trace g ++ ef_out ef)
                     (set_nth i (ef_next ef) (g_threads g)) (g_log g ++ ef_log ef)
  | None => g
  end.

Definition run_sched (sched : list nat) (g : gstate H) : gstate H :=
  fold_left (fun g i => sched_step i g) sched g.

(** The thread Flask starts for a request. *)
Definition req_phase (r : request) : phase :=
  match r with ReqIndex => PIndex | ReqMove data => PStart data | ReqClick data => PClickStart data end.

(** Requests in flight from a server state. *)
Definition start_requests (s : server H) (rs : list request) : gstate H :=
  mk_gstate (srv_history s) (srv_host s) (srv_trace s) (map req_phase rs) [].

(** [move] requests in flight. *)
Definition start_threads (s : server H) (datas : list pyval) : gstate H :=
  start_requests s (map ReqMove datas).

(** The interleaving semantics as a relation: any thread that is not
    finished may take the next step. *)
Inductive gstep : gstate H -> gstate H -> Prop :=
| gstep_thread g i ph :
    nth_error (g_threads g) i = Some ph -> is_done ph = false -> gstep g (sched_step i g).

Inductive reachable (g0 : gstate H) : gstate H -> Prop :=
| reach_refl : reachable g0 g0
| reach_step g g' : reachable g0 g -> gstep g g' -> reachable g0 g'.
End Threads.

(** ** The shared history under every interleaving *)

Section HistoryInvariant.
Context {H : Type} `{HostInput H}.

(** A step changes the history only by an append, which it logs. *)
Lemma thread_step_hist (d : history) (h : H) ph :
  (ef_hist (thread_step d h ph) = d /\ ef_log (thread_step d h ph) = []) \/
  (exists smp, ef_hist (thread_step d h ph) = deque_append smp d /\ ef_log (thread_step d h ph) = [smp]).
Proof.
  destruct ph; simpl; destruct_matches; simpl;
    first [left; split; reflexivity | right; eexists; split; reflexivity].
Qed.

(** The shared history is the initial one extended by the logged appends. *)
Definition hist_inv (d0 : history) (g : gstate H) : Prop := g_hist g = deque_extend (g_log g) d0.

Lemma sched_step_hist_inv d0 i (g : gstate H) : hist_inv d0 g -> hist_inv d0 (sched_step i g).
Proof.
  unfold hist_inv, sched_step. intros Hg.
  destruct (nth_error (g_threads g) i) as [ph|]; [destruct (is_done ph)|]; try exact Hg.
  simpl. destruct (thread_step_hist (g_hist g) (g_host g) ph) as [[Ed El]|[smp [Ed El]]];
    rewrite Ed, El, Hg.
  - now rewrite app_nil_r.
  - now rewrite deque_extend_snoc.
Qed.

Lemma reachable_hist_inv (g0 g : gstate H) :
  reachable g0 g -> hist_inv (g_hist g0) g0 -> hist_inv (g_hist g0) g.
Proof.
  induction 1 as [|g g' Hr IH Hs]; intros Hi0; [exact Hi0|].
  inversion Hs; subst. apply sched_step_hist_inv, IH, Hi0.
Qed.

Lemma run_sched_reachable sched (g : gstate H) : reachable g (run_sched sched g).
Proof.
  assert (Hgen : forall g', reachable g g' -> reachable g (run_sched sched g')).
  { induction sched as [|i sched IH]; intros g' Hr; [exact Hr|]. simpl. apply IH.
    unfold sched_step at 1. destruct (nth_error (g_threads g') i) as [ph|] eqn:E; [|exact Hr].
    destruct (is_done ph) eqn:Ed; [exact Hr|].
    eapply reach_step; [exact Hr|]. pose proof (gstep_thread g' i ph E Ed) as Hst.
    unfold sched_step in Hst. now rewrite E, Ed in Hst. }
  apply Hgen, reach_refl.
Qed.
End HistoryInvariant.

(** ** What an iterating thread has read *)

Section Snapshot.
Context {H : Type} `{HostInput H}.
Variable d0 : history.

(** The shared window after the first [k] logged appends. *)
Definition window_at (log : list sample) (k : nat) : history := deque_extend (firstn k log) d0.

(** An iteration in progress has read a prefix of one window that existed;
    a finished one holds the sum of such a window. *)
Definition thread_inv (log : list sample) (ph : phase) : Prop :=
  match ph with
  | PSum y it acc _ =>
      exists k, k <= length log /\ it_state it = dq_state d0 + k /\
        it_index it + it_counter it = deque_len (window_at log k) /\
        py_sum_from (NInt 0) (map (coord y) (firstn (it_index it) (dq_items (window_at log k))))
          = inr acc
  | PLen y s _ =>
      exists k, k <= length log /\ py_sum (map (coord y) (dq_items (window_at log k))) = inr s
  | _ => True
  end.

Definition snapshot_inv (g : gstate H) : Prop :=
  hist_inv d0 g /\ forall i ph, nth_error (g_threads g) i = Some ph -> thread_inv (g_log g) ph.

Lemma window_at_app log l k : k <= length log -> window_at (log ++ l) k = window_at log k.
Proof. intros Hk. unfold window_at. now rewrite firstn_app, (proj2 (Nat.sub_0_le k _) Hk), app_nil_r. Qed.

Lemma thread_inv_app log l ph : thread_inv log ph -> thread_inv (log ++ l) ph.
Proof.
  destruct ph; simpl; try tauto; intros [k [Hk Hrest]]; exists k;
    rewrite length_app, window_at_app by exact Hk; (split; [lia | exact Hrest]).
Qed.

Lemma window_at_full log : window_at log (length log) = deque_extend log d0.
Proof. unfold window_at. now rewrite firstn_all. Qed.

Lemma thread_step_inv (g : gstate H) ph :
  hist_inv d0 g -> thread_inv (g_log g) ph ->
  thread_inv (g_log g ++ ef_log (thread_step (g_hist g) (g_host g) ph))
             (ef_next (thread_step (g_hist g) (g_host g) ph)).
Proof.
  unfold hist_inv. intros Hh Hph.
  destruct ph as [data|smp|y prev|y it acc prev|y s prev|ax ay|tx ty|tx ty|e|r| |data|b|e]; simpl;
    try (destruct_matches; exact I).
  - (* [iter(movement_history)] *)
    rewrite app_nil_r. exists (length (g_log g)). rewrite window_at_full, <- Hh.
    split; [lia|]. split; [rewrite Hh, deque_extend_state; reflexivity|].
    split; reflexivity.
  - (* one [next] *)
    destruct Hph as [k [Hk [Hst [Hcnt Hacc]]]]. unfold iter_next.
    destruct (Nat.eqb_spec (dq_state (g_hist g)) (it_state it)) as [Heq|Hne]; simpl; [|exact I].
    assert (Hkl : k = length (g_log g)).
    { rewrite Hh, deque_extend_state in Heq. lia. }
    subst k. rewrite window_at_full, <- Hh in Hcnt, Hacc.
    destruct (it_counter it) as [|c] eqn:Ec.
    + rewrite app_nil_r. exists (length (g_log g)). rewrite window_at_full, <- Hh. split; [lia|].
      unfold py_sum. rewrite <- Hacc, Nat.add_0_r in *. unfold deque_len in Hcnt.
      now rewrite Hcnt, firstn_all.
    + destruct (nth_error (dq_items (g_hist g)) (it_index it)) as [m|] eqn:Em.
      * destruct (py_add acc (coord y m)) as [e|acc'] eqn:Ea;
          cbn [ef_next ef_log local thread_inv it_index it_counter it_state]; [exact I|].
        rewrite app_nil_r. exists (length (g_log g)). rewrite window_at_full, <- Hh.
        split; [lia|]. split; [exact Hst|]. split; [lia|].
        rewrite (firstn_succ_nth_error _ _ _ Em), map_app. cbn [map].
        rewrite py_sum_from_snoc, Hacc. exact Ea.
      * exfalso. apply nth_error_None in Em. unfold deque_len in Hcnt. lia.
Qed.
End Snapshot.

Section SnapshotRuns.
Context {H : Type} `{HostInput H}.

Lemma sched_step_snapshot d0 i (g : gstate H) :
  snapshot_inv d0 g -> snapshot_inv d0 (sched_step i g).
Proof.
  intros [Hh Ht]. split; [now apply sched_step_hist_inv|].
  unfold sched_step. destruct (nth_error (g_threads g) i) as [ph|] eqn:Ei;
    [destruct (is_done ph)|]; try exact Ht.
  intros j ph' Ej. cbn [g_threads g_log] in *.
  destruct (Nat.eq_dec i j) as [<-|Hij].
  - rewrite (nth_error_set_nth_eq _ _ _ _ Ei) in Ej. injection Ej as <-.
    apply thread_step_inv; [exact Hh | exact (Ht i ph Ei)].
  - rewrite nth_error_set_nth_ne in Ej by exact Hij. apply thread_inv_app, (Ht j ph' Ej).
Qed.

Lemma reachable_snapshot (g0 g : gstate H) :
  reachable g0 g -> snapshot_inv (g_hist g0) g0 -> snapshot_inv (g_hist g0) g.
Proof.
  induction 1 as [|g g' Hr IH Hs]; intros Hi0; [exact Hi0|].
  inversion Hs; subst. apply sched_step_snapshot, IH, Hi0.
Qed.

Lemma start_requests_snapshot (s : server H) rs :
  snapshot_inv (srv_history s) (start_requests s rs).
Proof.
  split; [reflexivity|]. intros i ph E. simpl in E.
  rewrite nth_error_map in E. destruct (nth_error rs i) as [[]|]; simpl in E; inv_eq; exact I.
Qed.

(** C15: Under every interleaving of any requests in flight, the
    shared [movement_history] is the last five of all the samples appended
    so far, in the order the appends happened (none lost, none duplicated),
    never holds more than five, and its mutation counter counts the appends. *)
Theorem concurrent_window_invariant (s : server H) (rs : list request) (g : gstate H) :
  deque_wf (srv_history s) -> reachable (start_requests s rs) g ->
  dq_items (g_hist g) = lastn (dq_maxlen (srv_history s)) (dq_items (srv_history s) ++ g_log g)
  /\ deque_wf (g_hist g)
  /\ dq_state (g_hist g) = dq_state (srv_history s) + length (g_log g).
Proof.
  intros Hwf Hr. pose proof (reachable_hist_inv _ _ Hr eq_refl) as Hh.
  unfold hist_inv in Hh. simpl in Hh. rewrite Hh.
  split; [now apply deque_extend_items|]. split; [now apply deque_extend_wf|].
  apply deque_extend_state.
Qed.

(** C16: What the deque iterator guarantees under every interleaving: each
    [sum(m[i] for m in movement_history)] that completes is the sum over a
    window that really existed (the history after some number of the
    appends), never a mix of two windows. *)
Theorem concurrent_sum_is_snapshot (s : server H) (rs : list request) (g : gstate H) i y sm prev :
  reachable (start_requests s rs) g -> nth_error (g_threads g) i = Some (PLen y sm prev) ->
  exists k, k <= length (g_log g) /\
    py_sum (map (coord y) (dq_items (deque_extend (firstn k (g_log g)) (srv_history s)))) = inr sm.
Proof.
  intros Hr Ei. destruct (reachable_snapshot _ _ Hr (start_requests_snapshot s rs)) as [_ Ht].
  exact (Ht i _ Ei).
Qed.
End SnapshotRuns.

(** ** Two requests in flight *)

Section RaceInputs.
Local Open Scope string_scope.

Definition body_10_0 : pyval := PDict [("dx", PInt 10); ("dy", PInt 0)].

(** Two [move]s of [(10, 0)] in flight on a fresh server. *)
Definition race_start : gstate ideal_host :=
  start_threads (server_init (mk_ideal (100, 100)%Z [])) [body_10_0; body_10_0].
End RaceInputs.

(** ** A thread running alone is the sequential handler *)

Section Solo.
Context {H : Type} `{HostInput H}.
Local Open Scope mc_scope.

Definition finish (m : PyM (server H) response) (s : server H) : response * server H :=
  match m s with (inr r, s') => (r, s') | (inl e, s') => (RServerError e, s') end.

Definition guarded (m : PyM (server H) response) : server H -> response * server H :=
  finish (try_except m move_except).

Definition len_div (sm : num) : PyM history num :=
  n <- gets deque_len ;; lift (py_truediv sm (Z.of_nat n)).

(** What is left of [move()] once the average of one coordinate is known. *)
Definition after_avg (prev : option num) (a : num) : PyM (server H) response :=
  match prev with
  | None => ay <- on_history (average_coord snd) ;; move_to_target (a, ay)
  | Some ax => move_to_target (ax, a)
  end.

(** The rest of the sequential computation a phase stands for. *)
Definition denote (ph : phase) : server H -> response * server H :=
  match ph with
  | PStart data => finish (move data)
  | PAppend smp => guarded (avg <- on_history (record_and_average smp) ;; move_to_target avg)
  | PIter y prev => guarded (a <- on_history (average_coord (coord y)) ;; after_avg prev a)
  | PSum y it acc prev => fun s =>
      guarded (sm <- lift (py_sum_from acc (map (coord y) (skipn (it_index it) (dq_items (srv_history s))))) ;;
               a <- on_history (len_div sm) ;; after_avg prev a) s
  | PLen y sm prev => guarded (a <- on_history (len_div sm) ;; after_avg prev a)
  | PPosition ax ay => guarded (move_to_target (ax, ay))
  | PPrint tx ty => guarded (emit (EvPrintMove tx ty) ;; call_moveTo tx ty MOVE_DURATION ;; ret RSuccess)
  | PMoveTo tx ty => guarded (call_moveTo tx ty MOVE_DURATION ;; ret RSuccess)
  | PExcept e => finish (move_except e)
  | PDone r => fun s => (r, s)
  | PIndex => finish index
  | PClickStart data => finish (click data)
  | PClick b => finish (try_except (call_click b ;; ret RSuccess) click_except)
  | PClickExcept e => finish (click_except e)
  end.

(** Alone, an iterator always sees the deque it was created on. *)
Definition phase_ok (d : history) (ph : phase) : Prop :=
  match ph with
  | PSum _ it _ _ => it_state it = dq_state d /\ it_index it + it_counter it = deque_len d
  | _ => True
  end.

Ltac run_monad :=
  cbv [denote guarded finish try_except bind lift gets modify ret on_history set_history set_host
       emit call_position call_moveTo move_to_target move_except after_avg len_div average_coord
       record_and_average thread_step local ef_next ef_hist ef_host ef_out ef_log move move_body coord
       py_sum iter_new it_index skipn index click click_body click_except call_click];
  cbn [srv_history srv_host srv_trace fst snd].

Ltac step_prims :=
  repeat (cbv beta iota delta [srv_history srv_host srv_trace fst snd];
          first
    [ reflexivity
    | match goal with |- context [py_contains ?k ?v] => destruct (py_contains k v) as [?|[|]] eqn:? end
    | match goal with |- context [py_getitem ?v ?k] => destruct (py_getitem v k) eqn:? end
    | match goal with |- context [host_position ?h] => destruct (host_position h) as [?|[? ?]] eqn:? end
    | match goal with |- context [host_moveTo ?x ?y ?t ?h] => destruct (host_moveTo x y t h) eqn:? end
    | match goal with |- context [host_click ?b ?h] => destruct (host_click b h) eqn:? end
    | match goal with |- context [py_eq_str ?v ?k] => destruct (py_eq_str v k) eqn:? end
    | match goal with |- context [py_truediv ?a ?n] => destruct (py_truediv a n) eqn:? end
    | match goal with |- context [py_sum_from ?a ?l] => destruct (py_sum_from a l) eqn:? end
    | match goal with |- context [match ?o with Some _ => _ | None => _ end] => destruct o eqn:? end ]);
  rewrite ?app_nil_r, <- ?app_assoc; try congruence.

Lemma denote_step_simple (d : history) (h : H) tr ph :
  (forall y it acc prev, ph <> PSum y it acc prev) -> is_done ph = false ->
  denote ph (mk_server d h tr) =
  denote (ef_next (thread_step d h ph))
         (mk_server (ef_hist (thread_step d h ph)) (ef_host (thread_step d h ph))
                    (tr ++ ef_out (thread_step d h ph))).
Proof.
  intros Hns Hnd. destruct ph; try discriminate Hnd; try (exfalso; eapply Hns; reflexivity);
    run_monad; step_prims.
Qed.

(** One step of [sum]'s loop, alone, reads the next item of the deque. *)
Lemma denote_step_sum (d : history) (h : H) tr y it acc prev :
  phase_ok d (PSum y it acc prev) ->
  denote (PSum y it acc prev) (mk_server d h tr) =
  denote (ef_next (thread_step d h (PSum y it acc prev)))
         (mk_server (ef_hist (thread_step d h (PSum y it acc prev)))
                    (ef_host (thread_step d h (PSum y it acc prev)))
                    (tr ++ ef_out (thread_step d h (PSum y it acc prev)))).
Proof.
  intros [Hst Hlen]. unfold deque_len in Hlen.
  unfold thread_step, iter_next, local.
  cbv beta iota delta [ef_next ef_hist ef_host ef_out srv_history srv_host srv_trace].
  rewrite Hst, Nat.eqb_refl. cbn [negb].
  destruct (it_counter it) as [|c] eqn:Ec.
  - rewrite Nat.add_0_r in Hlen. cbn [denote]. cbv beta iota delta [srv_history].
    rewrite Hlen, skipn_all, app_nil_r. reflexivity.
  - destruct (nth_error (dq_items d) (it_index it)) as [m|] eqn:En.
    2: { apply nth_error_None in En. lia. }
    cbn [denote]. cbv beta iota delta [srv_history]. rewrite (skipn_nth_error _ _ _ En). cbn [map py_sum_from].
    destruct (py_add acc (coord y m)); rewrite app_nil_r; reflexivity.
Qed.

Lemma denote_step (d : history) (h : H) tr ph :
  phase_ok d ph -> is_done ph = false ->
  denote ph (mk_server d h tr) =
  denote (ef_next (thread_step d h ph))
         (mk_server (ef_hist (thread_step d h ph)) (ef_host (thread_step d h ph))
                    (tr ++ ef_out (thread_step d h ph))).
Proof.
  intros Hok Hnd. destruct ph; try (apply denote_step_sum; exact Hok);
    apply denote_step_simple; auto; discriminate.
Qed.

Lemma phase_ok_step (d : history) (h : H) ph :
  phase_ok d ph -> phase_ok (ef_hist (thread_step d h ph)) (ef_next (thread_step d h ph)).
Proof.
  destruct ph; try (simpl; destruct_matches; simpl; auto; unfold deque_len; lia).
  intros [Hs Hl]. simpl. unfold iter_next. rewrite <- Hs, Nat.eqb_refl. simpl.
  destruct (it_counter it) as [|c] eqn:Ec; simpl; auto.
  destruct (nth_error _ _); simpl; auto.
  destruct (py_add _ _); simpl; auto. lia.
Qed.

(** Steps a lone [move()] thread still has to take: a pass over the window
    takes [L + 3] steps ([iter], [L + 1] calls of [next], [len]). *)
Definition solo_tail (d : history) (prev : option num) : nat :=
  match prev with None => deque_len d + 8 | Some _ => 5 end.

Lemma solo_tail_pos d prev : 5 <= solo_tail d prev.
Proof. destruct prev; simpl; lia. Qed.

Definition solo_measure (d : history) (ph : phase) : nat :=
  match ph with
  | PStart _ => 2 * S (deque_len d) + 12
  | PAppend smp => 2 * deque_len (deque_append smp d) + 11
  | PIter _ prev => deque_len d + 2 + solo_tail d prev
  | PSum _ it _ prev => it_counter it + 1 + solo_tail d prev
  | PLen _ _ prev => solo_tail d prev
  | PPosition _ _ => 4
  | PPrint _ _ => 3
  | PMoveTo _ _ => 2
  | PExcept _ => 1
  | PDone _ => 0
  | PIndex => 1
  | PClickStart _ => 3
  | PClick _ => 2
  | PClickExcept _ => 1
  end.

Lemma solo_measure_step (d : history) (h : H) ph :
  is_done ph = false ->
  solo_measure (ef_hist (thread_step d h ph)) (ef_next (thread_step d h ph)) < solo_measure d ph.
Proof.
  intros Hnd. destruct ph; try discriminate Hnd.
  4: { pose proof (solo_tail_pos d avg_dx). simpl. unfold iter_next.
       destruct (negb _); simpl; [lia|].
       destruct (it_counter it) as [|c]; simpl; [lia|].
       destruct (nth_error _ _) as [[]|]; simpl; [destruct (py_add _ _)|]; simpl; lia. }
  all: simpl; unfold solo_tail; destruct_matches; simpl; try lia.
  match goal with |- context [deque_len (deque_append ?x ?d)] =>
    pose proof (deque_append_len_le x d) end. lia.
Qed.

Definition g_server (g : gstate H) : server H := mk_server (g_hist g) (g_host g) (g_trace g).

Lemma set_nth_set_nth {A} i (x y : A) l : set_nth i x (set_nth i y l) = set_nth i x l.
Proof. revert i. induction l as [|z l IH]; intros [|i]; simpl; f_equal; auto. Qed.

Lemma set_nth_middle {A} (l1 l2 : list A) x y :
  set_nth (length l1) x (l1 ++ y :: l2) = l1 ++ x :: l2.
Proof. induction l1 as [|z l1 IH]; simpl; f_equal; auto. Qed.

Lemma sched_step_at i d (h : H) tr log ts ph :
  nth_error ts i = Some ph -> is_done ph = false ->
  sched_step i (mk_gstate d h tr ts log) =
  mk_gstate (ef_hist (thread_step d h ph)) (ef_host (thread_step d h ph))
            (tr ++ ef_out (thread_step d h ph)) (set_nth i (ef_next (thread_step d h ph)) ts)
            (log ++ ef_log (thread_step d h ph)).
Proof. intros Ei Hnd. unfold sched_step. simpl. now rewrite Ei, Hnd. Qed.

Lemma run_sched_done_at n i (g : gstate H) r :
  nth_error (g_threads g) i = Some (PDone r) -> run_sched (repeat i n) g = g.
Proof.
  intros Eg. induction n as [|n IH]; [reflexivity|]. simpl.
  replace (sched_step i g) with g; [exact IH|]. unfold sched_step. now rewrite Eg.
Qed.

(** Thread [i], scheduled alone, runs to the end of what its phase denotes
    within [solo_measure] of its own steps; the other threads are left as
    they are. *)
Lemma thread_run n : forall d (h : H) tr log ts i ph r s',
  nth_error ts i = Some ph -> phase_ok d ph -> solo_measure d ph <= n ->
  denote ph (mk_server d h tr) = (r, s') ->
  exists log', run_sched (repeat i n) (mk_gstate d h tr ts log) =
    mk_gstate (srv_history s') (srv_host s') (srv_trace s') (set_nth i (PDone r) ts) log'.
Proof.
  induction n as [|n IH]; intros d h tr log ts i ph r s' Ei Hok Hm Hd;
    (destruct (is_done ph) eqn:Hnd;
     [destruct ph; try discriminate Hnd; simpl in Hd; inv_eq; exists log;
      rewrite run_sched_done_at with (r := r) by exact Ei;
      f_equal; revert ts Ei; induction i as [|i IHi]; intros [|t ts] Ei;
      simpl in *; inv_eq; f_equal; auto|]);
    pose proof (solo_measure_step d h ph Hnd); [lia|].
  simpl. rewrite sched_step_at with (ph := ph) by assumption.
  set (ef := thread_step d h ph) in *.
  destruct (IH (ef_hist ef) (ef_host ef) (tr ++ ef_out ef) (log ++ ef_log ef)
               (set_nth i (ef_next ef) ts) i (ef_next ef) r s') as [log' E];
    [apply nth_error_set_nth_eq with (y := ph), Ei | apply phase_ok_step, Hok | lia
    | rewrite <- Hd; symmetry; apply denote_step; assumption |].
  exists log'. rewrite E, set_nth_set_nth. reflexivity.
Qed.

Lemma g_server_mk d (h : H) tr ts log : g_server (mk_gstate d h tr ts log) = mk_server d h tr.
Proof. reflexivity. Qed.

Lemma denote_req_phase r (s : server H) : denote (req_phase r) s = serve r s.
Proof. destruct r; reflexivity. Qed.

Lemma solo_measure_req d r : solo_measure d (req_phase r) <= 2 * deque_len d + 14.
Proof. destruct r; simpl; lia. Qed.

(** C19: With no other request in flight, the thread of a request
    ([index], [move] or [click]) answers and leaves the server exactly as
    the sequential handler does, within [2 * len(history) + 14] steps: the
    atomic steps compose to the handler. *)
Theorem solo_request_refines (s : server H) (r : request) n :
  2 * deque_len (srv_history s) + 14 <= n ->
  g_threads (run_sched (repeat 0 n) (start_requests s [r])) = [PDone (fst (serve r s))] /\
  g_server (run_sched (repeat 0 n) (start_requests s [r])) = snd (serve r s).
Proof.
  intros Hn. destruct s as [d h tr]. unfold start_requests. cbn [map srv_history srv_host srv_trace] in *.
  destruct (serve r (mk_server d h tr)) as [resp s'] eqn:Es.
  destruct (thread_run n d h tr [] [req_phase r] 0 (req_phase r) resp s') as [log' E];
    [reflexivity | destruct r; exact I | pose proof (solo_measure_req d r); simpl in Hn; lia
    | rewrite denote_req_phase; exact Es |].
  rewrite E. split; [reflexivity|]. destruct s'; reflexivity.
Qed.

(** The schedule that runs thread [0] for [N] steps, then thread [1], ... *)
Definition serial_schedule (N k : nat) : list nat := flat_map (fun i => repeat i N) (seq 0 k).

Lemma run_sched_app l1 l2 (g : gstate H) : run_sched (l1 ++ l2) g = run_sched l2 (run_sched l1 g).
Proof. apply fold_left_app. Qed.

Lemma serve_history_wf r (s : server H) :
  deque_wf (srv_history s) ->
  deque_wf (srv_history (snd (serve r s))) /\
  dq_maxlen (srv_history (snd (serve r s))) = dq_maxlen (srv_history s).
Proof.
  intros Hwf. rewrite serve_history.
  destruct (request_sample r); [split; [apply deque_append_wf, Hwf | reflexivity] | auto].
Qed.

Lemma nth_error_middle_map {A B C} (f : A -> C) (g : B -> C) l1 x l2 :
  nth_error (map f l1 ++ g x :: map g l2) (length l1) = Some (g x).
Proof. rewrite nth_error_app2; rewrite length_map; [rewrite Nat.sub_diag; reflexivity | lia]. Qed.

(** Threads [length rs], [length rs + 1], ... run one after the other,
    each to its end, as [serve_all] runs the requests. *)
Lemma serial_run reqs : forall rs d (h : H) tr log N,
  deque_wf d -> 2 * dq_maxlen d + 14 <= N ->
  exists log',
    run_sched (flat_map (fun i => repeat i N) (seq (length rs) (length reqs)))
              (mk_gstate d h tr (map PDone rs ++ map req_phase reqs) log) =
    mk_gstate (srv_history (snd (serve_all reqs (mk_server d h tr))))
              (srv_host (snd (serve_all reqs (mk_server d h tr))))
              (srv_trace (snd (serve_all reqs (mk_server d h tr))))
              (map PDone (rs ++ fst (serve_all reqs (mk_server d h tr)))) log'.
Proof.
  induction reqs as [|q reqs IH]; intros rs d h tr log N Hwf HN.
  { exists log. simpl. now rewrite !app_nil_r. }
  cbn [length seq flat_map map]. rewrite run_sched_app, serve_all_cons.
  destruct (serve q (mk_server d h tr)) as [r [d1 h1 tr1]] eqn:Es.
  pose proof (serve_history_wf q (mk_server d h tr) Hwf) as Hwf1.
  rewrite Es in Hwf1. simpl in Hwf1. destruct Hwf1 as [Hwf1 Hm1].
  destruct (thread_run N d h tr log (map PDone rs ++ req_phase q :: map req_phase reqs) (length rs)
              (req_phase q) r (mk_server d1 h1 tr1)) as [log1 E1];
    [apply nth_error_middle_map | destruct q; exact I
    | pose proof (solo_measure_req d q); unfold deque_wf in Hwf; lia
    | rewrite denote_req_phase; exact Es |].
  rewrite E1. simpl. rewrite <- (length_map PDone rs), set_nth_middle.
  destruct (IH (rs ++ [r]) d1 h1 tr1 log1 N Hwf1 ltac:(lia)) as [log2 E2].
  exists log2. rewrite length_app, Nat.add_1_r in E2.
  replace (map PDone rs ++ PDone r :: map req_phase reqs)
    with (map PDone (rs ++ [r]) ++ map req_phase reqs) by (rewrite map_app, <- app_assoc; reflexivity).
  rewrite length_map, E2, <- app_assoc. reflexivity.
Qed.

(** C20: Requests that do not overlap in time are served as the sequential
    model serves them: running the threads of [rs] (any mix of [index],
    [move] and [click]) one after the other, each for [2 * maxlen + 14]
    steps, gives the answers and the final state of [serve_all rs]. *)
Theorem serial_requests_refine (s : server H) (rs : list request) N :
  deque_wf (srv_history s) -> 2 * dq_maxlen (srv_history s) + 14 <= N ->
  g_threads (run_sched (serial_schedule N (length rs)) (start_requests s rs))
    = map PDone (fst (serve_all rs s)) /\
  g_server (run_sched (serial_schedule N (length rs)) (start_requests s rs))
    = snd (serve_all rs s).
Proof.
  intros Hwf HN. destruct s as [d h tr].
  destruct (serial_run rs [] d h tr [] N Hwf HN) as [log' E].
  unfold serial_schedule, start_requests. simpl in E |- *. rewrite E.
  split; [reflexivity|]. destruct (snd _); reflexivity.
Qed.
End Solo.

(** ** Races, for every window and every pair of moves *)

Section Races.
Context {H : Type} `{HostInput H}.
Local Open Scope string_scope.
Local Open Scope list_scope.

(** A move's guard and subscripts on a dict body, in one step. *)
Lemma move_start_step (d : history) (h : H) kvs a b :
  dict_lookup "dx" kvs = Some a -> dict_lookup "dy" kvs = Some b ->
  thread_step d h (PStart (PDict kvs)) = local d h (PAppend (a, b)).
Proof.
  intros Ea Eb. cbn [thread_step py_contains].
  rewrite (dict_lookup_contains _ _ _ Ea), (dict_lookup_contains _ _ _ Eb). simpl. now rewrite Ea, Eb.
Qed.

Lemma eqb_succ_self n : Nat.eqb (S n) n = false.
Proof. apply Nat.eqb_neq. lia. Qed.

Lemma iter_next_after_append (d : history) x it :
  it_state it = dq_state d -> iter_next (deque_append x d) it = inl (RuntimeError MUTATED).
Proof. intros E. unfold iter_next, deque_append. cbn [dq_state]. rewrite E, eqb_succ_self. reflexivity. Qed.

Ltac sched_step1 :=
  match goal with
  | |- context [sched_step ?i (mk_gstate ?d ?h ?tr ?ts ?log)] =>
      rewrite (sched_step_at i d h tr log ts _ eq_refl eq_refl)
  end.

(** C18: Two overlapping [move()]s make one of them fail, whatever the
    window holds and whatever the two samples are: with bodies that have
    [dx] and [dy], if thread 0 appends and creates its iterator, and thread
    1 then appends before thread 0's first [next], thread 0 raises
    [RuntimeError("deque mutated during iteration")], prints it and
    answers with that error without any host call, while the window holds
    both samples. *)
Theorem race_mutated_during_iteration (s : server H) kvs1 kvs2 a1 b1 a2 b2 :
  dict_lookup "dx" kvs1 = Some a1 -> dict_lookup "dy" kvs1 = Some b1 ->
  dict_lookup "dx" kvs2 = Some a2 -> dict_lookup "dy" kvs2 = Some b2 ->
  let g := run_sched [0; 0; 0; 1; 1; 0; 0]%nat (start_threads s [PDict kvs1; PDict kvs2]) in
  nth_error (g_threads g) 0 = Some (PDone (RError MUTATED)) /\
  g_trace g = srv_trace s ++ [EvPrintMoveError MUTATED] /\
  g_hist g = deque_append (a2, b2) (deque_append (a1, b1) (srv_history s)).
Proof.
  intros E1 E2 E3 E4 g. subst g. destruct s as [d h tr].
  unfold start_threads, start_requests. cbn [map req_phase run_sched fold_left srv_history srv_host srv_trace].
  repeat (sched_step1;
          rewrite ?(move_start_step _ _ _ _ _ E1 E2), ?(move_start_step _ _ _ _ _ E3 E4);
          cbn [thread_step ef_hist ef_host ef_out ef_log ef_next local set_nth app exn_str];
          try (rewrite iter_next_after_append by reflexivity;
               cbn [ef_hist ef_host ef_out ef_log ef_next local set_nth app exn_str])).
  cbn [g_threads g_trace g_hist nth_error srv_trace srv_history]. rewrite !app_nil_r. repeat split.
Qed.

(** Thread [i] runs its [sum] alone to the end: it reaches [len] with the
    sum of the items its iterator still had to visit. *)
Lemma sum_loop c : forall (d : history) (h : H) tr ts log i y it acc acc' prev,
  it_counter it = c -> nth_error ts i = Some (PSum y it acc prev) -> it_state it = dq_state d ->
  it_index it + c <= length (dq_items d) ->
  py_sum_from acc (map (coord y) (firstn c (skipn (it_index it) (dq_items d)))) = inr acc' ->
  run_sched (repeat i (S c)) (mk_gstate d h tr ts log) = mk_gstate d h tr (set_nth i (PLen y acc' prev) ts) log.
Proof.
  induction c as [|c IH]; intros d h tr ts log i y it acc acc' prev Hc Ei Hst Hlen Hsum.
  - cbn in Hsum. injection Hsum as <-. cbn [repeat run_sched fold_left].
    rewrite (sched_step_at i d h tr log ts _ Ei eq_refl). cbn [thread_step].
    unfold iter_next. rewrite Hst, Nat.eqb_refl, Hc. cbn. now rewrite !app_nil_r.
  - destruct (nth_error (dq_items d) (it_index it)) as [m|] eqn:Em;
      [|apply nth_error_None in Em; lia].
    rewrite (skipn_nth_error _ _ _ Em) in Hsum. cbn [firstn map py_sum_from] in Hsum.
    destruct (py_add acc (coord y m)) as [e|acc1] eqn:Ea; [discriminate|].
    change (run_sched (repeat i (S (S c))) (mk_gstate d h tr ts log))
      with (run_sched (repeat i (S c)) (sched_step i (mk_gstate d h tr ts log))).
    rewrite (sched_step_at i d h tr log ts _ Ei eq_refl). cbn [thread_step].
    unfold iter_next. rewrite Hst, Nat.eqb_refl, Hc, Em. cbn [negb]. rewrite Ea.
    cbn [ef_hist ef_host ef_out ef_log ef_next local]. rewrite !app_nil_r.
    rewrite (IH d h tr _ log i y (mk_iter (dq_state d) (S (it_index it)) c) acc1 acc' prev);
      [now rewrite set_nth_set_nth | reflexivity | eapply nth_error_set_nth_eq; exact Ei
      | reflexivity | simpl; lia | exact Hsum].
Qed.

Lemma deque_append_no_evict x (d : history) :
  deque_wf d -> length (dq_items d) < dq_maxlen d -> dq_items (deque_append x d) = dq_items d ++ [x].
Proof.
  intros Hwf Hlt. rewrite deque_append_items by exact Hwf. apply lastn_all. rewrite length_app. simpl. lia.
Qed.

(** C17: Under concurrency an average can be the mean of no window: from
    any window with room for two more samples, if thread 0 appends and runs
    its whole [sum] for [dx] and thread 1 appends before thread 0 reads
    [len], thread 0's [avg_dx] is the sum over the window after its own
    append divided by the length of the window after the other append. *)
Theorem race_average_of_no_window (s : server H) kvs1 kvs2 a1 b1 a2 b2 sm :
  dict_lookup "dx" kvs1 = Some a1 -> dict_lookup "dy" kvs1 = Some b1 ->
  dict_lookup "dx" kvs2 = Some a2 -> dict_lookup "dy" kvs2 = Some b2 ->
  deque_wf (srv_history s) -> length (dq_items (srv_history s)) + 2 <= dq_maxlen (srv_history s) ->
  py_sum (map fst (dq_items (srv_history s) ++ [(a1, b1)])) = inr sm ->
  let n := length (dq_items (srv_history s)) in
  let g := run_sched ([0; 0; 0] ++ repeat 0 (S (S n)) ++ [1; 1; 0])%nat
                     (start_threads s [PDict kvs1; PDict kvs2]) in
  nth_error (g_threads g) 0 = Some (PIter true (Some (NFloat (num_val sm / inject_Z (Z.of_nat (n + 2)))))).
Proof.
  intros E1 E2 E3 E4 Hwf Hroom Hsum n g. subst g n. destruct s as [d h tr].
  cbn [srv_history] in *. set (n := length (dq_items d)) in *.
  assert (Hd1 : dq_items (deque_append (a1, b1) d) = dq_items d ++ [(a1, b1)])
    by (apply deque_append_no_evict; [exact Hwf | lia]).
  assert (Hwf1 : deque_wf (deque_append (a1, b1) d)) by auto with mc.
  assert (Hd2 : dq_items (deque_append (a2, b2) (deque_append (a1, b1) d))
                = dq_items d ++ [(a1, b1); (a2, b2)]).
  { rewrite deque_append_no_evict, Hd1, <- app_assoc; [reflexivity | exact Hwf1 |].
    rewrite Hd1, length_app. unfold deque_append. simpl. fold n. lia. }
  rewrite !run_sched_app. unfold start_threads, start_requests.
  cbn [map req_phase srv_history srv_host srv_trace].
  change (run_sched [0; 0; 0]%nat ?g) with (sched_step 0 (sched_step 0 (sched_step 0 g))).
  repeat (sched_step1; rewrite ?(move_start_step _ _ _ _ _ E1 E2);
          cbn [thread_step ef_hist ef_host ef_out ef_log ef_next local set_nth app]).
  rewrite (sum_loop (S n) _ h _ _ _ 0 false (iter_new (deque_append (a1, b1) d)) (NInt 0) sm None);
    [| unfold iter_new, deque_len; rewrite Hd1, length_app; simpl; fold n; lia | reflexivity | reflexivity
     | unfold iter_new, deque_len; rewrite Hd1, length_app; simpl; fold n; lia |].
  2: { unfold iter_new. cbn [it_index skipn]. rewrite Hd1.
       rewrite firstn_all2 by (rewrite length_app; simpl; fold n; lia). exact Hsum. }
  cbn [set_nth run_sched fold_left].
  repeat (sched_step1; rewrite ?(move_start_step _ _ _ _ _ E3 E4);
          cbn [thread_step ef_hist ef_host ef_out ef_log ef_next local set_nth app]).
  unfold deque_len. rewrite Hd2, length_app, py_truediv_pos by (simpl; lia).
  cbn. reflexivity.
Qed.
End Races.

(** ** The theorems at concrete runs *)

Section ConcurrencyWitnesses.
Local Open Scope string_scope.

Definition srv_idle : server ideal_host := server_init (mk_ideal (100, 100)%Z []).

(** Two moves and a click in flight. *)
Definition mixed : list request :=
  [ReqMove body_10_0; ReqClick (PDict [("button", PStr "left")]); ReqMove body_10_0].

Lemma concurrent_window_invariant_witness :
  let g := run_sched [0; 0; 0; 0; 0; 1; 1; 2; 2; 2; 0] (start_requests srv_idle mixed) in
  deque_wf (srv_history srv_idle) /\
  reachable (start_requests srv_idle mixed) g /\
  (dq_items (g_hist g) = lastn (dq_maxlen (srv_history srv_idle)) (dq_items (srv_history srv_idle) ++ g_log g)
   /\ deque_wf (g_hist g)
   /\ dq_state (g_hist g) = dq_state (srv_history srv_idle) + length (g_log g)).
Proof.
  cbv zeta. split; [vm_compute; lia|]. split; [apply run_sched_reachable|].
  apply (concurrent_window_invariant srv_idle mixed);
    [vm_compute; lia | apply run_sched_reachable].
Defined.

Lemma concurrent_sum_is_snapshot_witness :
  let g := run_sched [0; 0; 0; 0; 0] race_start in
  reachable (start_requests srv_idle (map ReqMove [body_10_0; body_10_0])) g /\
  nth_error (g_threads g) 0 = Some (PLen false (NInt 10) None) /\
  exists k, k <= length (g_log g) /\
    py_sum (map (coord false) (dq_items (deque_extend (firstn k (g_log g)) (srv_history srv_idle))))
    = inr (NInt 10).
Proof.
  cbv zeta. split; [apply run_sched_reachable|]. split; [reflexivity|].
  apply (concurrent_sum_is_snapshot srv_idle (map ReqMove [body_10_0; body_10_0]) _ 0 false (NInt 10) None);
    [apply run_sched_reachable | reflexivity].
Defined.

Lemma solo_request_refines_witness :
  2 * deque_len (srv_history srv_idle) + 14 <= 14 /\
  g_threads (run_sched (repeat 0 14) (start_requests srv_idle [ReqMove body_10_0]))
    = [PDone (fst (serve (ReqMove body_10_0) srv_idle))] /\
  g_server (run_sched (repeat 0 14) (start_requests srv_idle [ReqMove body_10_0]))
    = snd (serve (ReqMove body_10_0) srv_idle).
Proof.
  split; [vm_compute; lia | apply (solo_request_refines srv_idle (ReqMove body_10_0) 14); vm_compute; lia].
Defined.

Lemma serial_requests_refine_witness :
  deque_wf (srv_history srv_idle) /\ 2 * dq_maxlen (srv_history srv_idle) + 14 <= 24 /\
  (g_threads (run_sched (serial_schedule 24 3) (start_requests srv_idle mixed))
     = map PDone (fst (serve_all mixed srv_idle)) /\
   g_server (run_sched (serial_schedule 24 3) (start_requests srv_idle mixed))
     = snd (serve_all mixed srv_idle)).
Proof.
  split; [vm_compute; lia|]. split; [vm_compute; lia|].
  apply (serial_requests_refine srv_idle mixed 24); vm_compute; lia.
Defined.
(** Two moves of [(10, 0)] on a fresh server: thread 0 sums the window
    [[10]] and divides by [2], the length of [[10; 10]]. *)
Lemma race_average_of_no_window_witness :
  dict_lookup "dx" [("dx", PInt 10); ("dy", PInt 0)] = Some (PInt 10) /\
  deque_wf (srv_history srv_idle) /\
  nth_error (g_threads (run_sched ([0; 0; 0] ++ repeat 0 2 ++ [1; 1; 0])%list race_start))
    0 = Some (PIter true (Some (NFloat (num_val (NInt 10) / inject_Z (Z.of_nat (0 + 2)))))).
Proof.
  split; [reflexivity|]. split; [vm_compute; lia|].
  exact (race_average_of_no_window srv_idle [("dx", PInt 10); ("dy", PInt 0)] [("dx", PInt 10); ("dy", PInt 0)] (PInt 10) (PInt 0) (PInt 10) (PInt 0) (NInt 10)
           eq_refl eq_refl eq_refl eq_refl ltac:(vm_compute; lia) ltac:(vm_compute; lia) eq_refl).
Defined.

(** The same two moves: thread 0 answers the mutation error. *)
Lemma race_mutated_during_iteration_witness :
  dict_lookup "dy" [("dx", PInt 10); ("dy", PInt 0)] = Some (PInt 0) /\
  nth_error (g_threads (run_sched [0; 0; 0; 1; 1; 0; 0]%nat race_start)) 0 = Some (PDone (RError MUTATED)) /\
  g_trace (run_sched [0; 0; 0; 1; 1; 0; 0]%nat race_start) = (srv_trace srv_idle ++ [EvPrintMoveError MUTATED])%list.
Proof.
  split; [reflexivity|].
  destruct (race_mutated_during_iteration srv_idle [("dx", PInt 10); ("dy", PInt 0)] [("dx", PInt 10); ("dy", PInt 0)] (PInt 10) (PInt 0) (PInt 10) (PInt 0)
              eq_refl eq_refl eq_refl eq_refl) as [E1 [E2 _]].
  split; [exact E1 | exact E2].
Defined.

End ConcurrencyWitnesses.
