(* ===== verification/Commute.v ===== *)
(** * Commute: which steps of different threads can be swapped

    Lines 117-121 of [move()] run without a lock, so the order of two
    threads' steps can matter ([Concurrency.race_average_of_no_window]).
    This file says when it does not.  Every atomic step of [thread_step]
    has a footprint on the shared state of the server:
    - [reads_hist]: it looks at [movement_history] (the append, creating a
      deque iterator, [next] on it, [len]);
    - [writes_hist]: it changes [movement_history] (the append only);
    - [uses_host]: it calls [pyautogui] or prints, that is it reads or
      changes the host or adds to the output ([position()], the [print] of
      line 127, [moveTo()], [click()], the [print] of an [except] block).
    The guard and subscripts of lines 113-117 and 138-143 and [index()]
    touch neither.  Two steps are [independent] when neither writes what
    the other reads or writes and they do not both use the host (its state
    and the output are one resource, since the output is ordered).

    [thread_step_frame_hist] and [thread_step_frame_host] are the frame
    properties of one step; [sched_step_commute] is the diamond: two
    independent steps of two different threads give the same state in
    either order, so interleavings that differ only in the order of
    independent steps are equivalent (the basis of reduction arguments
    in the style of Lipton's movers).  [reader_steps_first] is such a
    reduction: when no other thread appends, the steps of a thread that
    neither append nor use the host move before all the others'. *)

From Stdlib Require Import String List Arith Lia ZArith QArith.
From S2P Require Import Prelude PyValue Deque Smoothing Host Server Concurrency.
Import ListNotations.
Local Open Scope nat_scope.

(** ** Footprints *)

Definition reads_hist (ph : phase) : bool :=
  match ph with PAppend _ | PIter _ _ | PSum _ _ _ _ | PLen _ _ _ => true | _ => false end.

Definition writes_hist (ph : phase) : bool :=
  match ph with PAppend _ => true | _ => false end.

Definition uses_host (ph : phase) : bool :=
  match ph with
  | PPosition _ _ | PPrint _ _ | PMoveTo _ _ | PExcept _ | PClick _ | PClickExcept _ => true
  | _ => false
  end.

Definition independent (p q : phase) : bool :=
  negb ((writes_hist p && reads_hist q) || (writes_hist q && reads_hist p)
        || (uses_host p && uses_host q)).

Lemma independent_sym p q : independent p q = independent q p.
Proof. unfold independent. destruct (writes_hist p), (reads_hist q), (writes_hist q), (reads_hist p),
  (uses_host p), (uses_host q); reflexivity. Qed.

Lemma writes_reads_hist ph : writes_hist ph = true -> reads_hist ph = true.
Proof. destruct ph; easy. Qed.

(** ** Frame properties of one step *)

Section Frame.
Context {H : Type} `{HostInput H}.

Definition set_hist (d : history) (ef : effect (H := H)) : effect :=
  mk_effect d (ef_host ef) (ef_out ef) (ef_log ef) (ef_next ef).

Definition set_host (h : H) (ef : effect (H := H)) : effect :=
  mk_effect (ef_hist ef) h (ef_out ef) (ef_log ef) (ef_next ef).

(** A step that does not read the history neither changes it nor depends
    on it. *)
Lemma thread_step_frame_hist d d' (h : H) ph :
  reads_hist ph = false ->
  ef_hist (thread_step d h ph) = d /\ thread_step d' h ph = set_hist d' (thread_step d h ph).
Proof. intros Hr. destruct ph; try discriminate; simpl; destruct_matches; split; reflexivity. Qed.

(** A step that does not use the host neither changes it nor prints, and
    does not depend on it. *)
Lemma thread_step_frame_host d (h h' : H) ph :
  uses_host ph = false ->
  ef_host (thread_step d h ph) = h /\ ef_out (thread_step d h ph) = [] /\
  thread_step d h' ph = set_host h' (thread_step d h ph).
Proof. intros Hu. destruct ph; try discriminate; simpl; destruct_matches; repeat split. Qed.

(** A step that does not write the history leaves it and the log alone. *)
Lemma thread_step_readonly d (h : H) ph :
  writes_hist ph = false -> ef_hist (thread_step d h ph) = d /\ ef_log (thread_step d h ph) = [].
Proof. intros Hw. destruct ph; try discriminate; simpl; destruct_matches; split; reflexivity. Qed.
End Frame.

(** ** Two independent steps commute *)

Section Diamond.
Context {H : Type} `{HostInput H}.

(** Running [p] then [q] on the shared state, against running [q] then
    [p]: the same history and host, the same next phases, and the same
    appended output and log. *)
Definition commutes (d : history) (h : H) (p q : phase) : Prop :=
  let e1 := thread_step d h p in let e12 := thread_step (ef_hist e1) (ef_host e1) q in
  let e2 := thread_step d h q in let e21 := thread_step (ef_hist e2) (ef_host e2) p in
  ef_hist e12 = ef_hist e21 /\ ef_host e12 = ef_host e21 /\
  ef_next e12 = ef_next e2 /\ ef_next e21 = ef_next e1 /\
  ef_out e1 ++ ef_out e12 = ef_out e2 ++ ef_out e21 /\
  ef_log e1 ++ ef_log e12 = ef_log e2 ++ ef_log e21.

Lemma commutes_sym d (h : H) p q : commutes d h p q -> commutes d h q p.
Proof. unfold commutes. intros (?&?&?&?&?&?). repeat split; auto. Qed.

(** The case where [p] does not use the host. *)
Lemma commutes_host_free d (h : H) p q :
  uses_host p = false -> independent p q = true -> commutes d h p q.
Proof.
  intros Hu Hi. unfold commutes, independent in *. cbv zeta.
  destruct (thread_step_frame_host d h h p Hu) as [Eh [Eo _]]. rewrite Eh.
  destruct (reads_hist p) eqn:Rp.
  - (* [p] reads the history: [q] does not write it *)
    assert (Wq : writes_hist q = false)
      by (destruct (writes_hist q); [simpl in Hi; rewrite orb_true_r in Hi; discriminate | reflexivity]).
    destruct (thread_step_readonly d h q Wq) as [Dq Lq]. rewrite Dq.
    rewrite (proj2 (proj2 (thread_step_frame_host d h (ef_host (thread_step d h q)) p Hu))).
    destruct (writes_hist p) eqn:Wp.
    + (* [p] appends: [q] does not read the history *)
      assert (Rq : reads_hist q = false) by (destruct (reads_hist q); [discriminate | reflexivity]).
      rewrite (proj2 (thread_step_frame_hist d (ef_hist (thread_step d h p)) h q Rq)).
      simpl. rewrite Eo, Lq, !app_nil_r. repeat split.
    + destruct (thread_step_readonly d h p Wp) as [Dp Lp]. rewrite Dp.
      simpl. rewrite Eo, Lp, Lq, Dq, Dp, !app_nil_r. repeat split.
  - (* [p] is local to its thread *)
    destruct (thread_step_frame_hist d (ef_hist (thread_step d h q)) h p Rp) as [Dp Ep].
    assert (Lp : ef_log (thread_step d h p) = [])
      by (apply thread_step_readonly; destruct (writes_hist p) eqn:W;
          [rewrite (writes_reads_hist _ W) in Rp; discriminate | reflexivity]).
    rewrite (proj2 (proj2 (thread_step_frame_host (ef_hist (thread_step d h q)) h
                             (ef_host (thread_step d h q)) p Hu))).
    rewrite Ep, Dp. simpl. rewrite Eo, Lp, !app_nil_r. repeat split.
Qed.

Lemma thread_step_commute d (h : H) p q : independent p q = true -> commutes d h p q.
Proof.
  intros Hi. destruct (uses_host p) eqn:Up.
  - apply commutes_sym, commutes_host_free; [|now rewrite independent_sym].
    unfold independent in Hi. rewrite Up in Hi. destruct (uses_host q); [|reflexivity].
    simpl in Hi. rewrite orb_true_r in Hi. discriminate.
  - now apply commutes_host_free.
Qed.
End Diamond.

(** ** The diamond on interleavings *)

Lemma set_nth_comm {A} i j (x y : A) l :
  i <> j -> set_nth i x (set_nth j y l) = set_nth j y (set_nth i x l).
Proof.
  revert i j. induction l as [|z l IH]; intros [|i] [|j] Hij; simpl; try reflexivity;
    [congruence | f_equal; apply IH; congruence].
Qed.

Section Interleavings.
Context {H : Type} `{HostInput H}.

Lemma sched_step_done i (g : gstate H) ph :
  nth_error (g_threads g) i = Some ph -> is_done ph = true -> sched_step i g = g.
Proof. intros Ei Hd. unfold sched_step. now rewrite Ei, Hd. Qed.

Lemma sched_step_threads_ne i j (g : gstate H) :
  i <> j -> nth_error (g_threads (sched_step j g)) i = nth_error (g_threads g) i.
Proof.
  intros Hij. unfold sched_step. destruct (nth_error (g_threads g) j) as [ph|]; [|reflexivity].
  destruct (is_done ph); [reflexivity|]. simpl. apply nth_error_set_nth_ne. congruence.
Qed.

(** C31: two steps of two different threads whose footprints are
    independent (neither writes [movement_history] while the other reads
    it, and they do not both call the host or print) give the same
    server state, output, ghost log and threads in either order. *)
Theorem sched_step_commute (g : gstate H) i j p q :
  i <> j -> nth_error (g_threads g) i = Some p -> nth_error (g_threads g) j = Some q ->
  independent p q = true ->
  sched_step i (sched_step j g) = sched_step j (sched_step i g).
Proof.
  intros Hij Ei Ej Hind.
  destruct (is_done p) eqn:Dp.
  { rewrite (sched_step_done i g p Ei Dp).
    apply (sched_step_done i _ p); [rewrite sched_step_threads_ne; auto | exact Dp]. }
  destruct (is_done q) eqn:Dq.
  { rewrite (sched_step_done j g q Ej Dq).
    symmetry. apply (sched_step_done j _ q); [rewrite sched_step_threads_ne; auto | exact Dq]. }
  destruct g as [d h tr ts log]; simpl in Ei, Ej.
  rewrite (sched_step_at j d h tr log ts q Ej Dq), (sched_step_at i d h tr log ts p Ei Dp).
  rewrite (sched_step_at i _ _ _ _ _ p), (sched_step_at j _ _ _ _ _ q);
    try (rewrite nth_error_set_nth_ne; [assumption | congruence]); try assumption.
  destruct (thread_step_commute d h p q Hind) as (E1 & E2 & E3 & E4 & E5 & E6).
  rewrite E1, E2, E3, E4, <- !app_assoc, E5, E6, set_nth_comm by exact Hij. reflexivity.
Qed.

Lemma sched_step_none i (g : gstate H) : nth_error (g_threads g) i = None -> sched_step i g = g.
Proof. intros Ei. unfold sched_step. now rewrite Ei. Qed.

Lemma local_independent p q : reads_hist p = false -> uses_host p = false -> independent p q = true.
Proof.
  intros Rp Up. unfold independent. rewrite Rp, Up.
  destruct (writes_hist p) eqn:Wp; [rewrite (writes_reads_hist _ Wp) in Rp; discriminate|].
  now rewrite !andb_false_r.
Qed.

Lemma sched_step_local_comm (g : gstate H) i j p :
  i <> j -> nth_error (g_threads g) i = Some p -> reads_hist p = false -> uses_host p = false ->
  sched_step i (sched_step j g) = sched_step j (sched_step i g).
Proof.
  intros Hij Ei Rp Up. destruct (nth_error (g_threads g) j) as [q|] eqn:Ej.
  - apply (sched_step_commute g i j p q); auto using local_independent.
  - rewrite (sched_step_none j g Ej), (sched_step_none j (sched_step i g)); [reflexivity|].
    rewrite sched_step_threads_ne by congruence. exact Ej.
Qed.

(** C32: a step that touches neither [movement_history] nor the host (the
    guard and subscripts of [move()] and [click()], [index()]) can be
    taken before or after any run of the other threads' steps with the
    same result: validating a request does not race with anything. *)
Theorem local_step_moves (g : gstate H) i p sched :
  nth_error (g_threads g) i = Some p -> reads_hist p = false -> uses_host p = false ->
  ~ In i sched ->
  sched_step i (run_sched sched g) = run_sched sched (sched_step i g).
Proof.
  revert g. induction sched as [|j sched IH]; intros g Ei Rp Up Hin; [reflexivity|].
  simpl. rewrite IH.
  - f_equal. apply (sched_step_local_comm g i j p); auto. intros ->. apply Hin. now left.
  - rewrite sched_step_threads_ne; [exact Ei|]. intros ->. apply Hin. now left.
  - exact Rp.
  - exact Up.
  - intros Hi. apply Hin. now right.
Qed.
End Interleavings.

(** ** Reduction: a thread's reads move before other threads' steps *)

Section Reduction.
Context {H : Type} `{HostInput H}.

(** Thread [i]'s next step neither appends nor uses the host: the deque
    iterator, a [next] inside [sum], [len], the guards, [index()]. *)
Definition pure_at (g : gstate H) (i : nat) : bool :=
  match nth_error (g_threads g) i with
  | Some p => negb (writes_hist p) && negb (uses_host p)
  | None => true
  end.

(** Thread [j]'s next step is [movement_history.append(...)]. *)
Definition appends_at (g : gstate H) (j : nat) : bool :=
  match nth_error (g_threads g) j with Some q => writes_hist q | None => false end.

(** Every step of the run [l] is pure when it is taken. *)
Fixpoint pure_run (l : list nat) (g : gstate H) : bool :=
  match l with [] => true | k :: l' => pure_at g k && pure_run l' (sched_step k g) end.

(** Along the run of [sched], every step of thread [i] is pure and no other
    thread appends. *)
Fixpoint reduce_ok (i : nat) (sched : list nat) (g : gstate H) : bool :=
  match sched with
  | [] => true
  | j :: s => (if Nat.eqb j i then pure_at g i else negb (appends_at g j)) && reduce_ok i s (sched_step j g)
  end.

Lemma pure_at_step_ne (g : gstate H) i j : i <> j -> pure_at (sched_step j g) i = pure_at g i.
Proof. intros Hij. unfold pure_at. now rewrite sched_step_threads_ne. Qed.

Lemma appends_at_step_ne (g : gstate H) i j : i <> j -> appends_at (sched_step i g) j = appends_at g j.
Proof. intros Hij. unfold appends_at. rewrite sched_step_threads_ne by congruence. reflexivity. Qed.

Lemma sched_step_pure_comm (g : gstate H) i j :
  i <> j -> pure_at g i = true -> appends_at g j = false ->
  sched_step i (sched_step j g) = sched_step j (sched_step i g).
Proof.
  unfold pure_at, appends_at. intros Hij Hp Ha.
  destruct (nth_error (g_threads g) i) as [p|] eqn:Ei.
  - destruct (nth_error (g_threads g) j) as [q|] eqn:Ej.
    + apply (sched_step_commute g i j p q); auto. unfold independent.
      destruct (writes_hist p), (uses_host p); try discriminate. now rewrite Ha.
    + rewrite (sched_step_none j g Ej), (sched_step_none j (sched_step i g)); [reflexivity|].
      rewrite sched_step_threads_ne by congruence. exact Ej.
  - rewrite (sched_step_none i g Ei), (sched_step_none i (sched_step j g)); [reflexivity|].
    rewrite sched_step_threads_ne by exact Hij. exact Ei.
Qed.

(** A run of pure steps of thread [i] commutes with one step of another
    thread that does not append. *)
Lemma pure_block_comm i j (l : list nat) : forall g : gstate H,
  Forall (fun k => k = i) l -> i <> j -> appends_at g j = false -> pure_run l (sched_step j g) = true ->
  pure_run l g = true /\ run_sched l (sched_step j g) = sched_step j (run_sched l g).
Proof.
  induction l as [|k l IH]; intros g Hl Hij Ha Hp; [split; reflexivity|].
  inversion Hl as [|? ? Hk Hl']; subst k. cbn [pure_run run_sched fold_left] in *.
  apply andb_prop in Hp as [Hp1 Hp2]. rewrite pure_at_step_ne in Hp1 by exact Hij.
  rewrite (sched_step_pure_comm g i j Hij Hp1 Ha) in Hp2 |- *.
  destruct (IH (sched_step i g) Hl' Hij ltac:(rewrite appends_at_step_ne; auto) Hp2) as [IH1 IH2].
  rewrite Hp1, IH1. split; [reflexivity | exact IH2].
Qed.

Lemma reduce_ok_pure i sched : forall g : gstate H,
  reduce_ok i sched g = true -> pure_run (filter (fun j => Nat.eqb j i) sched) g = true.
Proof.
  induction sched as [|j s IH]; intros g Hok; [reflexivity|].
  cbn [reduce_ok filter] in *. apply andb_prop in Hok as [Hj Hs].
  destruct (Nat.eqb_spec j i) as [->|Hne].
  - cbn [pure_run]. now rewrite Hj, IH.
  - apply (pure_block_comm i j); [apply Forall_forall; intros k Hk; apply filter_In in Hk;
                                    now apply Nat.eqb_eq | congruence | now apply negb_true_iff | auto].
Qed.

Lemma run_sched_filter_eq i (l : list nat) : Forall (fun k => k = i) (filter (fun j => Nat.eqb j i) l).
Proof. apply Forall_forall. intros k Hk. apply filter_In in Hk. now apply Nat.eqb_eq. Qed.

(** C24: Reduction.  If, along an interleaving, every step of thread [i]
    neither appends nor calls the host (as in [move()]'s iteration, [next]
    and [len] steps after its own append) and no other thread appends
    while it runs, then the interleaving gives the same state as running
    all of thread [i]'s steps first and the other threads' steps after, in
    their order: thread [i]'s averaging behaves as if it held a lock. *)
Theorem reader_steps_first (g : gstate H) i sched :
  reduce_ok i sched g = true ->
  run_sched sched g =
  run_sched (filter (fun j => Nat.eqb j i) sched ++ filter (fun j => negb (Nat.eqb j i)) sched) g.
Proof.
  revert g. induction sched as [|j s IH]; intros g Hok; [reflexivity|].
  cbn [reduce_ok] in Hok. apply andb_prop in Hok as [Hj Hs].
  cbn [run_sched fold_left filter]. fold (run_sched s (sched_step j g)). rewrite (IH _ Hs).
  destruct (Nat.eqb_spec j i) as [->|Hne]; [reflexivity|]. cbn [negb app].
  destruct (pure_block_comm i j _ g (run_sched_filter_eq i s) ltac:(congruence)
              ltac:(now apply negb_true_iff) (reduce_ok_pure i s _ Hs)) as [_ E].
  rewrite !run_sched_app, E. reflexivity.
Qed.
End Reduction.

(** ** Witnesses *)

(** In [Concurrency.mixed], thread 0 is inside its [sum] and thread 1 is
    about to call [pyautogui.click]: the two steps commute. *)
Definition sum_and_click : gstate ideal_host := run_sched [0; 0; 0; 1] (start_requests srv_idle mixed).

Lemma sched_step_commute_witness :
  exists p q, nth_error (g_threads sum_and_click) 0 = Some p /\
    nth_error (g_threads sum_and_click) 1 = Some q /\ independent p q = true /\
    sched_step 0 (sched_step 1 sum_and_click) = sched_step 1 (sched_step 0 sum_and_click).
Proof.
  do 2 eexists. split; [reflexivity|]. split; [reflexivity|]. split; [reflexivity|].
  eapply (sched_step_commute sum_and_click 0 1); [lia | reflexivity | reflexivity | reflexivity].
Defined.

(** The click's guard (thread 1) taken before or after thread 0's whole
    [move()] and thread 2's guard and append. *)
Lemma local_step_moves_witness :
  nth_error (g_threads (start_requests srv_idle mixed)) 1
    = Some (PClickStart (PDict [("button"%string, PStr "left")])) /\
  sched_step 1 (run_sched (repeat 0 14 ++ [2; 2]) (start_requests srv_idle mixed))
  = run_sched (repeat 0 14 ++ [2; 2]) (sched_step 1 (start_requests srv_idle mixed)).
Proof.
  split; [reflexivity|].
  apply (local_step_moves _ 1 (PClickStart (PDict [("button"%string, PStr "left")]))); try reflexivity.
  simpl. intuition discriminate.
Defined.

(** Thread 0 of [Concurrency.mixed] has appended its sample; its eight
    averaging steps interleave with thread 1's guard and click and thread
    2's guard, and the run equals the one where they come first. *)
Definition averaging_midway : gstate ideal_host := run_sched [0; 0] (start_requests srv_idle mixed).

Lemma reader_steps_first_witness :
  reduce_ok 0 [0; 1; 0; 1; 0; 2; 0; 0; 0; 0; 0] averaging_midway = true /\
  run_sched [0; 1; 0; 1; 0; 2; 0; 0; 0; 0; 0] averaging_midway =
  run_sched ([0; 0; 0; 0; 0; 0; 0; 0] ++ [1; 1; 2]) averaging_midway.
Proof.
  split; [vm_compute; reflexivity|].
  apply (reader_steps_first averaging_midway 0 [0; 1; 0; 1; 0; 2; 0; 0; 0; 0; 0]).
  vm_compute. reflexivity.
Defined.
