(* ===== verification/EndToEnd.v ===== *)
(** * EndToEnd: the page's requests served by Flask's threads

    The page does not await its [fetch]es (lines 69-77 and 90-98), so the
    requests of one drag can be in flight at the same time, and [app.run]
    serves each on a thread of its own ([Concurrency]).  This file puts the
    page ([Client]) and the threaded server together.

    - [page_requests_succeed_or_race]: under every interleaving, on a host
      that never raises and from a window of numbers, every request the
      page posts is answered with success or with the error
      ["deque mutated during iteration"] of the unlocked window: no
      [TypeError], no [ZeroDivisionError], no HTTP 500.  The proof is an
      invariant of the reachable states ([page_inv]): a predicate on each
      thread's phase, preserved by every step of every thread.
    - [straight_drag_serial] and [varying_drag_serial]: when the threads
      run one after the other (the schedule [serial_schedule], which
      [Concurrency.serial_requests_refine] relates to [serve_all]), every
      request of a drag succeeds and the cursor ends where the sequential
      theorems of [Client] say.  The races of [Concurrency] show that
      without this hypothesis neither holds. *)

From Stdlib Require Import String List Arith Lia ZArith QArith.
From S2P Require Import Prelude PyValue Deque Smoothing Host Server Client Concurrency.
Import ListNotations.
Local Open Scope nat_scope.

(** ** The invariant of the page's requests in flight *)

Definition numeric_sample (m : sample) : bool :=
  match sample_val m with Some _ => true | None => false end.

(** What a thread serving a request of the page may be doing. *)
Definition page_phase_ok (d : history) (ph : phase) : Prop :=
  match ph with
  | PStart data => exists dx dy, data = PDict [("dx"%string, json_number dx); ("dy"%string, json_number dy)]
  | PAppend smp => numeric_sample smp = true
  | PIter _ _ | PSum _ _ _ _ | PLen _ _ _ => dq_items d <> []
  | PPosition _ _ | PPrint _ _ | PMoveTo _ _ | PClick _ => True
  | PExcept e => e = RuntimeError MUTATED
  | PDone r => r = RSuccess \/ r = RError MUTATED
  | PClickStart data => exists n, data = PDict [("button"%string, PStr n)]
  | PIndex | PClickExcept _ => False
  end.

(** The shared window is a well-formed deque of numbers. *)
Definition window_ok (d : history) : Prop :=
  deque_wf d /\ 0 < dq_maxlen d /\ forallb numeric_sample (dq_items d) = true.

Section PageOverlap.
Context {H : Type} `{HostInput H}.
Hypothesis Htot : host_total H.

Definition page_inv (g : gstate H) : Prop :=
  window_ok (g_hist g) /\ Forall (page_phase_ok (g_hist g)) (g_threads g).

Lemma iter_next_error (d : history) it e : iter_next d it = inl e -> e = RuntimeError MUTATED.
Proof.
  unfold iter_next. destruct (negb _); [now inversion 1|].
  destruct (it_counter it); [discriminate|]. destruct (nth_error _ _) as [[]|]; discriminate.
Qed.

Lemma py_add_numeric acc (m : sample) y :
  numeric_sample m = true -> exists acc', py_add acc (coord y m) = inr acc'.
Proof.
  unfold numeric_sample, sample_val, py_num_val, py_add. intros Hm.
  destruct y; simpl;
    [destruct (as_num (snd m)) | destruct (as_num (fst m))];
    destruct (as_num (fst m)), (as_num (snd m)); simpl in Hm; try discriminate; eauto.
Qed.

(** An append keeps the window well formed, numeric and non-empty. *)
Lemma window_ok_append smp (d : history) :
  window_ok d -> numeric_sample smp = true ->
  window_ok (deque_append smp d) /\ dq_items (deque_append smp d) <> [].
Proof.
  intros [Hwf [Hpos Hnum]] Hs. split; [split; [|split]|].
  - auto with mc.
  - exact Hpos.
  - rewrite deque_append_items by exact Hwf. apply forallb_forall. intros m Hm.
    destruct (lastn_suffix (dq_maxlen d) (dq_items d ++ [smp])) as [pre Epre].
    assert (Hin : In m (dq_items d ++ [smp])) by (rewrite Epre; apply in_or_app; now right).
    apply in_app_or in Hin as [Hm'|[<-|[]]]; [|exact Hs].
    exact (proj1 (forallb_forall _ _) Hnum m Hm').
  - rewrite deque_append_items by exact Hwf. intros E.
    apply (f_equal (@length _)) in E. rewrite length_lastn, length_app in E. simpl in E. lia.
Qed.
Lemma iter_next_in (d : history) it m it' :
  iter_next d it = inr (Some (m, it')) -> In m (dq_items d).
Proof.
  unfold iter_next. destruct (negb _); [discriminate|].
  destruct (it_counter it); [discriminate|].
  destruct (nth_error _ _) as [m'|] eqn:E; [|discriminate].
  injection 1 as -> _. exact (nth_error_In _ _ E).
Qed.

Lemma page_phase_ok_mono (d d' : history) ph :
  (dq_items d <> [] -> dq_items d' <> []) -> page_phase_ok d ph -> page_phase_ok d' ph.
Proof. intros Hm. destruct ph; simpl; auto. Qed.

Lemma json_move_numeric dx dy : numeric_sample (json_number dx, json_number dy) = true.
Proof.
  destruct (json_number_val dx) as [v [Ev _]], (json_number_val dy) as [w [Ew _]].
  unfold numeric_sample, sample_val. cbn [fst snd]. now rewrite Ev, Ew.
Qed.

(** One step of a thread serving a page request keeps the window a
    well-formed, non-empty-once-filled deque of numbers and leads to a
    phase of the invariant. *)
Lemma page_step_ok (d : history) (h : H) ph :
  window_ok d -> page_phase_ok d ph -> is_done ph = false ->
  window_ok (ef_hist (thread_step d h ph)) /\
  (dq_items d <> [] -> dq_items (ef_hist (thread_step d h ph)) <> []) /\
  page_phase_ok (ef_hist (thread_step d h ph)) (ef_next (thread_step d h ph)).
Proof.
  intros Hw Hok Hnd. destruct Htot as [Hpos [Hmov Hclk]].
  destruct ph as [data|smp|y prev|y it acc prev|y sm prev|ax ay|tx ty|tx ty|e|r| |data|b|e];
    simpl in Hok; try discriminate; try contradiction.
  - destruct Hok as [dx [dy ->]]. simpl. split; [exact Hw|]. split; [auto|]. apply json_move_numeric.
  - simpl. destruct (window_ok_append smp d Hw Hok) as [Hw' Hne]. auto.
  - simpl. auto.
  - simpl. destruct (iter_next d it) as [e|[[m it']|]] eqn:E.
    + simpl. split; [exact Hw|]. split; [auto|]. exact (iter_next_error d it e E).
    + pose proof (proj2 (proj2 Hw)) as Hnum.
      destruct (py_add_numeric acc m y (proj1 (forallb_forall _ _) Hnum m (iter_next_in d it m it' E)))
        as [acc' Ea].
      rewrite Ea. simpl. auto.
    + simpl. auto.
  - simpl. unfold deque_len. rewrite py_truediv_pos.
    + destruct prev; simpl; auto.
    + destruct (dq_items d); [contradiction|]. simpl. lia.
  - simpl. destruct (Hpos h) as [[x y] E]. rewrite E. simpl. auto.
  - simpl. auto.
  - simpl. destruct (Hmov tx ty MOVE_DURATION h) as [h' E]. rewrite E. simpl. auto.
  - subst e. simpl. auto.
  - destruct Hok as [n ->]. simpl.
    destruct (String.eqb n "left"); [simpl; auto|].
    destruct (String.eqb n "right"); simpl; auto.
  - simpl. destruct (Hclk b h) as [h' E]. rewrite E. simpl. auto.
Qed.

Lemma Forall_set_nth {A} (P : A -> Prop) i x l : Forall P l -> P x -> Forall P (set_nth i x l).
Proof.
  revert i. induction l as [|y l IH]; intros [|i] Hl Hx; simpl; inversion Hl; subst; auto.
Qed.

Lemma sched_step_page_inv i (g : gstate H) : page_inv g -> page_inv (sched_step i g).
Proof.
  intros [Hw Hts]. unfold sched_step.
  destruct (nth_error (g_threads g) i) as [ph|] eqn:Ei; [|split; auto].
  destruct (is_done ph) eqn:Hd; [split; auto|].
  assert (Hph : page_phase_ok (g_hist g) ph)
    by (exact (proj1 (Forall_forall _ _) Hts ph (nth_error_In _ _ Ei))).
  destruct (page_step_ok (g_hist g) (g_host g) ph Hw Hph Hd) as [Hw' [Hmono Hnext]].
  split; [exact Hw'|]. cbn [g_hist g_threads].
  apply Forall_set_nth; [|exact Hnext].
  eapply Forall_impl; [|exact Hts]. intros q. now apply page_phase_ok_mono.
Qed.

Lemma reachable_page_inv (g0 g : gstate H) : reachable g0 g -> page_inv g0 -> page_inv g.
Proof.
  induction 1 as [|g g' _ IH Hs]; intros Hg0; [exact Hg0|].
  inversion Hs; subst. apply sched_step_page_inv, IH, Hg0.
Qed.

(** C21: Every request the page posts, whatever the user does and however
    Flask's threads interleave, is answered with success or with the
    error "deque mutated during iteration" of the unlocked window, on a
    host that never raises and from a window of numbers: the overlapping
    requests of a drag can only fail by that race. *)
Theorem page_requests_succeed_or_race (s : server H) c evs (g : gstate H) :
  window_ok (srv_history s) -> reachable (start_requests s (snd (run_client c evs))) g ->
  Forall (fun ph => match ph with PDone r => r = RSuccess \/ r = RError MUTATED | _ => True end)
         (g_threads g).
Proof.
  intros Hw Hr.
  assert (Hg0 : page_inv (start_requests s (snd (run_client c evs)))).
  { split; [exact Hw|]. cbn [g_threads g_hist start_requests].
    apply Forall_map. eapply Forall_impl; [|apply client_requests_shape].
    intros r [[dx [dy ->]]|[n ->]]; simpl; eauto. }
  destruct (reachable_page_inv _ _ Hr Hg0) as [_ Hts].
  eapply Forall_impl; [|exact Hts]. intros ph Hph. destruct ph; simpl in *; auto.
Qed.
End PageOverlap.

(** ** Drags served one request at a time *)

Section SerialDrags.

(** The threads of [rs] run one after the other, each for [N] steps. *)
Definition serial_run (X Y : Z) (N : nat) (rs : list request) : gstate ideal_host :=
  run_sched (serial_schedule N (length rs)) (start_requests (server_init (mk_ideal (X, Y) [])) rs).

Lemma serial_run_serve_all (X Y : Z) N rs :
  2 * HISTORY_MAXLEN + 14 <= N ->
  g_threads (serial_run X Y N rs) = map PDone (fst (serve_all rs (server_init (mk_ideal (X, Y) [])))) /\
  g_host (serial_run X Y N rs) = srv_host (snd (serve_all rs (server_init (mk_ideal (X, Y) [])))).
Proof.
  intros HN. destruct (serial_requests_refine (server_init (mk_ideal (X, Y) [])) rs N) as [E1 E2];
    [apply deque_new_wf | exact HN |].
  split; [exact E1|]. unfold serial_run. rewrite <- E2. reflexivity.
Qed.

(** C23: A straight drag whose [touchmove]s step the finger by [(a, b)],
    with [2 * a] and [2 * b] whole numbers [k] and [k'], when Flask serves
    the page's [n] requests one at a time (each thread runs to its answer
    before the next starts): every thread answers success and an ideal
    host's cursor, started at [(X, Y)], ends at [(X + n * k, Y + n * k')]. *)
Theorem straight_drag_serial (X Y : Z) (x0 y0 a b : Q) (k k' : Z) (n N : nat) :
  (2 * a == inject_Z k)%Q -> (2 * b == inject_Z k')%Q -> 2 * HISTORY_MAXLEN + 14 <= N ->
  let g := serial_run X Y N (snd (run_client client_init (drag x0 y0 (line_points x0 y0 a b 1 n)))) in
  g_threads g = repeat (PDone RSuccess) n /\ ih_pos (g_host g) = (X + Z.of_nat n * k, Y + Z.of_nat n * k')%Z.
Proof.
  intros Hk Hk' HN g. subst g.
  destruct (serial_run_serve_all X Y N (snd (run_client client_init (drag x0 y0 (line_points x0 y0 a b 1 n)))) HN)
    as [E1 E2].
  destruct (straight_drag_moves_cursor X Y x0 y0 a b k k' n Hk Hk') as [S1 S2].
  rewrite E1, S1, map_repeat, E2. split; [reflexivity | exact S2].
Qed.

(** C33: A drag at any speed whose page deltas [(clientX - lastX) * 2] are
    the ints [zs], when Flask serves its requests one at a time: every
    thread answers success and an ideal host's cursor ends at
    [(X, Y) + Client.travel [] zs], the sum, move by move, of the floored
    mean of the last five deltas. *)
Theorem varying_drag_serial (X Y : Z) (x0 y0 : Q) (ps : list (Q * Q)) (zs : list (Z * Z)) (N : nat) :
  half_pixel_steps x0 y0 ps zs -> 2 * HISTORY_MAXLEN + 14 <= N ->
  let g := serial_run X Y N (snd (run_client client_init (drag x0 y0 ps))) in
  g_threads g = repeat (PDone RSuccess) (length ps) /\
  ih_pos (g_host g) = (X + fst (travel [] zs), Y + snd (travel [] zs))%Z.
Proof.
  intros Hs HN g. subst g.
  destruct (serial_run_serve_all X Y N (snd (run_client client_init (drag x0 y0 ps))) HN) as [E1 E2].
  destruct (varying_drag_travel X Y x0 y0 ps zs Hs) as [S1 S2].
  rewrite E1, S1, map_repeat, E2. split; [reflexivity | exact S2].
Qed.
End SerialDrags.

(** ** Witnesses *)

(** The page's two-move drag of [Client.drag_overshoot], its requests in
    flight on a fresh server, in the interleaving where the second append
    falls inside the first [sum]. *)
Definition drag_race : gstate ideal_host :=
  run_sched [0; 0; 0; 1; 1; 0; 0]
    (start_requests srv_idle (snd (run_client client_init (drag 0 0 [(5, 0); (5, 0)]%Q)))).

Lemma page_requests_succeed_or_race_witness :
  window_ok (srv_history srv_idle) /\
  reachable (start_requests srv_idle (snd (run_client client_init (drag 0 0 [(5, 0); (5, 0)]%Q)))) drag_race /\
  nth_error (g_threads drag_race) 0 = Some (PDone (RError MUTATED)) /\
  Forall (fun ph => match ph with PDone r => r = RSuccess \/ r = RError MUTATED | _ => True end)
         (g_threads drag_race).
Proof.
  assert (Hw : window_ok (srv_history srv_idle)) by (split; [vm_compute; lia | split; [vm_compute; lia | reflexivity]]).
  assert (Hr : reachable (start_requests srv_idle (snd (run_client client_init (drag 0 0 [(5, 0); (5, 0)]%Q))))
                 drag_race) by apply run_sched_reachable.
  split; [exact Hw|]. split; [exact Hr|]. split; [vm_compute; reflexivity|].
  exact (page_requests_succeed_or_race ideal_host_total srv_idle client_init _ _ Hw Hr).
Defined.

Lemma straight_drag_serial_witness :
  (2 * (3 # 2) == inject_Z 3)%Q /\ (2 * (-1) == inject_Z (-2))%Q /\ 2 * HISTORY_MAXLEN + 14 <= 24 /\
  g_threads (serial_run 100 100 24 (snd (run_client client_init (drag 10 20 (line_points 10 20 (3 # 2) (-1) 1 7)))))
    = repeat (PDone RSuccess) 7 /\
  ih_pos (g_host (serial_run 100 100 24 (snd (run_client client_init
                                               (drag 10 20 (line_points 10 20 (3 # 2) (-1) 1 7))))))
    = (100 + Z.of_nat 7 * 3, 100 + Z.of_nat 7 * (-2))%Z.
Proof.
  split; [reflexivity|]. split; [reflexivity|]. split; [vm_compute; lia|].
  apply (straight_drag_serial 100 100 10 20 (3 # 2) (-1) 3 (-2) 7 24); [reflexivity | reflexivity | vm_compute; lia].
Defined.

Lemma varying_drag_serial_witness :
  half_pixel_steps 0 0 [(1, 0); (3, 1); (6, 1); (5, 2)]%Q [(2, 0); (4, 2); (6, 0); (-2, 2)]%Z /\
  2 * HISTORY_MAXLEN + 14 <= 24 /\
  g_threads (serial_run 100 100 24 (snd (run_client client_init (drag 0 0 [(1, 0); (3, 1); (6, 1); (5, 2)]%Q))))
    = repeat (PDone RSuccess) 4 /\
  ih_pos (g_host (serial_run 100 100 24 (snd (run_client client_init (drag 0 0 [(1, 0); (3, 1); (6, 1); (5, 2)]%Q)))))
    = (100 + fst (travel [] [(2, 0); (4, 2); (6, 0); (-2, 2)]%Z),
       100 + snd (travel [] [(2, 0); (4, 2); (6, 0); (-2, 2)]%Z))%Z.
Proof.
  assert (Hs : half_pixel_steps 0 0 [(1, 0); (3, 1); (6, 1); (5, 2)]%Q [(2, 0); (4, 2); (6, 0); (-2, 2)]%Z)
    by (vm_compute; repeat split; reflexivity).
  split; [exact Hs|]. split; [vm_compute; lia|].
  exact (varying_drag_serial 100 100 0 0 _ _ 24 Hs ltac:(vm_compute; lia)).
Defined.
