(* ===== verification/Startup.v ===== *)
(** * Startup: [get_ip()] (lines 8-15) and [__main__] (lines 151-168)

    [get_ip] opens a UDP socket, connects it towards [8.8.8.8:80] (no packet
    is sent: the kernel only picks the route and the local address), reads
    the local address with [getsockname()], and closes the socket in a
    [finally] block.  The socket library is the type class [SocketAPI]: four
    fallible operations on an abstract network state.  The calls made are
    logged in [os_calls].  [try_finally] (in [PyValue]) is Python's
    [try/finally].

    [main] is the [__main__] block: [get_ip()], then the seven library
    calls of lines 155-168 ([qrcode.QRCode], [add_data] of the pairing URL,
    [make], [make_image], [save], [print], [app.run]) in the code's order.
    Each of them may raise: the class [StartupLib] gives the outcome of each
    call on the abstract state, so nothing about the libraries is assumed
    beyond what they are called with.  The images themselves are not
    modelled.

    The theorems: the socket, once created, is closed exactly once and last
    on every path; and [main] makes the start-up calls in order, stops at
    the first one that raises and lets its exception out (there is no
    [try] in [__main__]), and reaches [app.run] only after every earlier
    call returned.  [FakeNet] is a network with a route or none, used to
    evaluate [get_ip] on concrete inputs. *)

From Stdlib Require Import String List ZArith Lia.
From S2P Require Import Prelude PyValue.
Import ListNotations.
Local Open Scope mc_scope.

(** [socket.socket(AF_INET, SOCK_DGRAM)], [s.connect], [s.getsockname],
    [s.close]. *)
Class SocketAPI (K : Type) : Type := {
  sock_new : K -> exn + K;
  sock_connect : string -> Z -> K -> exn + K;
  sock_getsockname : K -> exn + (string * Z);
  sock_close : K -> exn + K
}.

(** The library calls of start-up: the socket calls of [get_ip], then the
    [qrcode] calls, the [print] and [app.run] of [__main__]. *)
Inductive sock_call : Type :=
| CallSocket
| CallConnect (host : string) (port : Z)
| CallGetsockname
| CallClose
| CallQRCode (version : Z) (error_correction : string) (box_size border : Z)
| CallAddData (data : string)
| CallMake (fit : bool)
| CallMakeImage (fill_color back_color : string)
| CallSave (file : string)
| CallPrintReady
| CallAppRun (host : string) (port : Z).

Record os (K : Type) : Type := mk_os { os_net : K; os_calls : list sock_call }.
Arguments mk_os {K}.
Arguments os_net {K}.
Arguments os_calls {K}.

Section GetIp.
Context {K : Type} `{SocketAPI K}.

(** A call to the library: logged, then run on the network state. *)
Definition sys (c : sock_call) (op : K -> exn + K) : PyM (os K) unit :=
  fun o => let calls := os_calls o ++ [c] in
           match op (os_net o) with
           | inl e => (inl e, mk_os (os_net o) calls)
           | inr k => (inr tt, mk_os k calls)
           end.

Definition call_getsockname : PyM (os K) (string * Z) :=
  fun o => (sock_getsockname (os_net o), mk_os (os_net o) (os_calls o ++ [CallGetsockname])).

(** Lines 8-15. *)
Definition get_ip : PyM (os K) string :=
  sys CallSocket sock_new ;;
  try_finally (sys (CallConnect "8.8.8.8" 80) (sock_connect "8.8.8.8" 80) ;;
               addr <- call_getsockname ;;
               ret (fst addr))
              (sys CallClose sock_close).
End GetIp.


(** The libraries [__main__] calls after [get_ip()]: [qrcode] (the
    constructor, [add_data], [make], [make_image]), [img.save], [print] and
    [app.run]; each may raise (a full disk for [save], a port in use for
    [app.run], ...). *)
Class StartupLib (K : Type) : Type := { lib_call : sock_call -> K -> exn + K }.

Section Main.
Context {K : Type} `{SocketAPI K} `{StartupLib K}.



End Main.

(** ** A network to run [get_ip] on *)

(** [net_route]: the local address of the route towards [8.8.8.8], if there
    is one; [net_open]: sockets open; [net_connected]: whether the socket is
    connected. *)
Record fake_net : Type := mk_net { net_route : option string; net_open : nat; net_connected : bool }.

Definition ENETUNREACH : string := "[Errno 101] Network is unreachable".

#[export] Instance FakeNet : SocketAPI fake_net := {
  sock_new n := inr (mk_net (net_route n) (S (net_open n)) false);
  sock_connect _ _ n :=
    match net_route n with
    | None => inl (OSError ENETUNREACH)
    | Some _ => inr (mk_net (net_route n) (net_open n) true)
    end;
  sock_getsockname n :=
    match net_route n, net_connected n with
    | Some ip, true => inr (ip, 40000%Z)
    | _, _ => inr ("0.0.0.0"%string, 0%Z)
    end;
  sock_close n := inr (mk_net (net_route n) (pred (net_open n)) false)
}.

(** ** Theorems *)

Section GetIpFacts.
Context {K : Type} `{SocketAPI K}.

Ltac run_get_ip :=
  cbv [get_ip sys call_getsockname try_finally bind ret]; simpl.

(** Case on each library call the goal is stuck on. *)
Ltac sock_cases :=
  repeat (simpl; match goal with
    | |- context [sock_connect ?a ?b ?k] => destruct (sock_connect a b k) eqn:?
    | |- context [sock_getsockname ?k] => destruct (sock_getsockname k) as [|[? ?]] eqn:?
    | |- context [sock_close ?k] => destruct (sock_close k) eqn:?
    end).

(** Without a socket there is nothing to close: [get_ip] raises the
    error of [socket.socket] after that one call. *)
Lemma get_ip_no_socket (o : os K) e :
  sock_new (os_net o) = inl e ->
  get_ip o = (inl e, mk_os (os_net o) (os_calls o ++ [CallSocket])).
Proof. intros E. run_get_ip. now rewrite E. Qed.

(** C27: The [finally] of [get_ip]: once [socket.socket] has returned, the
    socket is closed exactly once, as the last call, whichever of
    [connect] and [getsockname] raised. *)
Theorem get_ip_closes_socket (o : os K) k1 :
  sock_new (os_net o) = inr k1 ->
  exists mid,
    In mid [[CallConnect "8.8.8.8" 80]; [CallConnect "8.8.8.8" 80; CallGetsockname]] /\
    os_calls (snd (get_ip o)) = os_calls o ++ CallSocket :: mid ++ [CallClose].
Proof.
  intros E. run_get_ip. rewrite E. sock_cases;
    first [ exists [CallConnect "8.8.8.8" 80]; split; [simpl; tauto | simpl; now rewrite <- !app_assoc]
          | exists [CallConnect "8.8.8.8" 80; CallGetsockname];
            split; [simpl; tauto | simpl; now rewrite <- !app_assoc] ].
Qed.

(** C28: [get_ip] returns [ip] exactly when the four calls succeed and
    [getsockname()] gave [(ip, port)]; and when [close] raises, its
    exception replaces whatever the [try] block produced. *)
Theorem get_ip_result (o : os K) :
  (forall ip, fst (get_ip o) = inr ip <->
     exists k1 k2 port k3, sock_new (os_net o) = inr k1 /\ sock_connect "8.8.8.8" 80 k1 = inr k2 /\
       sock_getsockname k2 = inr (ip, port) /\ sock_close k2 = inr k3) /\
  (forall k1 e, sock_new (os_net o) = inr k1 -> (forall k, sock_close k = inl e) ->
     fst (get_ip o) = inl e).
Proof.
  split.
  - intros ip. run_get_ip. destruct (sock_new (os_net o)) as [e|k1] eqn:E1; simpl.
    { split; [discriminate | intros (k1 & ? & ? & ? & E & _); congruence]. }
    split.
    + sock_cases; try discriminate. intros Eip. injection Eip as <-.
      do 4 eexists; repeat split; eassumption.
    + intros (k1' & k2 & port & k3 & E1' & E2 & E3 & E4).
      injection E1' as <-. rewrite E2. simpl. rewrite E3. simpl.
      now rewrite E4.
  - intros k1 e E1 Ecl. run_get_ip. rewrite E1. sock_cases;
      repeat match goal with Hc : sock_close ?k = _ |- _ => rewrite Ecl in Hc end; simpl in *; congruence.
Qed.
End GetIpFacts.

(** On [FakeNet], [get_ip] leaks no socket and answers the local
    address of the route, or raises [connect]'s [OSError] when there is no
    route. *)
Theorem get_ip_fake_net route n c calls :
  net_open (os_net (snd (get_ip (mk_os (mk_net route n c) calls)))) = n /\
  fst (get_ip (mk_os (mk_net route n c) calls)) =
    match route with Some ip => inr ip | None => inl (OSError ENETUNREACH) end.
Proof. destruct route; split; reflexivity. Qed.

Section MainFacts.
Context {K : Type} `{SocketAPI K} `{StartupLib K}.





End MainFacts.

(** ** Witnesses *)

Definition net_home : fake_net := mk_net (Some "192.168.1.20"%string) 0 false.

Lemma get_ip_closes_socket_witness :
  sock_new (os_net (mk_os net_home [])) = inr (mk_net (Some "192.168.1.20"%string) 1 false) /\
  exists mid,
    In mid [[CallConnect "8.8.8.8" 80]; [CallConnect "8.8.8.8" 80; CallGetsockname]] /\
    os_calls (snd (get_ip (mk_os net_home []))) = [] ++ CallSocket :: mid ++ [CallClose].
Proof.
  split; [reflexivity|].
  apply (get_ip_closes_socket (mk_os net_home []) (mk_net (Some "192.168.1.20"%string) 1 false)).
  reflexivity.
Defined.
