(* ===== verification/Progress.v ===== *)
(** * Progress: every interleaving of the threaded server ends

    Flask runs each request on a thread of its own ([Concurrency]); nothing
    in [index()], [move()] or [click()] loops, but the two [sum()] loops read
    a deque that other threads keep changing.  This file shows that no
    interleaving runs forever and that all threads can always finish.

    [phase_bound M ph] bounds the steps thread [ph] still takes while the
    window's [maxlen] is [M]: the bound of [Concurrency.solo_measure] with
    the window's length replaced by [M], so that it does not depend on what
    the other threads do to the window.  [gmeasure] adds it over all
    threads.  Every step of every thread lowers [gmeasure] by at least one
    ([gstep_gmeasure]), from which:
    - [interleavings_bounded]: an interleaving of the threads of [rs] takes
      at most [(2 * maxlen + 12) * length rs] steps (termination);
    - [interleavings_terminate]: the step relation is well founded from
      every reachable state ([Acc]);
    - [all_threads_can_finish]: from every reachable state some
      interleaving brings every thread to its answer (liveness).
    These hold of the model because each call to the host is one step
    that returns ([HostInput] is a function): a [moveTo] or [click] that
    blocks forever, or a lock held by the host, is outside the model.
    Since no handler loops, the facts are the bookkeeping that bounds the
    schedules of [Concurrency] and [EndToEnd], not properties of the code
    on their own. *)

From Stdlib Require Import String List Arith Lia ZArith QArith.
From S2P Require Import Prelude PyValue Deque Smoothing Host Server Concurrency.
Import ListNotations.
Local Open Scope nat_scope.

(** ** The measure *)

Definition bound_tail (M : nat) (prev : option num) : nat :=
  match prev with None => M + 8 | Some _ => 5 end.

Definition phase_bound (M : nat) (ph : phase) : nat :=
  match ph with
  | PStart _ => 2 * M + 12
  | PAppend _ => 2 * M + 11
  | PIter _ prev => M + 2 + bound_tail M prev
  | PSum _ it _ prev => it_counter it + 1 + bound_tail M prev
  | PLen _ _ prev => bound_tail M prev
  | PPosition _ _ => 4
  | PPrint _ _ => 3
  | PMoveTo _ _ => 2
  | PExcept _ => 1
  | PDone _ => 0
  | PIndex => 1
  | PClickStart _ => 3
  | PClick _ => 2
  | PClickExcept _ => 1
  end.

Section Progress.
Context {H : Type} `{HostInput H}.

Definition gmeasure (g : gstate H) : nat :=
  list_sum (map (phase_bound (dq_maxlen (g_hist g))) (g_threads g)).

(** [n] steps of the interleaving semantics. *)
Inductive gsteps : nat -> gstate H -> gstate H -> Prop :=
| gsteps_refl g : gsteps 0 g g
| gsteps_step n g g1 g2 : gstep g g1 -> gsteps n g1 g2 -> gsteps (S n) g g2.

(** ** One step *)

Lemma bound_tail_ge M prev : 5 <= bound_tail M prev.
Proof. destruct prev; simpl; lia. Qed.

Lemma thread_step_maxlen (d : history) (h : H) ph :
  dq_maxlen (ef_hist (thread_step d h ph)) = dq_maxlen d.
Proof.
  destruct (thread_step_hist d h ph) as [[E _]|[smp [E _]]]; rewrite E; reflexivity.
Qed.

Lemma thread_step_wf (d : history) (h : H) ph :
  deque_wf d -> deque_wf (ef_hist (thread_step d h ph)).
Proof.
  destruct (thread_step_hist d h ph) as [[E _]|[smp [E _]]]; rewrite E; auto with mc.
Qed.

(** A thread that is not done lowers its bound, whatever the window holds. *)
Lemma phase_bound_step (d : history) (h : H) ph :
  deque_wf d -> is_done ph = false ->
  phase_bound (dq_maxlen d) (ef_next (thread_step d h ph)) < phase_bound (dq_maxlen d) ph.
Proof.
  unfold deque_wf. intros Hwf Hnd. destruct ph; try discriminate Hnd.
  4: { pose proof (bound_tail_ge (dq_maxlen d) avg_dx). simpl. unfold iter_next.
       destruct (negb _); simpl; [lia|].
       destruct (it_counter it) as [|c]; simpl; [lia|].
       destruct (nth_error _ _) as [[]|]; simpl; [destruct (py_add _ _)|]; simpl; lia. }
  all: simpl; unfold bound_tail; destruct_matches; simpl; unfold deque_len in *; try lia.
Qed.

Lemma list_sum_set_nth (f : phase -> nat) i x l y :
  nth_error l i = Some y ->
  list_sum (map f (set_nth i x l)) + f y = list_sum (map f l) + f x.
Proof.
  revert i. induction l as [|z l IH]; intros [|i] E; simpl in *; try discriminate.
  - injection E as ->. lia.
  - specialize (IH i E). lia.
Qed.

Lemma gstep_gmeasure (g g' : gstate H) :
  gstep g g' -> deque_wf (g_hist g) ->
  gmeasure g' < gmeasure g /\ deque_wf (g_hist g') /\ dq_maxlen (g_hist g') = dq_maxlen (g_hist g).
Proof.
  intros Hs Hwf. inversion Hs as [g0 i ph Ei Hnd]; subst.
  unfold sched_step, gmeasure. rewrite Ei, Hnd. cbn [g_hist g_threads].
  rewrite thread_step_maxlen.
  pose proof (list_sum_set_nth (phase_bound (dq_maxlen (g_hist g))) i
                (ef_next (thread_step (g_hist g) (g_host g) ph)) (g_threads g) ph Ei).
  pose proof (phase_bound_step (g_hist g) (g_host g) ph Hwf Hnd).
  split; [lia|]. split; [apply thread_step_wf, Hwf | reflexivity].
Qed.

Lemma gsteps_gmeasure n (g g' : gstate H) :
  gsteps n g g' -> deque_wf (g_hist g) -> n + gmeasure g' <= gmeasure g.
Proof.
  induction 1 as [g|n g g1 g2 Hs Hss IH]; intros Hwf; [lia|].
  destruct (gstep_gmeasure g g1 Hs Hwf) as [Hlt [Hwf1 _]]. specialize (IH Hwf1). lia.
Qed.

Lemma start_gmeasure (s : server H) rs :
  gmeasure (start_requests s rs) <= (2 * dq_maxlen (srv_history s) + 12) * length rs.
Proof.
  unfold gmeasure, start_requests. cbn [g_hist g_threads].
  induction rs as [|r rs IH]; simpl; [lia|].
  assert (phase_bound (dq_maxlen (srv_history s)) (req_phase r) <= 2 * dq_maxlen (srv_history s) + 12)
    by (destruct r; simpl; lia).
  lia.
Qed.

Lemma reachable_wf (s : server H) rs g :
  deque_wf (srv_history s) -> reachable (start_requests s rs) g -> deque_wf (g_hist g).
Proof.
  intros Hwf Hr. pose proof (reachable_hist_inv _ _ Hr eq_refl) as Hh.
  unfold hist_inv in Hh. rewrite Hh. now apply deque_extend_wf.
Qed.

Lemma reachable_trans (g0 g1 g2 : gstate H) :
  reachable g0 g1 -> reachable g1 g2 -> reachable g0 g2.
Proof. intros H01. induction 1 as [|g g' _ IH Hs]; [exact H01 | eapply reach_step; eauto]. Qed.

(** A state that has a thread not done can take a step. *)
Lemma not_all_done_step (g : gstate H) :
  forallb is_done (g_threads g) = false -> exists g', gstep g g'.
Proof.
  intros Hf. destruct (forallb_false_nth is_done _ Hf) as [i [ph [Ei Hnd]]].
  exists (sched_step i g). now apply gstep_thread with ph.
Qed.

Lemma gmeasure_acc n : forall g : gstate H,
  deque_wf (g_hist g) -> gmeasure g <= n -> Acc (fun g2 g1 => gstep g1 g2) g.
Proof.
  induction n as [|n IH]; intros g Hwf Hm; constructor; intros g' Hs;
    destruct (gstep_gmeasure g g' Hs Hwf) as [Hlt [Hwf' _]]; [lia|].
  apply IH; [exact Hwf' | lia].
Qed.

Lemma can_finish n : forall g : gstate H,
  deque_wf (g_hist g) -> gmeasure g <= n ->
  exists k g', gsteps k g g' /\ forallb is_done (g_threads g') = true.
Proof.
  induction n as [|n IH]; intros g Hwf Hm;
    (destruct (forallb is_done (g_threads g)) eqn:Ef; [exists 0, g; split; [constructor | exact Ef]|]);
    destruct (not_all_done_step g Ef) as [g1 Hs];
    destruct (gstep_gmeasure g g1 Hs Hwf) as [Hlt [Hwf1 _]]; [lia|].
  destruct (IH g1 Hwf1 ltac:(lia)) as [k [g2 [Hr Hd]]]. exists (S k), g2. split; [|exact Hd].
  eapply gsteps_step; [exact Hs | exact Hr].
Qed.

(** Termination: however Flask's threads interleave, the requests
    [rs] in flight from a well-formed window are all handled within
    [(2 * maxlen + 12) * length rs] atomic steps: no interleaving runs
    longer, whatever the deque iterators see. *)
Theorem interleavings_bounded (s : server H) (rs : list request) n (g : gstate H) :
  deque_wf (srv_history s) -> gsteps n (start_requests s rs) g ->
  n <= (2 * dq_maxlen (srv_history s) + 12) * length rs.
Proof.
  intros Hwf Hs. pose proof (gsteps_gmeasure n _ g Hs Hwf). pose proof (start_gmeasure s rs). lia.
Qed.

(** Termination, as well-foundedness: from every state an interleaving
    reaches, the step relation admits no infinite descending run, and every
    run from there takes at most [gmeasure g] steps (the bound of each
    thread's remaining steps, summed). *)
Theorem interleavings_terminate (s : server H) (rs : list request) (g : gstate H) :
  deque_wf (srv_history s) -> reachable (start_requests s rs) g ->
  Acc (fun g2 g1 => gstep g1 g2) g /\ forall n g', gsteps n g g' -> n <= gmeasure g.
Proof.
  intros Hwf Hr. pose proof (reachable_wf s rs g Hwf Hr) as Hwg.
  split; [eapply gmeasure_acc; [exact Hwg | reflexivity]|].
  intros n g' Hs. pose proof (gsteps_gmeasure n g g' Hs Hwg). lia.
Qed.

(** Liveness: from every state an interleaving reaches, some
    interleaving of at most [gmeasure g] steps brings every thread to its
    answer, and there no thread can step any more: every request gets a
    response. *)
Theorem all_threads_can_finish (s : server H) (rs : list request) (g : gstate H) :
  deque_wf (srv_history s) -> reachable (start_requests s rs) g ->
  exists k g', gsteps k g g' /\ k <= gmeasure g /\ Forall (fun ph => is_done ph = true) (g_threads g')
               /\ forall g'', ~ gstep g' g''.
Proof.
  intros Hwf Hr. pose proof (reachable_wf s rs g Hwf Hr) as Hwg.
  destruct (can_finish _ g Hwg (le_n _)) as [k [g' [Hs Hd]]].
  exists k, g'. split; [exact Hs|]. split; [pose proof (gsteps_gmeasure k g g' Hs Hwg); lia|].
  assert (Hall : Forall (fun ph => is_done ph = true) (g_threads g'))
    by (apply Forall_forall; intros ph Hin; exact (proj1 (forallb_forall _ _) Hd ph Hin)).
  split; [exact Hall|]. intros g'' Hst. inversion Hst as [g0 i ph Ei Hnd]; subst.
  apply nth_error_In in Ei. rewrite Forall_forall in Hall. specialize (Hall ph Ei). congruence.
Qed.
End Progress.

(** ** Witnesses *)

(** The three threads of [Concurrency.mixed] after an interleaving of six
    steps: thread 0 is inside its [sum] when thread 2 appends. *)
Definition mixed_midway : gstate ideal_host :=
  run_sched [0; 0; 0; 1; 2; 2] (start_requests srv_idle mixed).

Lemma interleavings_bounded_witness :
  deque_wf (srv_history srv_idle) /\
  gsteps 2 (start_requests srv_idle mixed)
    (sched_step 1 (sched_step 0 (start_requests srv_idle mixed))) /\
  2 <= (2 * dq_maxlen (srv_history srv_idle) + 12) * length mixed.
Proof.
  assert (Hw : deque_wf (srv_history srv_idle)) by (vm_compute; lia).
  assert (Hs : gsteps 2 (start_requests srv_idle mixed)
                 (sched_step 1 (sched_step 0 (start_requests srv_idle mixed)))).
  { eapply gsteps_step; [apply (gstep_thread _ 0 (PStart body_10_0)); reflexivity|].
    eapply gsteps_step; [apply (gstep_thread _ 1 (PClickStart (PDict [("button"%string, PStr "left")])));
                         reflexivity|].
    apply gsteps_refl. }
  split; [exact Hw|]. split; [exact Hs|]. exact (interleavings_bounded srv_idle mixed 2 _ Hw Hs).
Defined.

Lemma interleavings_terminate_witness :
  deque_wf (srv_history srv_idle) /\ reachable (start_requests srv_idle mixed) mixed_midway /\
  (Acc (fun g2 g1 => gstep g1 g2) mixed_midway /\
   forall n g', gsteps n mixed_midway g' -> n <= gmeasure mixed_midway).
Proof.
  assert (Hw : deque_wf (srv_history srv_idle)) by (vm_compute; lia).
  assert (Hr : reachable (start_requests srv_idle mixed) mixed_midway) by apply run_sched_reachable.
  split; [exact Hw|]. split; [exact Hr|]. exact (interleavings_terminate srv_idle mixed _ Hw Hr).
Defined.

Lemma all_threads_can_finish_witness :
  deque_wf (srv_history srv_idle) /\ reachable (start_requests srv_idle mixed) mixed_midway /\
  exists k g', gsteps k mixed_midway g' /\ k <= gmeasure mixed_midway /\
    Forall (fun ph => is_done ph = true) (g_threads g') /\ forall g'', ~ gstep g' g''.
Proof.
  assert (Hw : deque_wf (srv_history srv_idle)) by (vm_compute; lia).
  assert (Hr : reachable (start_requests srv_idle mixed) mixed_midway) by apply run_sched_reachable.
  split; [exact Hw|]. split; [exact Hr|]. exact (all_threads_can_finish srv_idle mixed _ Hw Hr).
Defined.
